(* ===== verification/_CoqProject ===== *)
-Q . S2P
Prelude.v
CLib.v
Types.v
Hash.v
Validation.v
Ledger.v
Persistence.v
Store.v
Auth.v
Transfer.v
Display.v
System.v
