(* ===== verification/Prelude.v ===== *)
(** * A verification development of the Sarnath bank ledger ([src/bank.c])

    [src/bank.c] is a single-file C console program (Windows: it includes
    [conio.h]) that keeps a global array [accounts[MAX_ACCOUNTS]] of
    [BankAccount] records with [total_accounts] in use, a pointer
    [current_user] to the logged-in account, and a snapshot of the whole
    array in the file [accounts.dat].  [main] runs [main_menu], which loads
    the snapshot and dispatches menu choices to the handlers; every handler
    that changes an account calls [save_accounts].

    ** Files, leaves first

    - [Prelude.v] (this file): the outcome type of handlers with early
      returns and its notations [let*] and [check] (scope [bank_scope]),
      the linear search [find_first] both [find_account_*] loops
      instantiate, [sum_by], the tactics and the hint databases [bank] and
      [bank_len].
    - [CLib.v]: the C library the program calls ([strcmp], [strlen],
      [isalpha], [isdigit], [sprintf("%lx")], [sprintf("%0<w>d")] (one
      digit loop [digits_in] for both, with its fuel lemmas),
      [srand]/[rand] of the Microsoft C runtime), modelled as the
      functions the program relies on; not code of the repository.
    - [Types.v]: constants, [Transaction], [BankAccount],
      [AdminCredentials] and the globals (lines 8-45, 78-82) as records;
      the handlers' messages as [bank_error]; the environment [env].
    - [Hash.v]: [hash_password] (lines 85-96), djb2 on an [unsigned long].
    - [Validation.v]: [validate_email], [validate_mobile],
      [validate_amount], the name and username checks of [create_account],
      the masked password reader (the [getch] loop of the password
      prompts) and [generate_account_number].
    - [Ledger.v]: [add_transaction] (capacity [MAX_TRANSACTIONS], silent
      drop when full) and [view_transaction_history]; the ledger
      invariant [ledger_ok].
    - [Persistence.v]: [save_accounts] and [load_accounts] over the byte
      image [fwrite]/[fread] see.
    - [Store.v]: the lookups, [create_account], [deposit_money],
      [withdraw_money], [change_password], the administrator's block,
      unblock and statistics; the store invariant [globals_ok].
    - [Auth.v]: [user_login] up to its dashboard, [admin_login], and an
      abstract lockout state machine [lock_step].
    - [Transfer.v]: [transfer_money].
    - [Display.v]: what the program prints, as data:
      [get_current_date], [view_account_details],
      [admin_view_all_accounts]; the money-flow theorem of the
      administrator's totals.
    - [System.v]: the three menus ([main_menu], the admin and the user
      dashboards) as [main_step], [admin_step], [user_step], the
      transition system [step], reachability [reach], runs [run], starts
      [boot] and the liveness predicate [eventually].

    ** How the code is modelled

    - The globals are the record [Types.globals]: [total_accounts] is the
      length of the list [accounts], [current_user] an index into it, the
      file a byte list.  Every handler is a function from the globals and
      its inputs to new globals and a [status] (the message it prints);
      writes through [current_user] and [target] are list updates
      ([alter], [<[i:=a]>]) in the order the code performs them.
    - Amounts ([double]) are integers [Z]; the checks compare the same
      expressions as the code.  [int] fields are [Z]; the snapshot codec
      requires them in [int] range.  [unsigned long] in the hash keeps its
      32-bit width (Windows) with each wrap-around written out.
    - Strings are [string] without NUL bytes; [char] arrays are unbounded
      here, and the snapshot theorem requires each string to fit its array.
    - The clock, the seed [time(NULL)] and the success of [fopen] are
      inputs of each handler (record [Types.env]).
    - Fuel: [hex_digits] runs 16 digits (enough for every value below
      [2^64]), [dec_digits] 20 (enough below [10^20]); [digits_in_fuel]
      shows that more fuel changes nothing once it covers the digits (a
      32-bit hash has at most 8 hexadecimal digits).  The masked
      reader and all other loops recurse on their input list, so every
      definition is total and computes.

    ** What is proved

    - [System.reach_ok]: in every reachable state all accounts keep their
      type's floor, consistent ledgers and lockout counters in range,
      usernames are unique, and the user dashboard is shown exactly when
      [current_user] is an active account (induction on [reach] from one
      preservation lemma per handler); [System.blocked_account_frozen]: no
      menu choice but the administrator's unblock changes a blocked
      account.
    - Liveness ([System.eventually]): the program can always be left
      ([exit_reachable]) and a holder who knows the password can always
      get back in through the administrator's unblock
      ([account_recoverable]).
    - [Display.total_balance_moves]: the administrator's total moves only
      with successful deposits, withdrawals and openings.
    - Per handler, on every branch: [Transfer.transfer_money_spec],
      [transfer_money_rejects_unchanged], [transfer_money_conserves];
      [Store.withdraw_money_spec], [Store.deposit_money_spec];
      [Auth.user_login_refines] (refinement of [lock_step]),
      [three_failed_logins_block], [user_login_success_resets].
    - [Store.create_account_spec] and [create_account_new_account]: when
      [create_account] succeeds and what it appends.
    - [Persistence.load_accounts_save_accounts]: loading what was saved
      gives back the same state, by round trips of each field codec;
      [encode_table_length]: the image has the sizes of the C structs;
      [System.exit_then_restart]: "Exit" then a new start of the program
      restores the table with the invariant.
    - Handlers composed: [Auth.block_then_login_refused],
      [unblock_then_login], [change_password_then_login].
    - [Ledger.ledger_balance_replay]: every change recorded with
      [add_transaction] on a consistent ledger appends one entry of its
      type and amount and keeps the balance equal to the sum of the
      ledger; the validators' characterisations;
      the bounds of the password reader, of the account numbers and of the
      printed date ([Display.get_current_date_fits]); the djb2 loop against
      its arithmetic definition.
    - The divergences from the specification, as theorems: duplicate
      account numbers ([Store.create_account_same_second_same_number]),
      and the later holder of a duplicated number, whom no transfer, block
      or unblock reaches ([Transfer.shadowed_account_untouched]),
      one-sided transfers and unrecorded deposits when a ledger is full,
      success reported when the save fails, the unsaved lockout reset,
      the unchecked account count of the file
      ([Persistence.load_accounts_count_unchecked]),
      passwords that collide under djb2, and passwords of 20 to 38
      characters that can never be confirmed
      ([Store.create_account_long_password_refused]).

    ** Not modelled

    [clear_screen] ([system("cls")]) and [pause_system] (a [getch] whose
    key is discarded): they change no program state, and the menus'
    events abstract the keystrokes; the column layout of [printf] (the
    displays are modelled as the values they print); [time] and
    [localtime] (their broken-down time is the input of
    [get_current_date], and the handlers receive the formatted date);
    [scanf] overflow of the [char] arrays and its failure on non-numeric
    input; fractional amounts and IEEE rounding of [double].  The
    theorems on money are exact for [double] while every balance stays
    below [2^53]; [create_account] bounds the initial deposit only from
    below (lines 563-565), so a balance of [2^53] or more can be opened,
    and from there C rounds small deposits and transfers (a transfer of 1
    can debit 0 or 2 and credit 0 or 2, making or losing money) where [Z]
    does not.  Not modelled either: the partial
    struct [fread] copies from a truncated file, and negative counts in
    it (they index [accounts[-1]]).
*)

From Stdlib Require Import ZArith Lia.
From stdpp Require Import base list decidable.

Declare Scope bank_scope.
Delimit Scope bank_scope with bank.
Open Scope bank_scope.

(** ** Outcomes of code with early returns *)

(** A C handler that validates its inputs one after the other and returns
    at the first failure is a computation in this error monad. *)
Inductive outcome (E A : Type) : Type :=
| Ok (a : A)
| Err (e : E).
Arguments Ok {E A} a.
Arguments Err {E A} e.

Definition obind {E A B} (m : outcome E A) (k : A -> outcome E B) : outcome E B :=
  match m with
  | Ok a => k a
  | Err e => Err e
  end.

(** [if (!cond) { print(e); return; }] *)
Definition guard {E} (b : bool) (e : E) : outcome E unit :=
  if b then Ok tt else Err e.

(** A [switch] whose [default:] case prints an error and returns. *)
Definition of_option {E A} (o : option A) (e : E) : outcome E A :=
  match o with Some a => Ok a | None => Err e end.

Notation "'let*' x := m 'in' k" := (obind m (fun x => k))
  (at level 10, x name, m at level 100, k at level 200) : bank_scope.
Notation "'check' b 'else' e 'in' k" := (obind (guard b e) (fun _ => k))
  (at level 10, b at level 100, e at level 100, k at level 200) : bank_scope.

Lemma obind_Ok {E A B} (m : outcome E A) (k : A -> outcome E B) b :
  obind m k = Ok b <-> exists a, m = Ok a /\ k a = Ok b.
Proof.
  destruct m as [a|e]; simpl; split.
  - eauto.
  - intros (a' & [= ->] & H). exact H.
  - discriminate.
  - intros (a' & ? & _). discriminate.
Qed.

Lemma guard_Ok {E} (b : bool) (e : E) u : guard b e = Ok u <-> b = true.
Proof. destruct b; simpl; split; congruence || (intros; destruct u; reflexivity). Qed.

(** ** Linear search: [for (i = 0; i < n; i++) if (p(a[i])) return &a[i];] *)

Section FindFirst.
Context {A : Type} (p : A -> bool).

Fixpoint find_first_from (i : nat) (l : list A) : option (nat * A) :=
  match l with
  | [] => None
  | x :: l' => if p x then Some (i, x) else find_first_from (S i) l'
  end.

Definition find_first (l : list A) : option (nat * A) := find_first_from 0 l.

Lemma find_first_from_Some i l j x :
  find_first_from i l = Some (j, x) ->
  i <= j /\ l !! (j - i) = Some x /\ p x = true /\
  (forall k y, k < j - i -> l !! k = Some y -> p y = false).
Proof.
  revert i. induction l as [|y l IH]; intros i H; simpl in H; [discriminate|].
  destruct (p y) eqn:Hy.
  - injection H as <- <-. rewrite Nat.sub_diag. split_and!; auto; intros; lia.
  - apply IH in H as (Hij & Hl & Hp & Hbefore).
    split_and!; [lia| |done|].
    + replace (j - i) with (S (j - S i)) by lia. exact Hl.
    + intros [|k] z Hk Hz; simpl in Hz; [congruence|].
      apply (Hbefore k z); [lia|exact Hz].
Qed.

(** The loop returns the first element that satisfies the test. *)
Lemma find_first_Some l j x :
  find_first l = Some (j, x) ->
  l !! j = Some x /\ p x = true /\
  (forall k y, k < j -> l !! k = Some y -> p y = false).
Proof.
  intros H. apply find_first_from_Some in H as (_ & H).
  rewrite Nat.sub_0_r in H. exact H.
Qed.

Lemma find_first_from_None i l :
  find_first_from i l = None <-> Forall (fun x => p x = false) l.
Proof.
  revert i. induction l as [|y l IH]; intros i; simpl.
  - split; [constructor|done].
  - rewrite Forall_cons_iff. destruct (p y) eqn:Hy.
    + split; [discriminate|intros [? _]; congruence].
    + rewrite IH. tauto.
Qed.

(** The loop returns [NULL] exactly when no element satisfies the test. *)
Lemma find_first_None l :
  find_first l = None <-> Forall (fun x => p x = false) l.
Proof. apply find_first_from_None. Qed.

Lemma find_first_complete l j x :
  l !! j = Some x -> p x = true -> exists k y, find_first l = Some (k, y) /\ k <= j.
Proof.
  intros Hj Hx. destruct (find_first l) as [[k y]|] eqn:Hf.
  - exists k, y. split; [done|].
    apply find_first_Some in Hf as (_ & _ & Hbefore).
    destruct (decide (k <= j)); [done|].
    rewrite (Hbefore j x) in Hx; [discriminate|lia|done].
  - apply find_first_None in Hf. rewrite Forall_lookup in Hf.
    rewrite (Hf j x Hj) in Hx. discriminate.
Qed.

Lemma find_first_from_intro i l j x :
  l !! j = Some x -> p x = true ->
  (forall k y, k < j -> l !! k = Some y -> p y = false) ->
  find_first_from i l = Some (i + j, x).
Proof.
  revert i j. induction l as [|y l IH]; intros i j Hj Hx Hbefore; [done|simpl].
  destruct j as [|j]; simpl in Hj.
  - injection Hj as ->. rewrite Hx. f_equal. f_equal. lia.
  - rewrite (Hbefore 0 y) by (done || lia).
    replace (i + S j) with (S i + j) by lia. apply IH; [done|done|].
    intros k z Hk Hz. apply (Hbefore (S k) z); [lia|done].
Qed.

(** Conversely, the first element that satisfies the test is found. *)
Lemma find_first_intro l j x :
  l !! j = Some x -> p x = true ->
  (forall k y, k < j -> l !! k = Some y -> p y = false) ->
  find_first l = Some (j, x).
Proof. intros. by apply (find_first_from_intro 0). Qed.

Lemma find_first_from_app_r i l x :
  Forall (fun y => p y = false) l ->
  find_first_from i (l ++ [x]) =
    if p x then Some (i + length l, x) else None.
Proof.
  revert i. induction l as [|y l IH]; intros i Hl; simpl.
  - rewrite Nat.add_0_r. destruct (p x); reflexivity.
  - apply Forall_cons_iff in Hl as [Hy Hl]. rewrite Hy, IH by done.
    replace (S i + length l) with (i + S (length l)) by lia. reflexivity.
Qed.
End FindFirst.

(** A search whose test does not look at what [f] changes finds the same
    index after an in-place update with [f]. *)
Lemma find_first_alter {A} (p : A -> bool) (f : A -> A) (i : nat) (l : list A) :
  (forall x, p (f x) = p x) ->
  fst <$> find_first p (alter f i l) = fst <$> find_first p l.
Proof.
  intros Hf. unfold find_first. generalize 0 as n.
  revert i. induction l as [|y l IH]; intros [|i] n; simpl; try done.
  - rewrite Hf. by destruct (p y).
  - destruct (p y); [done|apply IH].
Qed.

(** Overwriting the element a search found with one the test treats alike
    leaves the search pointing at it. *)
Lemma find_first_insert {A} (p : A -> bool) (l : list A) i x x' :
  find_first p l = Some (i, x) -> p x' = p x -> find_first p (<[i := x']> l) = Some (i, x').
Proof.
  intros Hf Hp. apply find_first_Some in Hf as (Hi & Hx & Hbefore).
  apply find_first_intro.
  - apply list_lookup_insert_eq. by eapply lookup_lt_Some.
  - by rewrite Hp.
  - intros k y Hk Hy. rewrite list_lookup_insert_ne in Hy by lia. by eapply Hbefore.
Qed.

(** [p->f(...)] through a pointer at index [i] is an [alter]; with the
    element known it is an [insert]. *)
Lemma alter_as_insert {A} (f : A -> A) (l : list A) i x :
  l !! i = Some x -> alter f i l = <[i := f x]> l.
Proof.
  intros H. rewrite list_insert_alter. apply list_alter_ext; [|done].
  intros y Hy. congruence.
Qed.

(** A running sum [for (...) total += f(a[i]);] over integers. *)
Definition sum_by {A} (f : A -> Z) (l : list A) : Z := fold_left (fun t a => (t + f a)%Z) l 0%Z.

Lemma fold_left_add_acc {A} (f : A -> Z) (l : list A) acc :
  fold_left (fun t a => (t + f a)%Z) l acc = (acc + sum_by f l)%Z.
Proof.
  unfold sum_by. revert acc. induction l as [|y l IH]; intros acc; simpl; [lia|].
  rewrite IH, (IH (0 + f y)%Z). lia.
Qed.

Lemma sum_by_cons {A} (f : A -> Z) x l : sum_by f (x :: l) = (f x + sum_by f l)%Z.
Proof. unfold sum_by at 1. simpl. rewrite fold_left_add_acc. lia. Qed.

Lemma sum_by_insert {A} (f : A -> Z) (l : list A) i x y :
  l !! i = Some y -> sum_by f (<[i := x]> l) = (sum_by f l - f y + f x)%Z.
Proof.
  revert i. induction l as [|z l IH]; intros [|i] Hi; simpl in *; try discriminate.
  - injection Hi as ->. rewrite !sum_by_cons. lia.
  - rewrite !sum_by_cons, IH by done. lia.
Qed.

Lemma sum_by_app {A} (f : A -> Z) l1 l2 : sum_by f (l1 ++ l2) = (sum_by f l1 + sum_by f l2)%Z.
Proof. unfold sum_by at 1. rewrite fold_left_app, !fold_left_add_acc. lia. Qed.

(** [i--] on a buffer: dropping the last element. *)
Lemma length_removelast {A} (l : list A) : length (removelast l) = pred (length l).
Proof. rewrite removelast_firstn_len, length_take. lia. Qed.

(** ** Tactics and hints *)

Create HintDb bank discriminated.
Create Rewrite HintDb bank_len.

(** Case analysis on the boolean comparisons of integers in a goal or its
    hypotheses, the way the code branches on them. *)
Ltac zcase :=
  repeat match goal with
  | |- context [Z.ltb ?a ?b] => destruct (Z.ltb_spec a b)
  | |- context [Z.leb ?a ?b] => destruct (Z.leb_spec a b)
  | |- context [Z.eqb ?a ?b] => destruct (Z.eqb_spec a b)
  | H : context [Z.ltb ?a ?b] |- _ => destruct (Z.ltb_spec a b)
  | H : context [Z.leb ?a ?b] |- _ => destruct (Z.leb_spec a b)
  | H : context [Z.eqb ?a ?b] |- _ => destruct (Z.eqb_spec a b)
  end.

(** Turn a boolean [&&] hypothesis into its two halves. *)
Ltac split_andb :=
  repeat match goal with
  | H : (_ && _)%bool = true |- _ => apply andb_prop in H as [? ?]
  end.

(** Take apart a hypothesis [m = Ok a] where [m] is a chain of [check]s
    and [let*]s: one hypothesis per passed check. *)
Ltac outcome_inv H :=
  repeat match type of H with
  | obind (guard _ _) _ = Ok _ =>
      let Hg := fresh "Hg" in apply obind_Ok in H as ([] & Hg & H); apply guard_Ok in Hg
  | obind _ _ = Ok _ =>
      let Hm := fresh "Hm" in apply obind_Ok in H as (? & Hm & H)
  | Ok _ = Ok _ => injection H as H
  end.

#[export] Hint Resolve find_first_Some find_first_None : bank.
#[export] Hint Rewrite @length_alter @length_insert @length_app @length_removelast : bank_len.
