(* ===== verification/CLib.v ===== *)
(** * The C library functions [src/bank.c] calls

    Models of the standard C and Windows CRT functions whose results the
    program's logic depends on: [strcmp(a,b) == 0], [strlen], [isalpha] and
    [isdigit] in the "C" locale, the value of a plain [char] (signed on
    Windows), [sprintf("%lx")] (lower-case hexadecimal without leading
    zeros), [sprintf("%010d")] and the first [rand()] after [srand(seed)] of
    the Microsoft CRT.  They are not code of the repository: they fix the
    meaning of the calls.  The file also proves what the program needs of
    them: ["%lx"] is injective (parsing the digits back gives the value), so
    comparing two printed hashes with [strcmp] compares the hash values. *)

From Stdlib Require Import ZArith Lia Ascii.
From stdpp Require Import base list strings.
From S2P Require Import Prelude.

Local Open Scope string_scope.
Local Open Scope Z_scope.

(** ** Strings and characters *)

(** [strcmp(a, b) == 0] *)
Definition strcmp_eq (a b : string) : bool := String.eqb a b.

(** [strlen(s)] *)
Definition strlen (s : string) : Z := Z.of_nat (String.length s).

Definition char_code (c : ascii) : Z := Z.of_N (N_of_ascii c).

(** [isalpha(c)] and [isdigit(c)] in the "C" locale. *)
Definition isalpha (c : ascii) : bool :=
  let n := char_code c in ((65 <=? n) && (n <=? 90)) || ((97 <=? n) && (n <=? 122)).

Definition isdigit (c : ascii) : bool :=
  let n := char_code c in (48 <=? n) && (n <=? 57).

(** [int c = *p] for a plain [char], which is signed with the Windows
    compilers: bytes 128..255 read as -128..-1. *)
Definition signed_char (c : ascii) : Z :=
  let n := char_code c in if 128 <=? n then n - 256 else n.

Lemma length_list_ascii s : length (String.list_ascii_of_string s) = String.length s.
Proof. induction s as [|c s IH]; simpl; [done|by rewrite IH]. Qed.

Lemma strcmp_eq_spec a b : strcmp_eq a b = true <-> a = b.
Proof. unfold strcmp_eq. apply String.eqb_eq. Qed.

Lemma char_code_range c : 0 <= char_code c < 256.
Proof.
  unfold char_code. pose proof (N_ascii_bounded c). lia.
Qed.

Lemma signed_char_range c : -128 <= signed_char c < 128.
Proof.
  unfold signed_char. pose proof (char_code_range c). zcase; lia.
Qed.

#[export] Hint Rewrite length_list_ascii : bank_len.

(** ** [sprintf(buf, "%lx", v)] *)

Definition hex_digit (d : Z) : ascii :=
  ascii_of_N (Z.to_N (if d <? 10 then 48 + d else 87 + d)).

(** The digits of [v] in base [base], most significant first, as the
    digit loop of [printf] produces them; [fuel] bounds their number. *)
Fixpoint digits_in (base : Z) (digit : Z -> ascii) (fuel : nat) (v : Z) : list ascii :=
  match fuel with
  | O => []
  | S f => if v <? base then [digit v]
           else digits_in base digit f (v / base) ++ [digit (v mod base)]
  end.

(** Hexadecimal digits (16 of them hold any 64-bit value). *)
Abbreviation hex_digits := (digits_in 16 hex_digit).

Definition sprintf_lx (v : Z) : string := String.string_of_list_ascii (hex_digits 16 v).

(** Reading hexadecimal digits back, as [strtoul(s, NULL, 16)] does. *)
Definition hex_value (c : ascii) : Z :=
  let n := char_code c in if n <? 97 then n - 48 else n - 87.

Definition parse_hex (cs : list ascii) : Z :=
  fold_left (fun acc c => acc * 16 + hex_value c) cs 0.

Lemma hex_value_digit d : 0 <= d < 16 -> hex_value (hex_digit d) = d.
Proof.
  intros Hd. unfold hex_value, hex_digit, char_code.
  destruct (Z.ltb_spec d 10);
    rewrite N_ascii_embedding, Z2N.id by lia; zcase; lia.
Qed.

Lemma parse_hex_snoc cs c : parse_hex (cs ++ [c]) = parse_hex cs * 16 + hex_value c.
Proof. unfold parse_hex. by rewrite fold_left_app. Qed.

Lemma parse_hex_digits n v :
  0 <= v < 16 ^ Z.of_nat n -> parse_hex (hex_digits n v) = v.
Proof.
  revert v. induction n as [|n IH]; intros v Hv; simpl.
  - rewrite Z.pow_0_r in Hv. unfold parse_hex; simpl. lia.
  - rewrite Nat2Z.inj_succ, Z.pow_succ_r in Hv by lia.
    destruct (Z.ltb_spec v 16).
    + unfold parse_hex. simpl. rewrite hex_value_digit; lia.
    + rewrite parse_hex_snoc, IH, hex_value_digit.
      * pose proof (Z.div_mod v 16). lia.
      * apply Z.mod_pos_bound. lia.
      * split; [apply Z.div_pos; lia|]. apply Z.div_lt_upper_bound; lia.
Qed.

(** Two values below [2^64] print to the same ["%lx"] string only when they
    are equal: [strcmp] on printed hashes decides equality of the values. *)
Lemma sprintf_lx_inj v w :
  0 <= v < 2 ^ 64 -> 0 <= w < 2 ^ 64 -> sprintf_lx v = sprintf_lx w -> v = w.
Proof.
  intros Hv Hw H. unfold sprintf_lx in H.
  apply (f_equal String.list_ascii_of_string) in H.
  rewrite !String.list_ascii_of_string_of_list_ascii in H.
  assert (E : 16 ^ Z.of_nat 16 = 2 ^ 64) by reflexivity.
  rewrite <- (parse_hex_digits 16 v), <- (parse_hex_digits 16 w) by lia.
  by rewrite H.
Qed.

(** ** [sprintf(buf, "%0<w>d", v)] for [v >= 0] *)

Definition dec_digit (d : Z) : ascii := ascii_of_N (Z.to_N (48 + d)).

Abbreviation dec_digits := (digits_in 10 dec_digit).

(** [sprintf("%0<w>d", v)] for [v >= 0]: zero-padded on the left to at
    least [w] characters. *)
Definition sprintf_0nd (w : nat) (v : Z) : string :=
  let ds := dec_digits 20 v in
  String.string_of_list_ascii (repeat "0"%char (w - length ds) ++ ds).

Abbreviation sprintf_010d := (sprintf_0nd 10).

(** ** Enough fuel

    The digit loop stops by itself once the value is below the base: a
    value below [base ^ n] needs at most [n] rounds, and more fuel gives the
    same digits. *)
Lemma digits_in_fuel base digit n m v :
  2 <= base -> (1 <= n <= m)%nat -> 0 <= v < base ^ Z.of_nat n ->
  digits_in base digit m v = digits_in base digit n v.
Proof.
  intros Hb. revert m v. induction n as [|n IH]; intros m v Hnm Hv; [lia|].
  destruct m as [|m]; [lia|]. simpl.
  destruct (Z.ltb_spec v base); [done|].
  destruct (decide (n = 0%nat)) as [->|Hn0].
  - simpl in Hv. lia.
  - rewrite (IH m); [done|lia|].
    rewrite Nat2Z.inj_succ, Z.pow_succ_r in Hv by lia.
    split; [apply Z.div_pos; lia|]. apply Z.div_lt_upper_bound; lia.
Qed.

(** The number of digits of a value below [base ^ n]. *)
Lemma length_digits_in base digit fuel n v :
  2 <= base -> (1 <= n)%nat -> 0 <= v < base ^ Z.of_nat n -> (length (digits_in base digit fuel v) <= n)%nat.
Proof.
  intros Hb. revert n v. induction fuel as [|f IH]; intros n v Hn Hv; simpl; [lia|].
  destruct (Z.ltb_spec v base); simpl; [lia|].
  destruct n as [|n]; [lia|].
  destruct (decide (n = 0%nat)) as [->|Hn0]; [simpl in Hv; lia|].
  rewrite length_app. simpl.
  enough (length (digits_in base digit f (v / base)) <= n)%nat by lia.
  apply IH; [lia|].
  rewrite Nat2Z.inj_succ, Z.pow_succ_r in Hv by lia.
  split; [apply Z.div_pos; lia|]. apply Z.div_lt_upper_bound; lia.
Qed.

(** Every character the loop prints is a digit of the base. *)
Lemma digits_in_elem base digit fuel v c :
  2 <= base -> 0 <= v -> c ∈ digits_in base digit fuel v -> exists d, 0 <= d < base /\ c = digit d.
Proof.
  intros Hb. revert v. induction fuel as [|f IH]; intros v Hv Hc; simpl in Hc;
    [by apply not_elem_of_nil in Hc|].
  destruct (Z.ltb_spec v base).
  - apply list_elem_of_singleton in Hc as ->. exists v. split; [lia|done].
  - apply elem_of_app in Hc as [Hc|Hc%list_elem_of_singleton].
    + apply (IH (v / base)); [apply Z.div_pos; lia|done].
    + exists (v mod base). split; [apply Z.mod_pos_bound; lia|done].
Qed.

Lemma dec_digit_not_nul d : 0 <= d < 10 -> dec_digit d <> "000"%char.
Proof.
  intros Hd. assert (d = 0 \/ d = 1 \/ d = 2 \/ d = 3 \/ d = 4 \/ d = 5 \/ d = 6 \/ d = 7 \/ d = 8 \/ d = 9)
    as Hcases by lia.
  repeat destruct Hcases as [->|Hcases]; subst; vm_compute; discriminate.
Qed.

Lemma list_ascii_of_string_app s t :
  String.list_ascii_of_string (String.append s t) =
    app (String.list_ascii_of_string s) (String.list_ascii_of_string t).
Proof. induction s as [|c s IH]; simpl; [done|by rewrite IH]. Qed.

Lemma length_string_of_list_ascii cs : String.length (String.string_of_list_ascii cs) = length cs.
Proof. by rewrite <- length_list_ascii, String.list_ascii_of_string_of_list_ascii. Qed.

(** [%0<w>d] of a value with at most [w] digits prints exactly [w]
    characters, none of them a NUL. *)
Lemma length_sprintf_0nd w v :
  (1 <= w)%nat -> 0 <= v < 10 ^ Z.of_nat w -> String.length (sprintf_0nd w v) = w.
Proof.
  intros Hw Hv. unfold sprintf_0nd. rewrite length_string_of_list_ascii, length_app, repeat_length.
  pose proof (length_digits_in 10 dec_digit 20 w v ltac:(lia) Hw Hv). lia.
Qed.

Lemma sprintf_0nd_not_nul w v :
  0 <= v -> Forall (fun c => c <> "000"%char) (String.list_ascii_of_string (sprintf_0nd w v)).
Proof.
  intros Hv. unfold sprintf_0nd. rewrite String.list_ascii_of_string_of_list_ascii.
  apply Forall_app. split.
  - apply Forall_forall. intros c Hc%list_elem_of_In%repeat_spec. subst. discriminate.
  - apply Forall_forall. intros c Hc.
    destruct (digits_in_elem 10 dec_digit 20 v c) as (d & Hd & ->); [lia|done|done|].
    by apply dec_digit_not_nul.
Qed.

(** ** [srand(seed); rand()] of the Microsoft C runtime

    The CRT keeps a 32-bit [holdrand]: [srand] sets it to the seed, [rand]
    steps it as [holdrand * 214013 + 2531011] and returns bits 16..30, a
    value in [0, RAND_MAX] with [RAND_MAX = 32767]. *)
Definition RAND_MAX : Z := 32767.

Definition crt_rand_after_srand (seed : Z) : Z :=
  Z.land (Z.shiftr ((seed mod 2 ^ 32 * 214013 + 2531011) mod 2 ^ 32) 16) RAND_MAX.

Lemma crt_rand_after_srand_range seed : 0 <= crt_rand_after_srand seed <= RAND_MAX.
Proof.
  unfold crt_rand_after_srand, RAND_MAX.
  set (x := Z.shiftr _ 16).
  assert (E : Z.land x 32767 = x mod 32768)
    by (change 32767 with (Z.ones 15); rewrite Z.land_ones by lia; reflexivity).
  rewrite E. pose proof (Z.mod_pos_bound x 32768). lia.
Qed.
