(* ===== verification/Types.v ===== *)
(** * The data model of [src/bank.c] (lines 8-45 and 78-82)

    The constants, the [Transaction] and [BankAccount] structs, the
    administrator's credentials, the outcome messages of the handlers, and
    the program's global variables gathered in one record [globals].  A
    field-by-field copy of the structs: [char[N]] fields are strings, the
    [double] fields are integers, [is_active] is a boolean (the code only
    stores 0 and 1 in it), and the array [transactions[MAX_TRANSACTIONS]]
    with its [transaction_count] is the list of the [transaction_count]
    entries in use. *)

From Stdlib Require Import ZArith Lia.
From stdpp Require Import base list strings.
From S2P Require Import Prelude.

Local Open Scope string_scope.
Local Open Scope Z_scope.

(** ** Constants (lines 8-13) *)

Definition MAX_NAME_LEN : Z := 50.
Definition MAX_USERNAME_LEN : Z := 20.
Definition MAX_PASSWORD_LEN : Z := 20.
Definition MAX_ACCOUNTS : Z := 1000.
Definition MIN_BALANCE : Z := 500.
Definition MAX_TRANSACTIONS : Z := 100.

(** ** Structs (lines 16-45) *)

Record Transaction := mkTransaction {
  date : string;
  type : string;              (* DEPOSIT, WITHDRAW, TRANSFER_IN, TRANSFER_OUT *)
  amount : Z;
  balance_after : Z;
  description : string;
  reference_account : string
}.

Record BankAccount := mkAccount {
  account_number : string;
  name : string;
  username : string;
  password_hash : string;
  dob : string;
  mobile : string;
  email : string;
  balance : Z;
  account_type : string;      (* SAVINGS, CURRENT, PREMIUM *)
  is_active : bool;
  failed_attempts : Z;
  created_date : string;
  transactions : list Transaction   (* transactions[0 .. transaction_count) *)
}.

#[export] Instance Transaction_eq_dec : EqDecision Transaction.
Proof. solve_decision. Defined.

#[export] Instance BankAccount_eq_dec : EqDecision BankAccount.
Proof. solve_decision. Defined.

(** [account->transaction_count] *)
Definition transaction_count (a : BankAccount) : Z := Z.of_nat (length (transactions a)).

Record AdminCredentials := mkAdmin {
  admin_username : string;
  admin_password : string
}.

(** [AdminCredentials admin = {"admin", "admin"};] (line 82) *)
Definition admin : AdminCredentials := mkAdmin "admin" "admin".

(** The strings the code stores in [type] and [account_type]. *)
Definition DEPOSIT : string := "DEPOSIT".
Definition WITHDRAW : string := "WITHDRAW".
Definition TRANSFER_IN : string := "TRANSFER_IN".
Definition TRANSFER_OUT : string := "TRANSFER_OUT".
Definition SAVINGS : string := "SAVINGS".
Definition CURRENT : string := "CURRENT".
Definition PREMIUM : string := "PREMIUM".

(** ** Field updates: [account->f = v] *)

Definition set_balance (a : BankAccount) (b : Z) : BankAccount :=
  mkAccount (account_number a) (name a) (username a) (password_hash a) (dob a)
    (mobile a) (email a) b (account_type a) (is_active a) (failed_attempts a)
    (created_date a) (transactions a).

Definition set_password_hash (a : BankAccount) (h : string) : BankAccount :=
  mkAccount (account_number a) (name a) (username a) h (dob a)
    (mobile a) (email a) (balance a) (account_type a) (is_active a) (failed_attempts a)
    (created_date a) (transactions a).

Definition set_is_active (a : BankAccount) (v : bool) : BankAccount :=
  mkAccount (account_number a) (name a) (username a) (password_hash a) (dob a)
    (mobile a) (email a) (balance a) (account_type a) v (failed_attempts a)
    (created_date a) (transactions a).

Definition set_failed_attempts (a : BankAccount) (n : Z) : BankAccount :=
  mkAccount (account_number a) (name a) (username a) (password_hash a) (dob a)
    (mobile a) (email a) (balance a) (account_type a) (is_active a) n
    (created_date a) (transactions a).

Definition set_transactions (a : BankAccount) (ts : list Transaction) : BankAccount :=
  mkAccount (account_number a) (name a) (username a) (password_hash a) (dob a)
    (mobile a) (email a) (balance a) (account_type a) (is_active a) (failed_attempts a)
    (created_date a) ts.

(** ** What a handler reports

    Each constructor is one of the messages the handlers print before they
    return; [Done] is the success message. *)
Inductive bank_error :=
| MaxAccountsReached                 (* "Sorry, maximum account limit reached!" *)
| InvalidName                        (* "Invalid name! Only letters and spaces allowed." *)
| UsernameLength                     (* "Username must be 8-15 characters!" *)
| UsernameExists                     (* "Username already exists!" *)
| InvalidEmail                       (* "Invalid email format!" *)
| InvalidMobile                      (* "Invalid mobile number!" *)
| PasswordsDontMatch                 (* "Passwords don't match!" *)
| InvalidAccountType                 (* "Invalid choice!" (account type) *)
| InsufficientInitialDeposit         (* "Insufficient initial deposit!" *)
| InvalidAmount                      (* "Invalid amount!" *)
| InsufficientBalance (min : Z)      (* "Insufficient balance! Minimum balance required: %.0f" *)
| TargetNotFound                     (* "Target account not found!" *)
| TargetBlocked                      (* "Target account is blocked!" *)
| SameAccount                        (* "Cannot transfer to same account!" *)
| AccountNotFound                    (* "Account not found!" *)
| AccountBlocked                     (* "Account is blocked! Contact administrator." *)
| InvalidPassword (remaining : Z)    (* "Invalid password! Attempts remaining: %d" *)
| BlockedAfterFailures               (* "Account blocked due to multiple failed attempts!" *)
| IncorrectCurrentPassword           (* "Incorrect current password!" *)
| NewPasswordsDontMatch              (* "New passwords don't match!" *)
| InvalidAdminCredentials            (* "Invalid admin credentials!" *)
| InvalidChoice                      (* "Invalid choice!" (a menu) *)
| NoSession.                         (* [current_user == NULL]: no handler reaches it *)

Inductive status :=
| Done
| Failed (e : bank_error).

(** ** Global variables (lines 79-81) and the file [accounts.dat]

    [accounts[0 .. total_accounts)] is the list [accounts]; [current_user]
    is the index of the account it points to; [disk] is the content of
    [accounts.dat] ([None] when the file does not exist). *)
Record globals := mkGlobals {
  accounts : list BankAccount;
  current_user : option nat;
  disk : option (list Byte.byte)
}.

(** [total_accounts] *)
Definition total_accounts (g : globals) : Z := Z.of_nat (length (accounts g)).

Definition set_accounts (g : globals) (l : list BankAccount) : globals :=
  mkGlobals l (current_user g) (disk g).

Definition set_current_user (g : globals) (u : option nat) : globals :=
  mkGlobals (accounts g) u (disk g).

Definition set_disk (g : globals) (d : option (list Byte.byte)) : globals :=
  mkGlobals (accounts g) (current_user g) d.

(** ** The environment of one handler call

    What the code reads from the outside world besides the keyboard: the
    formatted date of [get_current_date], the seconds of [time(NULL)] used
    to seed [rand], and whether [fopen("accounts.dat", "wb")] succeeds. *)
Record env := mkEnv {
  env_date : string;
  env_time : Z;
  env_disk_ok : bool
}.

(** ** Sample data

    Two savings accounts of a running program, Ann logged in, for the
    examples that instantiate the theorems at concrete states. *)
Definition sample_entry : Transaction :=
  mkTransaction "01/01/2025 10:00" DEPOSIT 1000 1000 "Initial Deposit" "N/A".

Definition sample_ann : BankAccount :=
  mkAccount "SAR0000000001" "Ann Lee" "annlee01" "0" "01/01/1990" "9876543210"
    "ann@example.com" 1000 SAVINGS true 0 "01/01/2025 10:00" [sample_entry].

Definition sample_bob : BankAccount :=
  mkAccount "SAR0000000002" "Bob Ray" "bobray02" "0" "02/02/1990" "9876543211"
    "bob@example.com" 1000 SAVINGS true 0 "01/01/2025 10:00" [sample_entry].

Definition sample_globals : globals := mkGlobals [sample_ann; sample_bob] (Some 0%nat) None.

Definition sample_env : env := mkEnv "01/01/2025 10:05" 1735725900 true.
