(* ===== verification/Hash.v ===== *)
(** * The credential hasher [hash_password] (src/bank.c, lines 85-96)

    [hash_password] runs djb2 over the password's characters in an
    [unsigned long] ([hash = hash * 33 + c], written [(hash << 5) + hash + c])
    and prints the result with ["%lx"].  Section [Djb2] models the loop at
    any width [ulong_bits] of [unsigned long], with the wrap-around of each
    C operation written out; [hash_password] fixes the width at 32 bits
    (Windows, the platform [conio.h] ties the program to).  The theorems:
    the loop equals the arithmetic definition [djb2_spec] (one reduction
    modulo [2^w] at the end), its value fits the width, two printed hashes
    are equal exactly when the hash values are, and two different
    passwords can share a hash. *)

From Stdlib Require Import ZArith Lia Ascii.
From stdpp Require Import base list strings.
From S2P Require Import Prelude CLib.

Local Open Scope string_scope.
Local Open Scope Z_scope.

Section Djb2.
(** The width of [unsigned long]. *)
Context (ulong_bits : Z) (Hbits : 0 <= ulong_bits).

(** Conversion to [unsigned long]: every result wraps modulo [2^w]. *)
Definition ulong (z : Z) : Z := z mod 2 ^ ulong_bits.

(** [while ((c = *password++)) hash_value = ((hash_value << 5) + hash_value) + c;] *)
Fixpoint hash_loop (hash_value : Z) (cs : list ascii) : Z :=
  match cs with
  | [] => hash_value
  | c :: cs' =>
      if decide (c = "000"%char) then hash_value
      else hash_loop
             (ulong (ulong (ulong (Z.shiftl hash_value 5) + hash_value) + ulong (signed_char c)))
             cs'
  end.

Definition hash_value_w (password : string) : Z :=
  hash_loop 5381 (String.list_ascii_of_string password).

(** The arithmetic meaning of the loop: the polynomial in 33 of the
    (signed) characters, reduced once. *)
Definition djb2_spec (h : Z) (cs : list ascii) : Z :=
  fold_left (fun acc c => acc * 33 + signed_char c) cs h mod 2 ^ ulong_bits.

Lemma ulong_range z : 0 <= ulong z < 2 ^ ulong_bits.
Proof. apply Z.mod_pos_bound. apply Z.pow_pos_nonneg; lia. Qed.

Lemma ulong_step h c :
  ulong (ulong (ulong (Z.shiftl h 5) + h) + ulong c) = ulong (h * 33 + c).
Proof.
  assert (Hnz : 2 ^ ulong_bits <> 0) by (apply Z.pow_nonzero; lia).
  unfold ulong. rewrite Z.shiftl_mul_pow2 by lia.
  rewrite Z.add_mod_idemp_r, Z.add_mod_idemp_l by exact Hnz.
  rewrite <- Z.add_assoc, Z.add_mod_idemp_l by exact Hnz.
  f_equal. change (2 ^ 5) with 32. lia.
Qed.

Lemma fold_left_mod cs h :
  fold_left (fun acc c => acc * 33 + signed_char c) cs (h mod 2 ^ ulong_bits) mod 2 ^ ulong_bits
  = fold_left (fun acc c => acc * 33 + signed_char c) cs h mod 2 ^ ulong_bits.
Proof.
  assert (Hnz : 2 ^ ulong_bits <> 0) by (apply Z.pow_nonzero; lia).
  revert h. induction cs as [|c cs IH]; intros h; simpl.
  - apply Z.mod_mod. exact Hnz.
  - rewrite <- (IH (h * 33 + signed_char c)), <- (IH (h mod 2 ^ ulong_bits * 33 + signed_char c)).
    f_equal. f_equal.
    rewrite Z.add_mod, Z.mul_mod, Z.mod_mod by exact Hnz.
    rewrite <- Z.mul_mod, <- Z.add_mod by exact Hnz. reflexivity.
Qed.
End Djb2.

#[export] Hint Resolve ulong_range : bank.

(** [hash_password]: djb2 in a 32-bit [unsigned long], printed by ["%lx"]. *)
Definition ULONG_BITS : Z := 32.

Definition hash_password (password : string) : string :=
  sprintf_lx (hash_value_w ULONG_BITS password).

Section HashFacts.
Context (w : Z) (Hw : 0 <= w).

(** The loop, which wraps three times per character, computes the
    arithmetic recurrence reduced once. *)
Lemma hash_loop_spec h cs :
  0 <= h < 2 ^ w -> ~ In "000"%char cs -> hash_loop w h cs = djb2_spec w h cs.
Proof.
  revert h. induction cs as [|c cs IH]; intros h Hh Hnul; simpl.
  - unfold djb2_spec. simpl. rewrite Z.mod_small; lia.
  - destruct (decide (c = "000"%char)) as [->|Hc]; [exfalso; apply Hnul; left; done|].
    rewrite ulong_step by exact Hw.
    rewrite IH.
    + unfold djb2_spec, ulong. simpl. apply fold_left_mod. exact Hw.
    + apply ulong_range. exact Hw.
    + intros Hin. apply Hnul. right. exact Hin.
Qed.

Lemma hash_loop_range h cs : 0 <= h < 2 ^ w -> 0 <= hash_loop w h cs < 2 ^ w.
Proof.
  revert h. induction cs as [|c cs IH]; intros h Hh; simpl; [done|].
  case_decide; [done|]. apply IH. apply ulong_range. exact Hw.
Qed.
End HashFacts.

(** ** The properties of [hash_password] *)

(** The value [hash_password] prints stays within the 32-bit width. *)
Lemma hash_value_range p : 0 <= hash_value_w ULONG_BITS p < 2 ^ ULONG_BITS.
Proof. apply hash_loop_range; unfold ULONG_BITS; lia. Qed.

(** (C31) The djb2 loop of [hash_password], with its three wrapping [unsigned
    long] operations per character, equals the polynomial
    [5381 * 33^n + sum c_i * 33^(n-1-i)] reduced modulo [2^32], for every
    password without a NUL byte. *)
Theorem hash_password_loop_equiv p :
  ~ In "000"%char (String.list_ascii_of_string p) ->
  hash_value_w ULONG_BITS p = djb2_spec ULONG_BITS 5381 (String.list_ascii_of_string p).
Proof.
  intros Hnul. apply hash_loop_spec; [unfold ULONG_BITS; lia| |exact Hnul].
  unfold ULONG_BITS. lia.
Qed.

Lemma hash_password_loop_equiv_witness :
  ~ In "000"%char (String.list_ascii_of_string "secret12") /\
  hash_value_w ULONG_BITS "secret12" =
    djb2_spec ULONG_BITS 5381 (String.list_ascii_of_string "secret12").
Proof.
  split; [|apply hash_password_loop_equiv]; simpl; intuition discriminate.
Defined.

(** Comparing two printed hashes with [strcmp], as [user_login] and
    [change_password] do, is comparing the 32-bit hash values. *)
Theorem hash_password_eq_iff p q :
  strcmp_eq (hash_password p) (hash_password q) = true <->
  hash_value_w ULONG_BITS p = hash_value_w ULONG_BITS q.
Proof.
  rewrite strcmp_eq_spec. unfold hash_password. split; [|by intros ->].
  pose proof (hash_value_range p). pose proof (hash_value_range q).
  unfold ULONG_BITS in *.
  apply sprintf_lx_inj; lia.
Qed.

(** djb2 is not injective: the different passwords "Ez" and "FY" have
    the same stored hash. *)
Theorem hash_password_collision :
  "Ez" <> "FY" /\ hash_password "Ez" = hash_password "FY".
Proof. split; [discriminate|vm_compute; reflexivity]. Qed.
