(* ===== verification/Validation.v ===== *)
(** * Input validation (src/bank.c, lines 106-150, 266-277, 455-470)

    The pure checks the handlers apply to their inputs before touching the
    account table: [validate_email], [validate_mobile], [validate_amount],
    the name loop and the username length test of [create_account], the
    masked password reader (the [getch] loop that [admin_panel],
    [user_login], [create_account] and [change_password] repeat), and
    [generate_account_number].  Each loop is a [Fixpoint] over the
    characters with the loop's variables as arguments and its early
    [return]s as results.  The theorems characterise each check by a
    declarative specification, bound the masked reader's writes by the
    buffer, and bound the account numbers that can be generated. *)

From Stdlib Require Import ZArith Lia Ascii.
From stdpp Require Import base list strings.
From S2P Require Import Prelude CLib.

Local Open Scope Z_scope.

Local Abbreviation AT := "@"%char.
Local Abbreviation DOT := "."%char.

(** ** [validate_email] (lines 120-136) *)

(** The [for] loop: [at_count] and [dot_after_at] are its variables, and a
    second ['@'] returns 0 at once. *)
Fixpoint email_loop (at_count : Z) (dot_after_at : bool) (cs : list ascii) : bool :=
  match cs with
  | [] => (at_count =? 1) && dot_after_at
  | c :: cs' =>
      if decide (c = "@"%char) then
        if 1 <? at_count + 1 then false else email_loop (at_count + 1) dot_after_at cs'
      else if bool_decide (c = "."%char) && (at_count =? 1) then email_loop at_count true cs'
      else email_loop at_count dot_after_at cs'
  end.

Definition validate_email (email : string) : bool :=
  if strlen email <? 5 then false
  else email_loop 0 false (String.list_ascii_of_string email).

(** ** [validate_mobile] (lines 138-146) *)

Fixpoint digits_loop (n : nat) (cs : list ascii) : bool :=
  match n, cs with
  | O, _ => true
  | S n', c :: cs' => if isdigit c then digits_loop n' cs' else false
  | S _, [] => false
  end.

Definition validate_mobile (mobile : string) : bool :=
  if negb (strlen mobile =? 10) then false
  else digits_loop 10 (String.list_ascii_of_string mobile).

(** ** [validate_amount] (lines 148-150) *)

Definition validate_amount (amount : Z) : bool := (0 <? amount) && (amount <=? 1000000).

(** ** The checks of [create_account] on the name and the username
    (lines 455-470) *)

(** [for (i = 0; name[i]; i++) if (!isalpha(name[i]) && name[i] != ' ') return;] *)
Fixpoint valid_name (cs : list ascii) : bool :=
  match cs with
  | [] => true
  | c :: cs' => if negb (isalpha c) && negb (bool_decide (c = " "%char)) then false
                else valid_name cs'
  end.

(** [strlen(username) < 8 || strlen(username) > 15] rejects. *)
Definition username_length_ok (username : string) : bool :=
  negb ((strlen username <? 8) || (15 <? strlen username)).

(** ** The masked password reader (lines 266-277, repeated at 342-353,
    501-512, 515-525, 794-805, 813-824, 826-837)

    [while ((ch = getch()) != '\r' && i < 19) { if (ch == '\b' && i > 0) i--;
    else if (ch != '\b') password[i++] = ch; } password[i] = '\0';]
    [buf] is [password[0 .. i)], [keys] the keystrokes still to come; the
    result is the password and the keystrokes left for the next prompt.
    The key stream is finite: when it runs out the reader stops, as if the
    user had pressed Enter. *)
Fixpoint read_masked (buf : list ascii) (keys : list ascii) : list ascii * list ascii :=
  match keys with
  | [] => (buf, [])
  | ch :: rest =>
      if decide (ch = "013"%char) then (buf, rest)
      else if negb (Z.of_nat (length buf) <? 19) then (buf, rest)
      else if decide (ch = "008"%char) then
        if 0 <? Z.of_nat (length buf) then read_masked (removelast buf) rest
        else read_masked buf rest
      else read_masked (buf ++ [ch]) rest
  end.

Definition read_password (keys : list ascii) : string * list ascii :=
  let '(buf, rest) := read_masked [] keys in (String.string_of_list_ascii buf, rest).

(** ** [generate_account_number] (lines 106-109)

    [srand(time(NULL)); sprintf(account_number, "SAR%010d", rand() % 1000000000);] *)
Definition generate_account_number (now : Z) : string :=
  ("SAR" ++ sprintf_010d (crt_rand_after_srand now mod 1000000000))%string.

(** ** What the validators accept *)

Lemma email_loop_after_at d cs :
  email_loop 1 d cs = true <-> (AT ∉ cs) /\ (d = true \/ DOT ∈ cs).
Proof.
  revert d. induction cs as [|c cs IH]; intros d; simpl.
  - split; [intros ->; split; [apply not_elem_of_nil|by left]|].
    intros [_ [->|Hin]]; [done|by apply elem_of_nil in Hin].
  - rewrite !elem_of_cons. destruct (decide (c = AT)) as [->|Hc].
    + simpl. split; [discriminate|]. intros [Hn _]. exfalso. apply Hn. by left.
    + destruct (bool_decide (c = DOT)) eqn:Hdot; simpl.
      * apply bool_decide_eq_true in Hdot as ->. rewrite IH. naive_solver.
      * apply bool_decide_eq_false in Hdot. rewrite IH. naive_solver.
Qed.

Lemma email_loop_before_at d cs :
  email_loop 0 d cs = true <->
  (exists l r, cs = l ++ AT :: r /\ (AT ∉ l) /\ (AT ∉ r) /\
              (d = true \/ DOT ∈ r)).
Proof.
  revert d. induction cs as [|c cs IH]; intros d; simpl.
  - split; [discriminate|]. intros (l & r & Hl & _). by destruct l.
  - destruct (decide (c = AT)) as [->|Hc]; simpl.
    + rewrite email_loop_after_at. split.
      * intros [Hn Hd]. exists [], cs. split_and!; [done|apply not_elem_of_nil|done|done].
      * intros ([|x l] & r & Heq & Hl & Hr & Hd); simplify_eq/=.
        -- naive_solver.
        -- exfalso. apply Hl. by left.
    + rewrite andb_false_r, IH. split.
      * intros (l & r & -> & Hl & Hr & Hd). exists (c :: l), r.
        split_and!; [done| |done|done]. rewrite elem_of_cons. naive_solver.
      * intros ([|x l] & r & Heq & Hl & Hr & Hd); simplify_eq/=.
        exists l, r. rewrite elem_of_cons in Hl. naive_solver.
Qed.

(** (C32) [validate_email] accepts exactly the strings of at least five
    characters with exactly one ['@'] and a ['.'] somewhere after it. *)
Theorem validate_email_spec email :
  validate_email email = true <->
  5 <= strlen email /\
  (exists l r, String.list_ascii_of_string email = l ++ AT :: r /\
              (AT ∉ l) /\ (AT ∉ r) /\ DOT ∈ r).
Proof.
  unfold validate_email. destruct (Z.ltb_spec (strlen email) 5).
  - split; [discriminate|lia].
  - rewrite email_loop_before_at. naive_solver.
Qed.

Lemma digits_loop_spec n cs :
  length cs = n ->
  digits_loop n cs = true <-> Forall (fun c => isdigit c = true) cs.
Proof.
  revert n. induction cs as [|c cs IH]; intros [|n] Hn; simpl in *; try lia.
  - split; [constructor|done].
  - rewrite Forall_cons_iff, <- (IH n) by lia. destruct (isdigit c); naive_solver.
Qed.

(** (C33) [validate_mobile] accepts exactly the strings of ten decimal
    digits. *)
Theorem validate_mobile_spec mobile :
  validate_mobile mobile = true <->
  String.length mobile = 10%nat /\
  Forall (fun c => isdigit c = true) (String.list_ascii_of_string mobile).
Proof.
  unfold validate_mobile, strlen.
  destruct (Z.eqb_spec (Z.of_nat (String.length mobile)) 10) as [Hl|Hl]; cbn [negb].
  - rewrite (digits_loop_spec 10); [split; [intros; split; [lia|]|]; naive_solver|].
    rewrite length_list_ascii. lia.
  - split; [discriminate|]. intros [? _]. lia.
Qed.

(** ** The masked password reader *)

Local Abbreviation CR := "013"%char.
Local Abbreviation BS := "008"%char.

(** Keystrokes that are ordinary characters (neither Enter nor Backspace). *)
Definition plain_keys (cs : list ascii) : Prop := Forall (fun c => c <> CR /\ c <> BS) cs.

#[export] Instance plain_keys_dec cs : Decision (plain_keys cs).
Proof. unfold plain_keys. apply _. Defined.

Lemma read_masked_length buf keys :
  (length buf <= 19)%nat -> (length (fst (read_masked buf keys)) <= 19)%nat.
Proof.
  revert buf. induction keys as [|ch keys IH]; intros buf Hb; simpl; [done|].
  case_decide; [done|]. destruct (Z.ltb_spec (Z.of_nat (length buf)) 19); simpl; [|done].
  case_decide; [destruct (Z.ltb_spec 0 (Z.of_nat (length buf)))|];
    apply IH; rewrite ?length_removelast, ?length_app; simpl; lia.
Qed.

(** (C34) The masked reader never writes outside its [char password[20]]
    buffer: at most 19 characters are stored, so the terminating
    [password[i] = '\0'] lands at an index below 20. *)
Theorem read_password_in_bounds keys :
  Z.of_nat (length (fst (read_masked [] keys))) < 20.
Proof.
  pose proof (read_masked_length [] keys ltac:(simpl; lia)). lia.
Qed.

Lemma read_masked_plain_short buf cs k :
  plain_keys cs -> (length buf + length cs <= 19)%nat ->
  read_masked buf (cs ++ CR :: k) = (buf ++ cs, k).
Proof.
  unfold plain_keys. revert buf. induction cs as [|c cs IH]; intros buf Hp Hl; simpl.
  - by rewrite app_nil_r.
  - apply Forall_cons_iff in Hp as [[Hcr Hbs] Hp]. simpl in Hl.
    case_decide; [done|]. destruct (Z.ltb_spec (Z.of_nat (length buf)) 19); [|lia].
    simpl. case_decide; [done|]. rewrite IH; [by rewrite <- app_assoc|done|].
    rewrite length_app; simpl; lia.
Qed.

Lemma read_masked_plain_long buf cs k :
  plain_keys cs -> (length buf <= 19)%nat -> (20 <= length buf + length cs)%nat ->
  read_masked buf (cs ++ k) =
    (buf ++ take (19 - length buf) cs, drop (20 - length buf) cs ++ k).
Proof.
  unfold plain_keys. revert buf. induction cs as [|c cs IH]; intros buf Hp Hb Hl; simpl in *; [lia|].
  apply Forall_cons_iff in Hp as [[Hcr Hbs] Hp].
  case_decide; [done|].
  destruct (Z.ltb_spec (Z.of_nat (length buf)) 19) as [Hlt|Hge]; simpl.
  - case_decide; [done|].
    rewrite IH; [|done|rewrite length_app; simpl; lia..].
    rewrite length_app. simpl.
    replace (19 - length buf)%nat with (S (19 - (length buf + 1)))%nat by lia.
    replace (20 - length buf)%nat with (S (20 - (length buf + 1)))%nat by lia.
    simpl. by rewrite <- app_assoc.
  - replace (19 - length buf)%nat with 0%nat by lia.
    replace (20 - length buf)%nat with 1%nat by lia. simpl. by rewrite app_nil_r.
Qed.

(** Typed twice, as [create_account] asks (password, then confirmation),
    a password of 20 to 38 plain characters is read as two different
    strings: its first 19 characters, then the characters after the 20th. *)
Lemma read_password_confirm_long cs rest :
  plain_keys cs -> (20 <= length cs <= 38)%nat ->
  let r1 := read_password (cs ++ CR :: cs ++ CR :: rest) in
  fst (read_password (snd r1)) <> fst r1.
Proof.
  intros Hp Hl r1. unfold r1, read_password.
  rewrite (read_masked_plain_long [] cs (CR :: cs ++ CR :: rest)) by (done || (simpl; lia)).
  simpl. rewrite (read_masked_plain_short [] (drop 20 cs) (cs ++ CR :: rest)).
  2:{ by apply Forall_drop. }
  2:{ rewrite length_drop. simpl. lia. }
  simpl. intros H. apply (f_equal String.list_ascii_of_string) in H.
  rewrite !String.list_ascii_of_string_of_list_ascii in H.
  apply (f_equal length) in H. rewrite length_drop, length_take in H. lia.
Qed.

(** A password typed without Backspace and of at most 19 characters is
    read as typed, and the keystrokes after Enter are left for the next
    prompt. *)
Theorem read_password_short cs k :
  plain_keys cs -> (length cs <= 19)%nat ->
  read_password (cs ++ CR :: k) = (String.string_of_list_ascii cs, k).
Proof.
  intros Hp Hl. unfold read_password. by rewrite read_masked_plain_short.
Qed.

(** (C35) A password of 20 or more characters is cut to its first 19; the
    20th keystroke is swallowed by the loop test and every later keystroke,
    the Enter included, is left for the next prompt. *)
Theorem read_password_long cs k :
  plain_keys cs -> (20 <= length cs)%nat ->
  read_password (cs ++ k) = (String.string_of_list_ascii (take 19 cs), drop 20 cs ++ k).
Proof.
  intros Hp Hl. unfold read_password.
  rewrite (read_masked_plain_long [] cs k); [reflexivity|done|simpl; lia..].
Qed.

Lemma read_password_long_witness :
  plain_keys (String.list_ascii_of_string "abcdefghijklmnopqrstu") /\
  (20 <= length (String.list_ascii_of_string "abcdefghijklmnopqrstu"))%nat /\
  read_password (String.list_ascii_of_string "abcdefghijklmnopqrstu" ++ [CR]) =
    ("abcdefghijklmnopqrs"%string, ["u"%char; CR]).
Proof.
  assert (Hp : plain_keys (String.list_ascii_of_string "abcdefghijklmnopqrstu"))
    by (apply (bool_decide_unpack _); vm_compute; exact I).
  split_and!; [exact Hp | simpl; lia | etransitivity; [apply (read_password_long _ [CR]); [exact Hp | simpl; lia] | reflexivity]].
Defined.

(** ** [generate_account_number] *)

(** (C36) Every account number [generate_account_number] can produce is
    ["SAR"] followed by the ten-digit rendering of a value between 0 and
    [RAND_MAX = 32767]: at most 32768 distinct numbers, however many
    accounts are created. *)
Theorem generate_account_number_range now :
  exists r, 0 <= r <= RAND_MAX /\
    generate_account_number now = ("SAR" ++ sprintf_010d r)%string.
Proof.
  exists (crt_rand_after_srand now). split; [apply crt_rand_after_srand_range|].
  unfold generate_account_number. rewrite Z.mod_small; [done|].
  pose proof (crt_rand_after_srand_range now). unfold RAND_MAX in *. lia.
Qed.
