(* ===== verification/Ledger.v ===== *)
(** * The transaction ledger (src/bank.c, lines 170-185 and 760-783)

    [add_transaction] appends a record to the fixed array
    [account->transactions[MAX_TRANSACTIONS]] when there is room and does
    nothing when the array is full; [view_transaction_history] prints the
    entries from the last to the first.  The ledger invariant [ledger_ok]
    states what makes the ledger an audit trail: each entry's
    [balance_after] is the previous one plus or minus its (positive)
    amount, and, while the array is not full, the last [balance_after] is
    the account's balance.  [ledger_ok_step] is the lemma every balance
    mutation of the store and of the transfer engine uses. *)

From Stdlib Require Import ZArith Lia.
From stdpp Require Import base list strings.
From S2P Require Import Prelude CLib Types.

Local Open Scope Z_scope.

(** ** [add_transaction] (lines 170-185) *)

(** [get_current_date(trans->date)] is the date [now] of the call;
    [ref_account] is [NULL] when [None]. *)
Definition add_transaction (now : string) (account : BankAccount) (type : string)
    (amount : Z) (description : string) (ref_account : option string) : BankAccount :=
  if transaction_count account <? MAX_TRANSACTIONS then
    let trans := mkTransaction now type amount (balance account) description
                   (match ref_account with Some r => r | None => "N/A"%string end) in
    set_transactions account (transactions account ++ [trans])
  else account.

(** ** [view_transaction_history] (lines 760-783)

    [for (i = transaction_count - 1; i >= 0; i--) print(transactions[i]);]
    [None] is the message "No transactions found!". *)
Fixpoint history_rows (i : nat) (ts : list Transaction) : list Transaction :=
  match i with
  | O => []
  | S k => match ts !! k with
           | Some t => t :: history_rows k ts
           | None => history_rows k ts
           end
  end.

Definition view_transaction_history (a : BankAccount) : option (list Transaction) :=
  if transaction_count a =? 0 then None
  else Some (history_rows (length (transactions a)) (transactions a)).

(** ** The ledger invariant *)

Definition is_credit (ty : string) : bool := strcmp_eq ty DEPOSIT || strcmp_eq ty TRANSFER_IN.

(** The effect of an entry on the balance. *)
Definition signed_amount (ty : string) (amt : Z) : Z := if is_credit ty then amt else - amt.

Definition known_type (ty : string) : Prop := ty ∈ [DEPOSIT; WITHDRAW; TRANSFER_IN; TRANSFER_OUT].

(** Each entry follows from the previous balance [prev]. *)
Fixpoint chain_ok (prev : Z) (ts : list Transaction) : Prop :=
  match ts with
  | [] => True
  | t :: ts' =>
      balance_after t = prev + signed_amount (type t) (amount t) /\ 0 < amount t /\
      known_type (type t) /\ chain_ok (balance_after t) ts'
  end.

Definition last_balance_from (prev : Z) (ts : list Transaction) : Z :=
  match last ts with Some t => balance_after t | None => prev end.

Definition ledger_ok (a : BankAccount) : Prop :=
  (length (transactions a) <= 100)%nat /\ chain_ok 0 (transactions a) /\
  (transaction_count a < MAX_TRANSACTIONS -> last_balance_from 0 (transactions a) = balance a).

#[export] Instance chain_ok_dec prev ts : Decision (chain_ok prev ts).
Proof. revert prev. induction ts; intros prev; simpl; unfold known_type; apply _. Defined.

#[export] Instance ledger_ok_dec a : Decision (ledger_ok a).
Proof. unfold ledger_ok. apply _. Defined.

(** The sum of the signed amounts of a ledger: the balance it accounts for. *)
Definition ledger_sum (ts : list Transaction) : Z :=
  fold_right (fun t acc => signed_amount (type t) (amount t) + acc) 0 ts.

(** ** Lemmas *)

Lemma chain_ok_snoc prev ts t :
  chain_ok prev (ts ++ [t]) <->
  chain_ok prev ts /\
  balance_after t = last_balance_from prev ts + signed_amount (type t) (amount t) /\
  0 < amount t /\ known_type (type t).
Proof.
  unfold last_balance_from. revert prev.
  induction ts as [|t' ts IH]; intros prev; simpl.
  - tauto.
  - rewrite IH. destruct ts as [|t'' ts]; simpl; [tauto|].
    destruct (last (t'' :: ts)) eqn:E; [tauto|].
    apply last_None in E. discriminate.
Qed.

Lemma chain_ok_sum prev ts :
  chain_ok prev ts -> last_balance_from prev ts = prev + ledger_sum ts.
Proof.
  unfold last_balance_from. revert prev.
  induction ts as [|t ts IH]; intros prev; simpl; [lia|].
  intros (Hb & _ & _ & Hc). apply IH in Hc. rewrite Hb in Hc.
  rewrite last_cons. destruct (last ts); lia.
Qed.

Lemma add_transaction_room now a ty amt d r :
  transaction_count a < MAX_TRANSACTIONS ->
  transactions (add_transaction now a ty amt d r) =
    transactions a ++ [mkTransaction now ty amt (balance a) d
                         (match r with Some x => x | None => "N/A"%string end)].
Proof. intros H. unfold add_transaction. by destruct (Z.ltb_spec (transaction_count a) MAX_TRANSACTIONS); [|lia]. Qed.

Lemma add_transaction_full now a ty amt d r :
  MAX_TRANSACTIONS <= transaction_count a -> add_transaction now a ty amt d r = a.
Proof. intros H. unfold add_transaction. by destruct (Z.ltb_spec (transaction_count a) MAX_TRANSACTIONS); [lia|]. Qed.

(** [add_transaction] changes nothing but the ledger. *)
Lemma add_transaction_fields now a ty amt d r :
  let a' := add_transaction now a ty amt d r in
  balance a' = balance a /\ account_number a' = account_number a /\
  username a' = username a /\ name a' = name a /\ password_hash a' = password_hash a /\
  account_type a' = account_type a /\ is_active a' = is_active a /\
  failed_attempts a' = failed_attempts a.
Proof. unfold add_transaction. by destruct (_ <? _). Qed.

Lemma set_balance_ledger a b : transactions (set_balance a b) = transactions a.
Proof. reflexivity. Qed.

(** A balance change recorded with [add_transaction] keeps the ledger an
    audit trail, whether the array has room or is full. *)
Lemma ledger_ok_step now a ty amt d r :
  ledger_ok a -> 0 < amt -> known_type ty ->
  ledger_ok (add_transaction now (set_balance a (balance a + signed_amount ty amt)) ty amt d r).
Proof.
  intros (Hlen & Hchain & Hlast) Hamt Hty.
  set (a1 := set_balance a (balance a + signed_amount ty amt)).
  unfold transaction_count in *.
  destruct (Z.ltb_spec (transaction_count a1) MAX_TRANSACTIONS) as [Hroom|Hfull].
  - unfold ledger_ok. rewrite add_transaction_room by done.
    unfold transaction_count, MAX_TRANSACTIONS in *. simpl in *.
    rewrite length_app. simpl. split_and!; [lia| |].
    + apply chain_ok_snoc. simpl. rewrite Hlast by lia. done.
    + intros _. unfold last_balance_from. rewrite last_snoc.
      by destruct (add_transaction_fields now a1 ty amt d r) as [-> _].
  - rewrite add_transaction_full by done.
    unfold ledger_ok, transaction_count, MAX_TRANSACTIONS in *. simpl in *.
    split_and!; [lia|done|lia].
Qed.

#[export] Hint Resolve ledger_ok_step : bank.

Lemma history_rows_take i ts : (i <= length ts)%nat -> history_rows i ts = rev (take i ts).
Proof.
  induction i as [|k IH]; intros Hi; simpl; [done|].
  destruct (lookup_lt_is_Some_2 ts k) as [t Ht]; [lia|].
  rewrite Ht, (take_S_r _ _ t) by done. rewrite rev_app_distr, IH by lia. reflexivity.
Qed.

(** ** Properties of the ledger *)

(** [view_transaction_history] prints the ledger from the most recent
    entry to the oldest: its count-down loop lists exactly the reversed
    ledger, and an empty ledger prints "No transactions found!". *)
Theorem view_transaction_history_rev a :
  view_transaction_history a =
    match transactions a with [] => None | _ => Some (rev (transactions a)) end.
Proof.
  unfold view_transaction_history, transaction_count.
  destruct (transactions a) as [|t ts] eqn:E; [done|].
  destruct (Z.eqb_spec (Z.of_nat (length (t :: ts))) 0) as [H|_]; [simpl in H; lia|].
  rewrite history_rows_take, firstn_all by done. reflexivity.
Qed.

Lemma ledger_sum_snoc ts t :
  ledger_sum (ts ++ [t]) = ledger_sum ts + signed_amount (type t) (amount t).
Proof. unfold ledger_sum. rewrite fold_right_app. simpl. induction ts as [|u ts IH]; simpl; lia. Qed.

(** A consistent ledger that is not full accounts for the balance. *)
Lemma ledger_ok_balance a :
  ledger_ok a -> transaction_count a < MAX_TRANSACTIONS ->
  balance a = ledger_sum (transactions a).
Proof.
  intros (_ & Hchain & Hlast) Hroom. rewrite <- Hlast by done.
  rewrite (chain_ok_sum 0) by done. lia.
Qed.

(** (C22) The ledger is a derivable audit trail: when a balance change of
    [amt] is recorded with [add_transaction] on an account whose ledger is
    consistent and not full, the new ledger is the old one followed by one
    entry of that type and amount whose [balance_after] is the new balance,
    the invariant still holds, and the new balance is the sum of the signed
    amounts of the whole ledger. *)
Theorem ledger_balance_replay now a ty amt d r :
  ledger_ok a -> transaction_count a < MAX_TRANSACTIONS -> 0 < amt -> known_type ty ->
  let a' := add_transaction now (set_balance a (balance a + signed_amount ty amt)) ty amt d r in
  ledger_ok a' /\ balance a' = ledger_sum (transactions a') /\
  exists t, transactions a' = transactions a ++ [t] /\
    type t = ty /\ amount t = amt /\ balance_after t = balance a'.
Proof.
  intros Hok Hroom Hamt Hty a'.
  pose proof (ledger_ok_balance a Hok Hroom) as Hbal.
  destruct (add_transaction_fields now (set_balance a (balance a + signed_amount ty amt)) ty amt d r)
    as [Hb _].
  subst a'. rewrite add_transaction_room by exact Hroom. rewrite Hb. simpl.
  split_and!; [by apply ledger_ok_step| |].
  - rewrite ledger_sum_snoc. simpl. lia.
  - by eexists.
Qed.

Lemma ledger_balance_replay_witness :
  ledger_ok sample_ann /\ transaction_count sample_ann < MAX_TRANSACTIONS /\ 0 < 25 /\
  known_type DEPOSIT /\
  let a' := add_transaction "2024-01-02" (set_balance sample_ann (balance sample_ann +
              signed_amount DEPOSIT 25)) DEPOSIT 25 "Cash deposit" None in
  ledger_ok a' /\ balance a' = ledger_sum (transactions a') /\
  exists t, transactions a' = transactions sample_ann ++ [t] /\
    type t = DEPOSIT /\ amount t = 25 /\ balance_after t = balance a'.
Proof.
  assert (Hl : ledger_ok sample_ann) by (apply (bool_decide_unpack _); vm_compute; exact I).
  assert (Hc : transaction_count sample_ann < MAX_TRANSACTIONS) by reflexivity.
  assert (Ht : known_type DEPOSIT) by (apply (bool_decide_unpack _); vm_compute; exact I).
  split_and!; [exact Hl | exact Hc | lia | exact Ht |].
  exact (ledger_balance_replay "2024-01-02" sample_ann DEPOSIT 25 "Cash deposit" None Hl Hc ltac:(lia) Ht).
Defined.
