(* ===== verification/Persistence.v ===== *)
(** * The snapshot file [accounts.dat] (src/bank.c, lines 187-210)

    [save_accounts] writes [total_accounts] (a 4-byte [int]) and then
    [fwrite(accounts, sizeof(BankAccount), total_accounts, fp)], the raw
    bytes of the structs; [load_accounts] reads them back with [fread].
    The model fixes the byte layout the Windows compilers give the structs
    (little-endian, [double] aligned to 8): a [Transaction] is 176 bytes,
    a [BankAccount] 17880 bytes.  A [char[N]] field is its characters,
    the terminating NUL and zero bytes up to [N]; a [double] holding an
    integer is its IEEE-754 binary64 image; [is_active] is the [int] 1 or
    0; padding is written as zero bytes.  (Bytes after a string's NUL and
    padding bytes are not determined by the C program; every reader
    ignores them, so writing zeros loses nothing.)

    [load_accounts] is modelled as [fread] behaves: a file shorter than its
    announced count yields the announced number of accounts, the missing
    ones being the zero-filled structs of the static array (the load runs
    once, at start-up, on the zero-initialised globals).

    The theorems: each field decoder inverts its encoder on the values the
    field can hold, hence [load_accounts] after [save_accounts] gives back
    the table field for field, ledgers included, for every table whose
    strings fit their arrays and whose amounts are integers below [2^53].
    The image has the sizes of the C structs, and the count at its head is
    not checked against [MAX_ACCOUNTS]. *)

From Stdlib Require Import ZArith Lia Ascii.
From Stdlib Require Strings.Byte.
From stdpp Require Import base list strings.
From coqutil Require Import Word.LittleEndianList.
From S2P Require Import Prelude CLib Types.

Local Open Scope Z_scope.

Abbreviation bytes := (list Byte.byte).

#[export] Instance byte_eq_decision : EqDecision Byte.byte := Byte.byte_eq_dec.

(** A decoder reads a value from the front of the bytes and returns the
    rest; [None] when the bytes run out. *)
Definition decoder (A : Type) := bytes -> option (A * bytes).

Definition dbind {A B} (d : decoder A) (k : A -> decoder B) : decoder B :=
  fun bs => match d bs with Some (a, rest) => k a rest | None => None end.

Definition dret {A} (a : A) : decoder A := fun bs => Some (a, bs).

Local Notation "'let@' x := d 'in' k" := (dbind d (fun x => k))
  (at level 10, x name, d at level 100, k at level 200).

(** [n] bytes, or [None] when fewer remain. *)
Definition dtake (n : nat) : decoder bytes :=
  fun bs => if decide (n <= length bs)%nat then Some (take n bs, drop n bs) else None.

(** ** Scalars *)

(** [int]: four bytes, little-endian two's complement. *)
Definition encode_int (z : Z) : bytes := le_split 4 z.

Definition int_of_bits (u : Z) : Z := if 2 ^ 31 <=? u then u - 2 ^ 32 else u.

Definition decode_int : decoder Z :=
  let@ b := dtake 4 in dret (int_of_bits (le_combine b)).

(** [double]: the IEEE-754 binary64 image of an integer (exact for
    [|z| < 2^53]): sign bit, biased exponent [1023 + log2 |z|], and the bits
    of [|z|] after its leading one. *)
Definition double_bits (z : Z) : Z :=
  if z =? 0 then 0
  else let m := Z.abs z in
       let e := Z.log2 m in
       (if z <? 0 then 2 ^ 63 else 0) + (e + 1023) * 2 ^ 52 + (Z.shiftl m (52 - e) - 2 ^ 52).

(** The integer part of the [double] with the given bits (the code's
    amounts are whole numbers; fractions are truncated). *)
Definition double_value (b : Z) : Z :=
  let ex := Z.land (Z.shiftr b 52) 2047 in
  let frac := Z.land b (2 ^ 52 - 1) in
  let m := if ex =? 0 then 0 else Z.shiftr (frac + 2 ^ 52) (1075 - ex) in
  if Z.testbit b 63 then - m else m.

Definition encode_double (z : Z) : bytes := le_split 8 (double_bits z).

Definition decode_double : decoder Z :=
  let@ b := dtake 8 in dret (double_value (le_combine b)).

(** [char s[n]]: the characters, the NUL and zero bytes up to [n]. *)
Definition encode_chars (n : nat) (s : string) : bytes :=
  take n (String.list_byte_of_string s ++ replicate n Byte.x00).

(** What [strcpy], [strcmp] and [printf("%s")] see of a [char] array: the
    bytes before the first NUL. *)
Fixpoint c_string (bs : bytes) : bytes :=
  match bs with
  | [] => []
  | b :: bs' => if decide (b = Byte.x00) then [] else b :: c_string bs'
  end.

Definition decode_chars (n : nat) : decoder string :=
  let@ b := dtake n in dret (String.string_of_list_byte (c_string b)).

Definition encode_pad (n : nat) : bytes := replicate n Byte.x00.

Definition decode_pad (n : nat) : decoder unit := let@ _ := dtake n in dret tt.

(** ** [Transaction]: 176 bytes *)

Definition encode_transaction (t : Transaction) : bytes :=
  encode_chars 20 (date t) ++ encode_chars 20 (type t) ++
  encode_double (amount t) ++ encode_double (balance_after t) ++
  encode_chars 100 (description t) ++ encode_chars 15 (reference_account t) ++
  encode_pad 5.

Definition decode_transaction : decoder Transaction :=
  let@ d := decode_chars 20 in
  let@ ty := decode_chars 20 in
  let@ am := decode_double in
  let@ ba := decode_double in
  let@ de := decode_chars 100 in
  let@ rf := decode_chars 15 in
  let@ _ := decode_pad 5 in
  dret (mkTransaction d ty am ba de rf).

(** The unused slots of [transactions[100]]: zero-filled structs. *)
Definition zero_transaction : Transaction := mkTransaction "" "" 0 0 "" "".

Definition encode_slots (ts : list Transaction) : bytes :=
  mjoin (encode_transaction <$> ts ++ replicate (100 - length ts) zero_transaction).

Fixpoint decode_slots (n : nat) : decoder (list Transaction) :=
  match n with
  | O => dret []
  | S n' => let@ t := decode_transaction in
            let@ ts := decode_slots n' in
            dret (t :: ts)
  end.

(** ** [BankAccount]: 17880 bytes *)

Definition encode_account (a : BankAccount) : bytes :=
  encode_chars 15 (account_number a) ++ encode_chars 50 (name a) ++
  encode_chars 20 (username a) ++ encode_chars 50 (password_hash a) ++
  encode_chars 12 (dob a) ++ encode_chars 15 (mobile a) ++ encode_chars 50 (email a) ++
  encode_pad 4 ++ encode_double (balance a) ++ encode_chars 20 (account_type a) ++
  encode_int (if is_active a then 1 else 0) ++ encode_int (failed_attempts a) ++
  encode_chars 20 (created_date a) ++ encode_slots (transactions a) ++
  encode_int (transaction_count a) ++ encode_pad 4.

Definition decode_account : decoder BankAccount :=
  let@ no := decode_chars 15 in
  let@ nm := decode_chars 50 in
  let@ us := decode_chars 20 in
  let@ pw := decode_chars 50 in
  let@ db := decode_chars 12 in
  let@ mo := decode_chars 15 in
  let@ em := decode_chars 50 in
  let@ _ := decode_pad 4 in
  let@ bal := decode_double in
  let@ ty := decode_chars 20 in
  let@ act := decode_int in
  let@ fa := decode_int in
  let@ cd := decode_chars 20 in
  let@ slots := decode_slots 100 in
  let@ cnt := decode_int in
  let@ _ := decode_pad 4 in
  dret (mkAccount no nm us pw db mo em bal ty (negb (act =? 0)) fa cd (take (Z.to_nat cnt) slots)).

(** The zero-filled struct of the static array [accounts[MAX_ACCOUNTS]]. *)
Definition zero_account : BankAccount :=
  mkAccount "" "" "" "" "" "" "" 0 "" false 0 "" [].

(** ** [save_accounts] (lines 199-210) *)

Definition encode_table (accs : list BankAccount) : bytes :=
  encode_int (Z.of_nat (length accs)) ++ mjoin (encode_account <$> accs).

(** [fopen] fails when [env_disk_ok] is false: the function prints an error
    and returns 0, and the file keeps its previous content. *)
Definition save_accounts (e : env) (g : globals) : globals * Z :=
  if env_disk_ok e then (set_disk g (Some (encode_table (accounts g))), 1)
  else (g, 0).

(** ** [load_accounts] (lines 187-197) *)

(** [fread(accounts, sizeof(BankAccount), total_accounts, fp)]: [n] structs;
    those the file does not hold keep their zero-filled content. *)
Fixpoint fread_accounts (n : nat) (bs : bytes) : list BankAccount :=
  match n with
  | O => []
  | S n' => match decode_account bs with
            | Some (a, rest) => a :: fread_accounts n' rest
            | None => zero_account :: fread_accounts n' []
            end
  end.

(** A missing file leaves the table as it is and returns 0; a file too
    short for the count leaves [total_accounts] at its value (0 at
    start-up). *)
Definition load_accounts (g : globals) : globals * Z :=
  match disk g with
  | None => (g, 0)
  | Some bs =>
      match decode_int bs with
      | None => (g, 1)
      | Some (cnt, rest) => (set_accounts g (fread_accounts (Z.to_nat cnt) rest), 1)
      end
  end.

(** ** Round trips of the field codecs *)

(** An amount a [double] holds exactly. *)
Definition double_exact (z : Z) : Prop := Z.abs z < 2 ^ 53.

(** A value of a C [int]. *)
Definition int_range (z : Z) : Prop := -2 ^ 31 <= z < 2 ^ 31.


Lemma dtake_app n bs rest : length bs = n -> dtake n (bs ++ rest) = Some (bs, rest).
Proof.
  intros <-. unfold dtake. rewrite length_app, decide_True by lia.
  by rewrite take_app_length, drop_app_length.
Qed.

Lemma dbind_Some {A B} (d : decoder A) (k : A -> decoder B) bs a rest :
  d bs = Some (a, rest) -> dbind d k bs = k a rest.
Proof. intros H. unfold dbind. by rewrite H. Qed.

(** The [int] codec inverts on the values of a 32-bit [int]. *)
Lemma decode_encode_int z rest :
  int_range z -> decode_int (encode_int z ++ rest) = Some (z, rest).
Proof.
  intros Hz. unfold int_range in Hz. unfold decode_int, encode_int.
  rewrite (dbind_Some _ _ _ (le_split 4 z) rest) by (apply dtake_app, length_le_split).
  unfold dret. f_equal. f_equal. rewrite le_combine_split. unfold int_of_bits.
  change (Z.of_nat 4 * 8) with 32.
  destruct (Z.ltb_spec z 0).
  - rewrite <- (Z.mod_unique z (2 ^ 32) (-1) (z + 2 ^ 32)) by lia.
    destruct (Z.leb_spec (2 ^ 31) (z + 2 ^ 32)); lia.
  - rewrite Z.mod_small by lia. destruct (Z.leb_spec (2 ^ 31) z); lia.
Qed.

(** The fields of a [double]: sign, biased exponent, fraction. *)
Lemma double_value_fields (sg : bool) ex frac :
  1 <= ex <= 1075 -> 0 <= frac < 2 ^ 52 ->
  double_value ((if sg then 2 ^ 63 else 0) + ex * 2 ^ 52 + frac) =
    (if sg then - ((frac + 2 ^ 52) / 2 ^ (1075 - ex)) else (frac + 2 ^ 52) / 2 ^ (1075 - ex)).
Proof.
  intros Hex Hfr. unfold double_value.
  set (s' := if sg then 2 ^ 11 else 0).
  assert (Hb : (if sg then 2 ^ 63 else 0) + ex * 2 ^ 52 + frac = frac + (s' + ex) * 2 ^ 52)
    by (unfold s'; destruct sg; lia).
  rewrite Hb.
  assert (Hhi : Z.shiftr (frac + (s' + ex) * 2 ^ 52) 52 = s' + ex).
  { rewrite Z.shiftr_div_pow2, Z.div_add, Z.div_small by lia. lia. }
  assert (Hex' : Z.land (s' + ex) 2047 = ex).
  { change 2047 with (Z.ones 11). rewrite Z.land_ones by lia.
    unfold s'; destruct sg.
    - rewrite Z.add_comm, Z.add_mod, Z.mod_same, Z.add_0_r, !Z.mod_mod by lia.
      apply Z.mod_small. lia.
    - apply Z.mod_small. lia. }
  assert (Hlo : Z.land (frac + (s' + ex) * 2 ^ 52) (2 ^ 52 - 1) = frac).
  { change (2 ^ 52 - 1) with (Z.ones 52). rewrite Z.land_ones, Z_mod_plus_full by lia.
    apply Z.mod_small. lia. }
  assert (Hsg : Z.testbit (frac + (s' + ex) * 2 ^ 52) 63 = sg).
  { apply Bool.eq_iff_eq_true. rewrite Z.testbit_true by lia.
    replace (frac + (s' + ex) * 2 ^ 52) with ((frac + ex * 2 ^ 52) + (if sg then 1 else 0) * 2 ^ 63)
      by (unfold s'; destruct sg; lia).
    rewrite Z.div_add, Z.div_small by lia.
    destruct sg; simpl; split; auto; discriminate. }
  rewrite Hhi, Hex', Hlo, Hsg.
  destruct (Z.eqb_spec ex 0); [lia|].
  rewrite Z.shiftr_div_pow2 by lia. reflexivity.
Qed.

(** The normalised mantissa of a nonzero integer below [2^53]. *)
Lemma double_mantissa m :
  0 < m < 2 ^ 53 ->
  0 <= Z.log2 m <= 52 /\ 2 ^ 52 <= m * 2 ^ (52 - Z.log2 m) < 2 ^ 53.
Proof.
  intros Hm. pose proof (Z.log2_spec m ltac:(lia)) as [Hlo Hhi].
  assert (Hle : Z.log2 m <= 52).
  { enough (Z.log2 m < 53) by lia. apply Z.log2_lt_pow2; lia. }
  pose proof (Z.log2_nonneg m).
  split; [lia|].
  replace (2 ^ 52) with (2 ^ Z.log2 m * 2 ^ (52 - Z.log2 m)) at 1
    by (rewrite <- Z.pow_add_r by lia; f_equal; lia).
  replace (2 ^ 53) with (2 ^ Z.succ (Z.log2 m) * 2 ^ (52 - Z.log2 m))
    by (rewrite <- Z.pow_add_r by lia; f_equal; lia).
  pose proof (Z.pow_pos_nonneg 2 (52 - Z.log2 m) ltac:(lia) ltac:(lia)).
  split; [apply Z.mul_le_mono_nonneg_r | apply Z.mul_lt_mono_pos_r]; lia.
Qed.

(** The [double] codec inverts on the integers a [double] holds exactly. *)
Lemma decode_encode_double z rest :
  double_exact z -> decode_double (encode_double z ++ rest) = Some (z, rest).
Proof.
  intros Hz. unfold double_exact in Hz. unfold decode_double, encode_double.
  rewrite (dbind_Some _ _ _ (le_split 8 (double_bits z)) rest)
    by (apply dtake_app, length_le_split).
  unfold dret. f_equal. f_equal. rewrite le_combine_split.
  change (Z.of_nat 8 * 8) with 64.
  unfold double_bits. destruct (Z.eqb_spec z 0) as [->|Hz0]; [reflexivity|].
  destruct (double_mantissa (Z.abs z)) as [He Hm]; [lia|].
  rewrite Z.shiftl_mul_pow2 by lia.
  set (e := Z.log2 (Z.abs z)) in *.
  set (M := Z.abs z * 2 ^ (52 - e)) in *.
  rewrite Z.mod_small.
  2:{ destruct (Z.ltb_spec z 0); lia. }
  rewrite double_value_fields by lia.
  replace (M - 2 ^ 52 + 2 ^ 52) with M by lia.
  replace (1075 - (e + 1023)) with (52 - e) by lia.
  unfold M. rewrite Z.div_mul by (apply Z.pow_nonzero; lia).
  destruct (Z.ltb_spec z 0); lia.
Qed.

(** A string fits [char s[n]]: its bytes and the NUL fit, and none of its
    bytes is a NUL (which would end it early). *)
Definition c_fits (n : nat) (s : string) : Prop :=
  (length (String.list_byte_of_string s) < n)%nat ∧ Byte.x00 ∉ String.list_byte_of_string s.

#[export] Instance c_fits_dec n s : Decision (c_fits n s).
Proof. unfold c_fits. apply _. Defined.

(** A string of characters without NUL, shorter than the array. *)
Lemma c_fits_ascii n s :
  (String.length s < n)%nat -> Forall (fun c => c <> "000"%char) (String.list_ascii_of_string s) ->
  c_fits n s.
Proof.
  intros Hl Hn. unfold c_fits, String.list_byte_of_string.
  rewrite length_map, length_list_ascii. split; [done|].
  intros Hin%list_elem_of_In. apply in_map_iff in Hin as (c & Hc & Hin).
  rewrite Forall_forall in Hn. apply (Hn c); [by apply list_elem_of_In|].
  apply (f_equal ascii_of_byte) in Hc. by rewrite ascii_of_byte_of_ascii in Hc.
Qed.

Lemma c_string_app_nul bs rest :
  Byte.x00 ∉ bs -> c_string (bs ++ Byte.x00 :: rest) = bs.
Proof.
  induction bs as [|b bs IH]; intros Hn; simpl; [done|].
  rewrite decide_False by (intros ->; apply Hn; left).
  rewrite IH; [done|]. intros Hin; apply Hn; by right.
Qed.

Lemma encode_chars_shape n s :
  (length (String.list_byte_of_string s) < n)%nat ->
  exists k, encode_chars n s = String.list_byte_of_string s ++ Byte.x00 :: replicate k Byte.x00
         ∧ length (encode_chars n s) = n.
Proof.
  intros Hlen. set (bs := String.list_byte_of_string s) in *.
  exists (n - length bs - 1)%nat. unfold encode_chars. fold bs.
  assert (Hshape : take n (bs ++ replicate n Byte.x00) =
                   bs ++ Byte.x00 :: replicate (n - length bs - 1) Byte.x00).
  { replace n with (length bs + S (n - length bs - 1))%nat at 1 by lia.
    rewrite take_app_add, take_replicate, Nat.min_l by lia. reflexivity. }
  rewrite Hshape. split; [done|].
  rewrite length_app. simpl. rewrite length_replicate. lia.
Qed.

Lemma decode_encode_chars n s rest :
  c_fits n s -> decode_chars n (encode_chars n s ++ rest) = Some (s, rest).
Proof.
  intros [Hlen Hnul]. destruct (encode_chars_shape n s Hlen) as (k & Hs & Hl).
  unfold decode_chars. rewrite (dbind_Some _ _ _ (encode_chars n s) rest) by (by apply dtake_app).
  rewrite Hs, c_string_app_nul by done. by rewrite String.string_of_list_byte_of_string.
Qed.

Lemma decode_encode_pad n rest : decode_pad n (encode_pad n ++ rest) = Some (tt, rest).
Proof.
  unfold decode_pad. rewrite (dbind_Some _ _ _ (encode_pad n) rest); [done|].
  apply dtake_app, length_replicate.
Qed.

(** One field of a record decodes to its value and leaves the rest. *)
Ltac decode_field :=
  erewrite dbind_Some;
  [| first [ apply decode_encode_chars | apply decode_encode_double
           | apply decode_encode_int | apply decode_encode_pad ]; by auto ].

(** ** What the snapshot can hold *)

Definition transaction_fits (t : Transaction) : Prop :=
  c_fits 20 (date t) ∧ c_fits 20 (type t) ∧ double_exact (amount t) ∧
  double_exact (balance_after t) ∧ c_fits 100 (description t) ∧
  c_fits 15 (reference_account t).

Definition account_fits (a : BankAccount) : Prop :=
  c_fits 15 (account_number a) ∧ c_fits 50 (name a) ∧ c_fits 20 (username a) ∧
  c_fits 50 (password_hash a) ∧ c_fits 12 (dob a) ∧ c_fits 15 (mobile a) ∧
  c_fits 50 (email a) ∧ double_exact (balance a) ∧ c_fits 20 (account_type a) ∧
  int_range (failed_attempts a) ∧ c_fits 20 (created_date a) ∧
  transaction_count a <= MAX_TRANSACTIONS ∧ Forall transaction_fits (transactions a).

Definition table_fits (accs : list BankAccount) : Prop :=
  int_range (Z.of_nat (length accs)) ∧ Forall account_fits accs.

#[export] Instance transaction_fits_dec t : Decision (transaction_fits t).
Proof. unfold transaction_fits, double_exact. apply _. Defined.
#[export] Instance account_fits_dec a : Decision (account_fits a).
Proof. unfold account_fits, double_exact, int_range. apply _. Defined.
#[export] Instance table_fits_dec accs : Decision (table_fits accs).
Proof. unfold table_fits, int_range. apply _. Defined.

Lemma decode_encode_transaction t rest :
  transaction_fits t -> decode_transaction (encode_transaction t ++ rest) = Some (t, rest).
Proof.
  intros (? & ? & ? & ? & ? & ?). unfold encode_transaction, decode_transaction.
  rewrite <- !app_assoc. do 7 decode_field. by destruct t.
Qed.

Lemma decode_encode_slots ts rest :
  Forall transaction_fits ts ->
  decode_slots (length ts) (mjoin (encode_transaction <$> ts) ++ rest) = Some (ts, rest).
Proof.
  induction 1 as [|t ts Ht Hts IH]; [done|]. simpl.
  rewrite <- app_assoc. erewrite dbind_Some by (by apply decode_encode_transaction).
  by erewrite dbind_Some by (apply IH).
Qed.

Lemma zero_transaction_fits : transaction_fits zero_transaction.
Proof. apply (bool_decide_unpack _). by vm_compute. Qed.

Lemma decode_encode_slots_full ts rest :
  (length ts <= 100)%nat -> Forall transaction_fits ts ->
  decode_slots 100 (encode_slots ts ++ rest) =
    Some (ts ++ replicate (100 - length ts) zero_transaction, rest).
Proof.
  intros Hlen Hts. unfold encode_slots.
  replace 100%nat with (length (ts ++ replicate (100 - length ts) zero_transaction)) at 1
    by (rewrite length_app, length_replicate; lia).
  apply decode_encode_slots, Forall_app. split; [done|].
  apply Forall_replicate, zero_transaction_fits.
Qed.

Lemma decode_encode_account a rest :
  account_fits a -> decode_account (encode_account a ++ rest) = Some (a, rest).
Proof.
  intros (? & ? & ? & ? & ? & ? & ? & ? & ? & ? & ? & Hcnt & Hts).
  unfold encode_account, decode_account. rewrite <- !app_assoc.
  do 10 decode_field.
  erewrite dbind_Some by (apply decode_encode_int; unfold int_range; destruct (is_active a); lia).
  do 2 decode_field.
  erewrite dbind_Some.
  2:{ apply decode_encode_slots_full; [|done]. unfold transaction_count, MAX_TRANSACTIONS in Hcnt. lia. }
  erewrite dbind_Some.
  2:{ apply decode_encode_int. unfold int_range, transaction_count, MAX_TRANSACTIONS in *. lia. }
  decode_field. unfold dret. f_equal. f_equal.
  unfold transaction_count. rewrite Nat2Z.id, take_app_length.
  destruct a as [??????? ?? act ???]; simpl. f_equal. by destruct act.
Qed.

Lemma fread_encode_accounts accs rest :
  Forall account_fits accs ->
  fread_accounts (length accs) (mjoin (encode_account <$> accs) ++ rest) = accs.
Proof.
  induction 1 as [|a accs Ha Haccs IH]; [done|]. simpl.
  rewrite <- app_assoc, decode_encode_account by done. cbv beta iota. f_equal. exact IH.
Qed.

(** ** Loading what was saved *)

(** [load_accounts] on a file holding the image of a table whose values
    the structs can hold gives that table back. *)
Lemma load_accounts_snapshot g accs :
  disk g = Some (encode_table accs) -> table_fits accs ->
  load_accounts g = (set_accounts g accs, 1).
Proof.
  intros Hd [Hlen Hfits]. unfold load_accounts. rewrite Hd. unfold encode_table.
  rewrite decode_encode_int by done.
  by rewrite Nat2Z.id, <- (app_nil_r (mjoin _)), fread_encode_accounts.
Qed.

(** (C10) Round trip of the snapshot: after a successful [save_accounts], the
    [load_accounts] of the next start-up reads back exactly the saved state:
    the same accounts, field for field and ledgers included, and returns 1;
    for every table whose strings fit their arrays without a NUL, whose
    amounts are integers a [double] holds exactly, and whose attempt
    counters are [int]s. *)
Theorem load_accounts_save_accounts e g :
  env_disk_ok e = true -> table_fits (accounts g) ->
  load_accounts (fst (save_accounts e g)) = (fst (save_accounts e g), 1).
Proof.
  intros Hdisk Hfits. unfold save_accounts. rewrite Hdisk.
  rewrite (load_accounts_snapshot _ (accounts g)) by done.
  by destruct g.
Qed.

Lemma load_accounts_save_accounts_witness :
  env_disk_ok sample_env = true /\ table_fits (accounts sample_globals) /\
  load_accounts (fst (save_accounts sample_env sample_globals)) =
    (fst (save_accounts sample_env sample_globals), 1).
Proof.
  assert (Hf : table_fits (accounts sample_globals))
    by (apply (bool_decide_unpack _); vm_compute; exact I).
  split_and!; [reflexivity | exact Hf | exact (load_accounts_save_accounts sample_env _ eq_refl Hf)].
Defined.

(** ** The count is not checked *)

(** [fread] of [n] structs always yields [n] of them. *)
Lemma length_fread_accounts n bs : length (fread_accounts n bs) = n.
Proof.
  revert bs. induction n as [|n IH]; intros bs; simpl; [done|].
  destruct (decode_account bs) as [[a rest]|]; simpl; by rewrite IH.
Qed.

(** (C29) [load_accounts] trusts the count at the head of the file:
    [fread(&total_accounts, sizeof(int), 1, fp)] is not compared with
    [MAX_ACCOUNTS], so whatever follows the header, a file announcing [n]
    accounts makes [total_accounts] [n]; for [n > MAX_ACCOUNTS] every later
    loop over the table reads past [accounts[MAX_ACCOUNTS - 1]]. *)
Theorem load_accounts_count_unchecked n rest g :
  0 <= n < 2 ^ 31 ->
  let g' := fst (load_accounts (set_disk g (Some (encode_int n ++ rest)))) in
  total_accounts g' = n /\ snd (load_accounts (set_disk g (Some (encode_int n ++ rest)))) = 1.
Proof.
  intros Hn g'. unfold g', load_accounts, set_disk. cbn [disk].
  rewrite decode_encode_int by (unfold int_range; lia).
  unfold total_accounts. cbn. rewrite length_fread_accounts. split; [lia|done].
Qed.

Lemma load_accounts_count_unchecked_witness :
  0 <= 1001 < 2 ^ 31 /\
  MAX_ACCOUNTS < total_accounts (fst (load_accounts (set_disk sample_globals (Some (encode_int 1001 ++ []))))).
Proof.
  assert (H : 0 <= 1001 < 2 ^ 31) by lia. split; [exact H|].
  rewrite (proj1 (load_accounts_count_unchecked 1001 [] sample_globals H)). reflexivity.
Defined.

(** ** The layout of the structs *)

Lemma length_encode_chars n s : length (encode_chars n s) = n.
Proof. unfold encode_chars. rewrite length_take, length_app, length_replicate. lia. Qed.

Lemma length_encode_int z : length (encode_int z) = 4%nat.
Proof. apply length_le_split. Qed.

Lemma length_encode_double z : length (encode_double z) = 8%nat.
Proof. apply length_le_split. Qed.

Lemma length_mjoin_fmap {A} (f : A -> bytes) k l :
  (forall x, length (f x) = k) -> length (mjoin (f <$> l)) = (k * length l)%nat.
Proof.
  intros Hf. induction l as [|x l IH]; simpl; [lia|].
  rewrite length_app, Hf. rewrite (IH : length (mjoin (list_fmap _ _ f l)) = _). lia.
Qed.

Create Rewrite HintDb snapshot_len.
#[local] Hint Rewrite length_encode_chars length_encode_int length_encode_double
  @length_app @length_replicate : snapshot_len.

Lemma length_encode_transaction t : length (encode_transaction t) = 176%nat.
Proof. unfold encode_transaction, encode_pad. by autorewrite with snapshot_len. Qed.

Lemma length_encode_account a :
  transaction_count a <= MAX_TRANSACTIONS -> Z.of_nat (length (encode_account a)) = 17880.
Proof.
  unfold transaction_count, MAX_TRANSACTIONS. intros Hc.
  unfold encode_account, encode_slots, encode_pad. autorewrite with snapshot_len.
  rewrite (length_mjoin_fmap _ 176) by apply length_encode_transaction.
  rewrite length_app, length_replicate. lia.
Qed.

(** (C21) The byte image has the sizes of the C structs: every
    [Transaction] takes [sizeof(Transaction)] = 176 bytes, every account
    with at most [MAX_TRANSACTIONS] entries [sizeof(BankAccount)] = 17880
    bytes, and [save_accounts] writes [4 + 17880 * total_accounts] bytes
    ([fwrite] of the count, then of the array). *)
Theorem encode_table_length accs :
  Forall (fun a => transaction_count a <= MAX_TRANSACTIONS) accs ->
  Z.of_nat (length (encode_table accs)) = 4 + 17880 * Z.of_nat (length accs).
Proof.
  intros Hc. unfold encode_table. rewrite length_app, length_encode_int, Nat2Z.inj_add.
  enough (Z.of_nat (length (mjoin (encode_account <$> accs))) = 17880 * Z.of_nat (length accs)) by lia.
  induction Hc as [|a accs Ha Haccs IH]; [reflexivity|].
  change (mjoin (encode_account <$> a :: accs)) with (encode_account a ++ mjoin (encode_account <$> accs)).
  rewrite length_app, Nat2Z.inj_add, IH, length_encode_account by done. simpl length. lia.
Qed.

Lemma encode_table_length_witness :
  Forall (fun a => transaction_count a <= MAX_TRANSACTIONS) (accounts sample_globals) /\
  Z.of_nat (length (encode_table (accounts sample_globals))) = 35764.
Proof.
  assert (H : Forall (fun a => transaction_count a <= MAX_TRANSACTIONS) (accounts sample_globals))
    by (repeat constructor; discriminate).
  split; [exact H | exact (encode_table_length _ H)].
Defined.
