(* ===== verification/Store.v ===== *)
(** * The account store (src/bank.c, lines 152-168, 433-664, 785-916)

    The operations on the table [accounts[0 .. total_accounts)]: the two
    lookups, [create_account], the logged-in user's [deposit_money],
    [withdraw_money] and [change_password], and the administrator's
    [admin_block_account], [admin_unblock_account] and statistics.  Each
    handler is a function [globals -> globals * status] that follows the
    code's order: the checks with their early returns, then the writes
    through the account pointer (an update of the list at the pointer's
    index), then [save_accounts].  Handlers that act on [current_user] go
    through [with_current_user], which reads the account the pointer
    designates.

    The invariant [table_ok] gathers what every account satisfies (a known
    type, a balance at or above its type's floor, the lockout counter in
    range, a consistent ledger) and that usernames are unique; the lemmas
    [table_ok_update] and [table_ok_append] are what the handlers' proofs
    share.  The theorems give [deposit_money] and [withdraw_money] on every
    branch, characterise when [create_account] succeeds and what it
    appends, and state the findings: duplicate account numbers, deposits
    unrecorded when a ledger is full, success reported when the save
    fails, and long passwords that can never be confirmed. *)

From Stdlib Require Import ZArith Lia Ascii.
From stdpp Require Import base list strings.
From S2P Require Import Prelude CLib Types Hash Validation Ledger Persistence.

Local Open Scope Z_scope.

(** ** Lookups (lines 152-168) *)

Definition find_account_by_username (username0 : string) (accs : list BankAccount)
    : option (nat * BankAccount) :=
  find_first (fun a => strcmp_eq (username a) username0) accs.

Definition find_account_by_number (account_number0 : string) (accs : list BankAccount)
    : option (nat * BankAccount) :=
  find_first (fun a => strcmp_eq (account_number a) account_number0) accs.

(** ** Account types *)

(** [double min_balance = 500; if (strcmp(type, "CURRENT") == 0) min_balance = 1000;
    if (strcmp(type, "PREMIUM") == 0) min_balance = 5000;] (lines 645-647,
    repeated at 708-710) *)
Definition min_balance_of (account_type0 : string) : Z :=
  let m := 500 in
  let m := if strcmp_eq account_type0 CURRENT then 1000 else m in
  if strcmp_eq account_type0 PREMIUM then 5000 else m.

(** The [switch (acc_type)] of [create_account] (lines 543-560): the type
    string and the minimum initial deposit. *)
Definition account_type_choice (acc_type : Z) : option (string * Z) :=
  if acc_type =? 1 then Some (SAVINGS, 500)
  else if acc_type =? 2 then Some (CURRENT, 1000)
  else if acc_type =? 3 then Some (PREMIUM, 5000)
  else None.

(** ** [create_account] (lines 433-596) *)

(** What the user types at the prompts, in order. *)
Record account_form := mkForm {
  f_name : string;
  f_username : string;
  f_email : string;
  f_mobile : string;
  f_dob : string;
  f_password : string;
  f_confirm : string;
  f_acc_type : Z;
  f_deposit : Z
}.

(** The checks of [create_account] and the record it builds. *)
Definition new_account (e : env) (accs : list BankAccount) (f : account_form)
    : outcome bank_error BankAccount :=
  check (Z.of_nat (length accs) <? MAX_ACCOUNTS) else MaxAccountsReached in
  let account_number0 := generate_account_number (env_time e) in
  check valid_name (String.list_ascii_of_string (f_name f)) else InvalidName in
  check username_length_ok (f_username f) else UsernameLength in
  check (match find_account_by_username (f_username f) accs with
         | Some _ => false | None => true end) else UsernameExists in
  check validate_email (f_email f) else InvalidEmail in
  check validate_mobile (f_mobile f) else InvalidMobile in
  check strcmp_eq (f_password f) (f_confirm f) else PasswordsDontMatch in
  let* choice := of_option (account_type_choice (f_acc_type f)) InvalidAccountType in
  check negb (f_deposit f <? snd choice) else InsufficientInitialDeposit in
  let a := mkAccount account_number0 (f_name f) (f_username f) (hash_password (f_password f))
             (f_dob f) (f_mobile f) (f_email f) (f_deposit f) (fst choice) true 0
             (env_date e) [] in
  Ok (add_transaction (env_date e) a DEPOSIT (f_deposit f) "Initial Deposit" None).

(** [accounts[total_accounts] = new_account; total_accounts++; save_accounts();] *)
Definition create_account (e : env) (f : account_form) (g : globals) : globals * status :=
  match new_account e (accounts g) f with
  | Err err => (g, Failed err)
  | Ok a => (fst (save_accounts e (set_accounts g (accounts g ++ [a]))), Done)
  end.

(** ** The logged-in user's operations *)

(** The account [current_user] points to. *)
Definition with_current_user (g : globals) (k : nat -> BankAccount -> globals * status)
    : globals * status :=
  match current_user g with
  | Some i => match accounts g !! i with
              | Some a => k i a
              | None => (g, Failed NoSession)
              end
  | None => (g, Failed NoSession)
  end.

(** [current_user->f = ...; save_accounts();] *)
Definition write_current (e : env) (g : globals) (i : nat) (a : BankAccount) : globals :=
  fst (save_accounts e (set_accounts g (<[i := a]> (accounts g)))).

(** [current_user->balance += amount; add_transaction(current_user, "DEPOSIT", ...);] *)
Definition deposit_account (now : string) (amount0 : Z) (a : BankAccount) : BankAccount :=
  add_transaction now (set_balance a (balance a + amount0)) DEPOSIT amount0 "Cash Deposit" None.

(** [deposit_money] (lines 598-625) *)
Definition deposit_money (e : env) (amount0 : Z) (g : globals) : globals * status :=
  with_current_user g (fun i a =>
    if negb (validate_amount amount0) then (g, Failed InvalidAmount)
    else (write_current e g i (deposit_account (env_date e) amount0 a), Done)).

Definition withdraw_account (now : string) (amount0 : Z) (a : BankAccount) : BankAccount :=
  add_transaction now (set_balance a (balance a - amount0)) WITHDRAW amount0 "Cash Withdrawal" None.

(** [withdraw_money] (lines 627-664) *)
Definition withdraw_money (e : env) (amount0 : Z) (g : globals) : globals * status :=
  with_current_user g (fun i a =>
    if negb (validate_amount amount0) then (g, Failed InvalidAmount)
    else
      let min_balance := min_balance_of (account_type a) in
      if balance a - amount0 <? min_balance then (g, Failed (InsufficientBalance min_balance))
      else (write_current e g i (withdraw_account (env_date e) amount0 a), Done)).

(** [change_password] (lines 785-850), given the three passwords read by
    the masked reader. *)
Definition change_password (e : env) (old_password new_password confirm_password : string)
    (g : globals) : globals * status :=
  with_current_user g (fun i a =>
    if negb (strcmp_eq (password_hash a) (hash_password old_password))
    then (g, Failed IncorrectCurrentPassword)
    else if negb (strcmp_eq new_password confirm_password)
    then (g, Failed NewPasswordsDontMatch)
    else (write_current e g i (set_password_hash a (hash_password new_password)), Done)).

(** ** The administrator's operations *)

(** [admin_block_account] (lines 877-895) *)
Definition admin_block_account (e : env) (account_number0 : string) (g : globals)
    : globals * status :=
  match find_account_by_number account_number0 (accounts g) with
  | None => (g, Failed AccountNotFound)
  | Some (i, a) => (write_current e g i (set_is_active a false), Done)
  end.

(** [admin_unblock_account] (lines 897-916) *)
Definition admin_unblock_account (e : env) (account_number0 : string) (g : globals)
    : globals * status :=
  match find_account_by_number account_number0 (accounts g) with
  | None => (g, Failed AccountNotFound)
  | Some (i, a) =>
      (write_current e g i (set_failed_attempts (set_is_active a true) 0), Done)
  end.

(** "View System Statistics" (lines 307-313): the count and the sum of the
    balances. *)
Definition admin_statistics (g : globals) : Z * Z :=
  (total_accounts g, fold_left (fun total a => total + balance a) (accounts g) 0).

(** ** The store invariant *)

Definition account_type_ok (ty : string) : Prop := ty ∈ [SAVINGS; CURRENT; PREMIUM].

Definition account_fields_ok (a : BankAccount) : Prop :=
  account_type_ok (account_type a) /\
  min_balance_of (account_type a) <= balance a /\
  0 <= failed_attempts a <= 3 /\
  (is_active a = true -> failed_attempts a < 3).

Definition account_ok (a : BankAccount) : Prop := account_fields_ok a /\ ledger_ok a.

Definition table_ok (accs : list BankAccount) : Prop :=
  Forall account_ok accs /\ NoDup (username <$> accs) /\ Z.of_nat (length accs) <= MAX_ACCOUNTS.

(** ** Lemmas shared by the handlers *)

Lemma save_accounts_accounts e g : accounts (fst (save_accounts e g)) = accounts g.
Proof. unfold save_accounts. by destruct (env_disk_ok e). Qed.

Lemma save_accounts_session e g : current_user (fst (save_accounts e g)) = current_user g.
Proof. unfold save_accounts. by destruct (env_disk_ok e). Qed.

Lemma write_current_accounts e g i a :
  accounts (write_current e g i a) = <[i := a]> (accounts g).
Proof. unfold write_current. by rewrite save_accounts_accounts. Qed.

Lemma write_current_session e g i a : current_user (write_current e g i a) = current_user g.
Proof. unfold write_current. by rewrite save_accounts_session. Qed.

#[export] Hint Rewrite save_accounts_accounts save_accounts_session
  write_current_accounts write_current_session : bank_len.

Lemma min_balance_of_pos ty : 500 <= min_balance_of ty.
Proof. unfold min_balance_of. destruct (strcmp_eq ty CURRENT), (strcmp_eq ty PREMIUM); lia. Qed.

(** Replacing an account by one with the same username and the invariant
    keeps the table invariant. *)
Lemma table_ok_update accs i a a' :
  table_ok accs -> accs !! i = Some a -> account_ok a' -> username a' = username a ->
  table_ok (<[i := a']> accs).
Proof.
  intros (Hall & Hnd & Hlen) Hi Ha' Hu. split_and!.
  - by apply Forall_insert.
  - rewrite list_fmap_insert, Hu, list_insert_id; [done|].
    by rewrite list_lookup_fmap, Hi.
  - by rewrite length_insert.
Qed.

Lemma table_ok_append accs a :
  table_ok accs -> account_ok a -> username a ∉ username <$> accs ->
  Z.of_nat (length accs) < MAX_ACCOUNTS -> table_ok (accs ++ [a]).
Proof.
  intros (Hall & Hnd & Hlen) Ha Hu Hroom. split_and!.
  - apply Forall_app. split; [done|by apply Forall_singleton].
  - rewrite fmap_app. simpl. apply NoDup_app. split_and!; [done| |by apply NoDup_singleton].
    intros x Hx Hy. apply list_elem_of_singleton in Hy. subst. done.
  - rewrite length_app. simpl. lia.
Qed.

(** [find_account_by_username] misses exactly the usernames not in the table. *)
Lemma find_account_by_username_None u accs :
  find_account_by_username u accs = None <-> u ∉ username <$> accs.
Proof.
  unfold find_account_by_username. rewrite find_first_None, Forall_forall.
  rewrite list_elem_of_fmap. split.
  - intros H (a & -> & Ha). apply H in Ha.
    rewrite (proj2 (strcmp_eq_spec _ _) eq_refl) in Ha. discriminate.
  - intros H a Ha. destruct (strcmp_eq (username a) u) eqn:E; [|done].
    exfalso. apply H. exists a. split; [symmetry; by apply strcmp_eq_spec|done].
Qed.

Lemma add_transaction_account_ok now a ty amt d r :
  account_fields_ok (set_balance a (balance a + signed_amount ty amt)) -> ledger_ok a ->
  0 < amt -> known_type ty ->
  account_ok (add_transaction now (set_balance a (balance a + signed_amount ty amt)) ty amt d r).
Proof.
  intros Hf Hl Hamt Hk. split; [|by apply ledger_ok_step].
  destruct (add_transaction_fields now (set_balance a (balance a + signed_amount ty amt)) ty amt d r)
    as (Hb & _ & _ & _ & _ & Ht & Ha & Hfa).
  unfold account_fields_ok in *. by rewrite Hb, Ht, Ha, Hfa.
Qed.

Lemma signed_amount_DEPOSIT amt : signed_amount DEPOSIT amt = amt.
Proof. reflexivity. Qed.

Lemma signed_amount_WITHDRAW amt : signed_amount WITHDRAW amt = - amt.
Proof. reflexivity. Qed.

Lemma known_DEPOSIT : known_type DEPOSIT.
Proof. unfold known_type. apply list_elem_of_In. simpl. tauto. Qed.

Lemma known_WITHDRAW : known_type WITHDRAW.
Proof. unfold known_type. apply list_elem_of_In. simpl. tauto. Qed.

#[export] Hint Resolve known_DEPOSIT known_WITHDRAW : bank.

Lemma deposit_account_ok now amt a :
  account_ok a -> validate_amount amt = true -> account_ok (deposit_account now amt a).
Proof.
  intros Ha Hv. unfold validate_amount in Hv. split_andb. zcase; try discriminate.
  unfold deposit_account.
  change (balance a + amt) with (balance a + signed_amount DEPOSIT amt).
  apply add_transaction_account_ok; [|apply Ha|lia|auto with bank].
  destruct Ha as ((? & ? & ? & ?) & _).
  rewrite ?signed_amount_DEPOSIT, ?signed_amount_WITHDRAW.
  unfold account_fields_ok. simpl. split_and!; auto; lia.
Qed.

Lemma withdraw_account_ok now amt a :
  account_ok a -> validate_amount amt = true ->
  min_balance_of (account_type a) <= balance a - amt ->
  account_ok (withdraw_account now amt a).
Proof.
  intros Ha Hv Hmin. unfold validate_amount in Hv. split_andb. zcase; try discriminate.
  unfold withdraw_account. change (balance a - amt) with (balance a + - amt).
  change (balance a + - amt) with (balance a + signed_amount WITHDRAW amt).
  apply add_transaction_account_ok; [|apply Ha|lia|auto with bank].
  destruct Ha as ((? & ? & ? & ?) & _).
  rewrite ?signed_amount_DEPOSIT, ?signed_amount_WITHDRAW.
  unfold account_fields_ok. simpl. split_and!; auto; lia.
Qed.

(** ** The invariant of the globals

    Besides [table_ok], [current_user] points to an active account: the
    user logged in through [user_login], which refuses blocked accounts,
    and nothing blocks an account while its owner is logged in. *)
Definition session_ok (g : globals) : Prop :=
  match current_user g with
  | Some i => exists a, accounts g !! i = Some a /\ is_active a = true
  | None => True
  end.

Definition globals_ok (g : globals) : Prop := table_ok (accounts g) /\ session_ok g.

#[export] Instance account_ok_dec a : Decision (account_ok a).
Proof. unfold account_ok, account_fields_ok, account_type_ok. apply _. Defined.

#[export] Instance table_ok_dec accs : Decision (table_ok accs).
Proof. unfold table_ok. apply _. Defined.

#[export] Instance session_ok_dec g : Decision (session_ok g).
Proof.
  unfold session_ok. destruct (current_user g) as [i|]; [|apply _].
  destruct (accounts g !! i) as [a|] eqn:Hi.
  - destruct (is_active a) eqn:Ha; [left; by exists a|right; intros (a' & [= <-] & ?); congruence].
  - right. intros (a' & ? & _). congruence.
Defined.

#[export] Instance globals_ok_dec g : Decision (globals_ok g).
Proof. unfold globals_ok. apply _. Defined.

Lemma save_accounts_ok e g : globals_ok g -> globals_ok (fst (save_accounts e g)).
Proof. unfold save_accounts. by destruct (env_disk_ok e). Qed.

(** A write through an account pointer, followed by [save_accounts]. *)
Lemma write_current_ok e g i a a' :
  globals_ok g -> accounts g !! i = Some a -> account_ok a' -> username a' = username a ->
  (current_user g = Some i -> is_active a' = true) ->
  globals_ok (write_current e g i a').
Proof.
  intros [Ht Hs] Hi Ha' Hu Hact. apply save_accounts_ok. split; simpl.
  - by eapply table_ok_update.
  - unfold session_ok in *. simpl. destruct (current_user g) as [j|]; [|done].
    destruct (decide (i = j)) as [<-|Hne].
    + exists a'. split; [|by apply Hact]. apply list_lookup_insert_eq.
      by eapply lookup_lt_Some.
    + by rewrite list_lookup_insert_ne.
Qed.

Lemma table_ok_lookup accs i a : table_ok accs -> accs !! i = Some a -> account_ok a.
Proof. intros [Hall _] Hi. by eapply Forall_lookup_1. Qed.

#[export] Hint Resolve table_ok_lookup : bank.

(** Unfold a handler that acts on [current_user] down to its branches. *)
Ltac session_cases g :=
  unfold with_current_user;
  destruct (current_user g) as [?i|] eqn:?Hcur; [|done];
  destruct (accounts g !! _) as [?a|] eqn:?Hlook; [|done].

Lemma session_active g i a :
  globals_ok g -> current_user g = Some i -> accounts g !! i = Some a -> is_active a = true.
Proof.
  intros [_ Hs] Hc Ha. unfold session_ok in Hs. rewrite Hc in Hs.
  destruct Hs as (a' & Ha' & Hact). congruence.
Qed.

Lemma deposit_money_ok e amt g : globals_ok g -> globals_ok (fst (deposit_money e amt g)).
Proof.
  intros Hg. unfold deposit_money. session_cases g.
  destruct (validate_amount amt) eqn:Hv; simpl; [|done].
  destruct (add_transaction_fields (env_date e) (set_balance a (balance a + amt)) DEPOSIT amt
              "Cash Deposit" None) as (_ & _ & Hu & _ & _ & _ & Hact & _).
  eapply write_current_ok; eauto.
  - apply deposit_account_ok; [|done]. eapply table_ok_lookup; [apply Hg|done].
  - intros Hc. unfold deposit_account. rewrite Hact. simpl. by eapply session_active.
Qed.

Lemma withdraw_money_ok e amt g : globals_ok g -> globals_ok (fst (withdraw_money e amt g)).
Proof.
  intros Hg. unfold withdraw_money. session_cases g.
  destruct (validate_amount amt) eqn:Hv; simpl; [|done].
  destruct (Z.ltb_spec (balance a - amt) (min_balance_of (account_type a))); simpl; [done|].
  destruct (add_transaction_fields (env_date e) (set_balance a (balance a - amt)) WITHDRAW amt
              "Cash Withdrawal" None) as (_ & _ & Hu & _ & _ & _ & Hact & _).
  eapply write_current_ok; eauto.
  - apply withdraw_account_ok; [|done|lia]. eapply table_ok_lookup; [apply Hg|done].
  - intros Hc. unfold withdraw_account. rewrite Hact. simpl. by eapply session_active.
Qed.

Lemma change_password_ok e o n c g : globals_ok g -> globals_ok (fst (change_password e o n c g)).
Proof.
  intros Hg. unfold change_password. session_cases g.
  destruct (strcmp_eq (password_hash a) (hash_password o)); simpl; [|done].
  destruct (strcmp_eq n c); simpl; [|done].
  eapply write_current_ok; eauto.
  - destruct (table_ok_lookup _ _ _ (proj1 Hg) Hlook) as [Hf Hl]. split; [exact Hf|exact Hl].
  - intros Hc. simpl. by eapply session_active.
Qed.

Lemma find_account_by_number_Some n accs i a :
  find_account_by_number n accs = Some (i, a) -> accs !! i = Some a /\ account_number a = n.
Proof.
  intros H. apply find_first_Some in H as (Hi & Hp & _). split; [done|].
  by apply strcmp_eq_spec.
Qed.

(** The administrator's panel is reached from the main menu, where nobody
    is logged in. *)
Lemma admin_block_account_ok e n g :
  globals_ok g -> current_user g = None -> globals_ok (fst (admin_block_account e n g)).
Proof.
  intros Hg Hc. unfold admin_block_account.
  destruct (find_account_by_number n (accounts g)) as [[i a]|] eqn:Hf; simpl; [|done].
  apply find_account_by_number_Some in Hf as [Hi _].
  eapply write_current_ok; eauto; [|congruence].
  destruct (table_ok_lookup _ _ _ (proj1 Hg) Hi) as [(? & ? & ? & ?) Hl].
  split; [|exact Hl]. unfold account_fields_ok. simpl. split_and!; auto; try lia; discriminate.
Qed.

Lemma admin_unblock_account_ok e n g :
  globals_ok g -> globals_ok (fst (admin_unblock_account e n g)).
Proof.
  intros Hg. unfold admin_unblock_account.
  destruct (find_account_by_number n (accounts g)) as [[i a]|] eqn:Hf; simpl; [|done].
  apply find_account_by_number_Some in Hf as [Hi _].
  eapply write_current_ok; eauto.
  destruct (table_ok_lookup _ _ _ (proj1 Hg) Hi) as [(? & ? & ? & ?) Hl].
  split; [|exact Hl]. unfold account_fields_ok. simpl. split_and!; auto; lia.
Qed.

Lemma account_type_choice_Some t ty m :
  account_type_choice t = Some (ty, m) -> account_type_ok ty /\ min_balance_of ty = m.
Proof.
  unfold account_type_choice, account_type_ok.
  destruct (Z.eqb_spec t 1); [|destruct (Z.eqb_spec t 2); [|destruct (Z.eqb_spec t 3)]];
    try discriminate; intros [= <- <-];
    (split; [apply list_elem_of_In; simpl; tauto|reflexivity]).
Qed.

(** What [create_account] appends when all its checks pass. *)
Lemma new_account_Ok e accs f a :
  new_account e accs f = Ok a ->
  Z.of_nat (length accs) < MAX_ACCOUNTS /\ (f_username f ∉ username <$> accs) /\
  username a = f_username f /\ account_ok a.
Proof.
  unfold new_account. intros H. outcome_inv H.
  destruct x as [ty m]. unfold of_option in Hm.
  destruct (account_type_choice (f_acc_type f)) as [[ty' m']|] eqn:Hc; [|discriminate].
  injection Hm as <- <-. apply account_type_choice_Some in Hc as [Hty Hmin].
  apply Z.ltb_lt in Hg. apply negb_true_iff, Z.ltb_ge in Hg6. simpl in Hg6.
  subst a. split_and!.
  - done.
  - apply find_account_by_username_None.
    by destruct (find_account_by_username (f_username f) accs).
  - reflexivity.
  - set (a0 := mkAccount (generate_account_number (env_time e)) (f_name f) (f_username f)
                 (hash_password (f_password f)) (f_dob f) (f_mobile f) (f_email f) 0 ty' true 0
                 (env_date e) []).
    change (account_ok (add_transaction (env_date e)
              (set_balance a0 (balance a0 + signed_amount DEPOSIT (f_deposit f))) DEPOSIT
              (f_deposit f) "Initial Deposit" None)).
    pose proof (min_balance_of_pos ty').
    apply add_transaction_account_ok; [| |lia|auto with bank].
    + rewrite signed_amount_DEPOSIT. unfold account_fields_ok, a0. simpl.
      split_and!; auto; lia.
    + unfold ledger_ok, transaction_count, MAX_TRANSACTIONS, a0. simpl. split_and!; auto; lia.
Qed.

Lemma create_account_ok e f g :
  globals_ok g -> globals_ok (fst (create_account e f g)).
Proof.
  intros [Ht Hs]. unfold create_account.
  destruct (new_account e (accounts g) f) as [a|err] eqn:Hn; simpl; [|by split].
  apply new_account_Ok in Hn as (Hroom & Hfresh & Hu & Ha).
  apply save_accounts_ok. split; simpl.
  - apply table_ok_append; [done|done|by rewrite Hu|done].
  - unfold session_ok in *. simpl. destruct (current_user g); [|done].
    destruct Hs as (a' & Ha' & Hact). exists a'. split; [|done].
    by apply lookup_app_l_Some.
Qed.

(** ** Properties of the store's handlers *)

(** (C5) [withdraw_money] on every branch: an invalid amount and a
    withdrawal that would take the balance below its type's floor are
    refused with no change; otherwise the balance drops by the amount and
    (when the ledger has room) a [WITHDRAW] entry with the new balance is
    appended. *)
Theorem withdraw_money_spec e amt g i a :
  current_user g = Some i -> accounts g !! i = Some a ->
  let r := withdraw_money e amt g in
  (validate_amount amt = false -> r = (g, Failed InvalidAmount)) /\
  (validate_amount amt = true -> balance a - amt < min_balance_of (account_type a) ->
   r = (g, Failed (InsufficientBalance (min_balance_of (account_type a))))) /\
  (validate_amount amt = true -> min_balance_of (account_type a) <= balance a - amt ->
   snd r = Done /\
   exists a', accounts (fst r) = <[i := a']> (accounts g) /\ balance a' = balance a - amt /\
     (transaction_count a < MAX_TRANSACTIONS ->
      transactions a' = transactions a ++
        [mkTransaction (env_date e) WITHDRAW amt (balance a - amt) "Cash Withdrawal" "N/A"])).
Proof.
  intros Hc Hi r. unfold r, withdraw_money, with_current_user. rewrite Hc, Hi.
  split_and!; intros Hv; rewrite Hv; simpl; [done| |].
  - intros Hlt. destruct (Z.ltb_spec (balance a - amt) (min_balance_of (account_type a))); [done|lia].
  - intros Hge. destruct (Z.ltb_spec (balance a - amt) (min_balance_of (account_type a))); [lia|].
    split; [done|]. exists (withdraw_account (env_date e) amt a).
    split; [apply write_current_accounts|]. unfold withdraw_account.
    destruct (add_transaction_fields (env_date e) (set_balance a (balance a - amt)) WITHDRAW amt
                "Cash Withdrawal" None) as (-> & _).
    split; [done|]. intros Hroom. by rewrite add_transaction_room.
Qed.

Lemma withdraw_money_spec_witness :
  current_user sample_globals = Some 0%nat /\ accounts sample_globals !! 0%nat = Some sample_ann /\
  withdraw_money sample_env 600 sample_globals =
    (sample_globals, Failed (InsufficientBalance 500)) /\
  snd (withdraw_money sample_env 100 sample_globals) = Done.
Proof.
  split_and!; [reflexivity | reflexivity | |].
  - destruct (withdraw_money_spec sample_env 600 sample_globals 0 sample_ann eq_refl eq_refl)
      as (_ & H & _).
    apply H; vm_compute; reflexivity.
  - destruct (withdraw_money_spec sample_env 100 sample_globals 0 sample_ann eq_refl eq_refl)
      as (_ & _ & H).
    apply H; vm_compute; [reflexivity | discriminate].
Defined.

(** (C6) [deposit_money] on both branches: an amount outside (0, 1000000]
    is refused with no change; otherwise the balance grows by the amount
    and (when the ledger has room) a [DEPOSIT] entry is appended. *)
Theorem deposit_money_spec e amt g i a :
  current_user g = Some i -> accounts g !! i = Some a ->
  let r := deposit_money e amt g in
  (validate_amount amt = false -> r = (g, Failed InvalidAmount)) /\
  (validate_amount amt = true ->
   snd r = Done /\
   exists a', accounts (fst r) = <[i := a']> (accounts g) /\ balance a' = balance a + amt /\
     (transaction_count a < MAX_TRANSACTIONS ->
      transactions a' = transactions a ++
        [mkTransaction (env_date e) DEPOSIT amt (balance a + amt) "Cash Deposit" "N/A"])).
Proof.
  intros Hc Hi r. unfold r, deposit_money, with_current_user. rewrite Hc, Hi.
  split; intros Hv; rewrite Hv; simpl; [done|].
  split; [done|]. exists (deposit_account (env_date e) amt a).
  split; [apply write_current_accounts|]. unfold deposit_account.
  destruct (add_transaction_fields (env_date e) (set_balance a (balance a + amt)) DEPOSIT amt
              "Cash Deposit" None) as (-> & _).
  split; [done|]. intros Hroom. by rewrite add_transaction_room.
Qed.

Lemma deposit_money_spec_witness :
  current_user sample_globals = Some 0%nat /\ accounts sample_globals !! 0%nat = Some sample_ann /\
  deposit_money sample_env 0 sample_globals = (sample_globals, Failed InvalidAmount) /\
  snd (deposit_money sample_env 250 sample_globals) = Done.
Proof.
  split_and!; [reflexivity | reflexivity | |].
  - apply (deposit_money_spec sample_env 0 sample_globals 0 sample_ann eq_refl eq_refl).
    reflexivity.
  - apply (deposit_money_spec sample_env 250 sample_globals 0 sample_ann eq_refl eq_refl).
    reflexivity.
Defined.

(** (C28) When [accounts.dat] cannot be opened for writing, [deposit_money]
    still reports success: the table in memory has the new balance while
    the file keeps the old snapshot, and no error reaches the user. *)
Theorem deposit_money_unsaved_success e amt g i a :
  current_user g = Some i -> accounts g !! i = Some a ->
  validate_amount amt = true -> env_disk_ok e = false ->
  snd (deposit_money e amt g) = Done /\ disk (fst (deposit_money e amt g)) = disk g /\
  accounts (fst (deposit_money e amt g)) = <[i := deposit_account (env_date e) amt a]> (accounts g).
Proof.
  intros Hc Hi Hv Hd. unfold deposit_money, with_current_user. rewrite Hc, Hi, Hv. simpl.
  unfold write_current, save_accounts. rewrite Hd. done.
Qed.

Lemma deposit_money_unsaved_success_witness :
  validate_amount 250 = true /\ env_disk_ok (mkEnv "01/01/2025 10:05" 0 false) = false /\
  snd (deposit_money (mkEnv "01/01/2025 10:05" 0 false) 250 sample_globals) = Done /\
  disk (fst (deposit_money (mkEnv "01/01/2025 10:05" 0 false) 250 sample_globals)) = None.
Proof.
  destruct (deposit_money_unsaved_success (mkEnv "01/01/2025 10:05" 0 false) 250 sample_globals
              0 sample_ann eq_refl eq_refl eq_refl eq_refl) as (H1 & H2 & _).
  split_and!; [reflexivity | reflexivity | exact H1 | exact H2].
Defined.

(** (C27) When the ledger already holds [MAX_TRANSACTIONS] entries, a
    deposit changes the balance and records nothing: the ledger no longer
    accounts for the balance. *)
Theorem deposit_unrecorded_when_full now amt a :
  transaction_count a = MAX_TRANSACTIONS ->
  balance (deposit_account now amt a) = balance a + amt /\
  transactions (deposit_account now amt a) = transactions a.
Proof.
  intros Hfull. unfold deposit_account. rewrite add_transaction_full; [done|].
  unfold transaction_count in *. simpl. lia.
Qed.

Lemma deposit_unrecorded_when_full_witness :
  let a := set_transactions sample_ann (repeat sample_entry 100) in
  transaction_count a = MAX_TRANSACTIONS /\
  balance (deposit_account "01/01/2025 10:05" 250 a) = 1250 /\
  transactions (deposit_account "01/01/2025 10:05" 250 a) = transactions a.
Proof.
  intros a. assert (Hfull : transaction_count a = MAX_TRANSACTIONS) by reflexivity.
  destruct (deposit_unrecorded_when_full "01/01/2025 10:05" 250 a Hfull) as [H1 H2].
  split_and!; [exact Hfull | rewrite H1; reflexivity | exact H2].
Defined.

Lemma new_account_number e accs f a :
  new_account e accs f = Ok a -> account_number a = generate_account_number (env_time e).
Proof.
  unfold new_account. intros H. outcome_inv H. subst a.
  unfold add_transaction. by destruct (_ <? _).
Qed.

Lemma create_account_Done e f g :
  snd (create_account e f g) = Done ->
  exists a, new_account e (accounts g) f = Ok a /\
            accounts (fst (create_account e f g)) = accounts g ++ [a].
Proof.
  unfold create_account. destruct (new_account e (accounts g) f) as [a|err]; simpl; [|discriminate].
  intros _. exists a. split; [done|]. apply save_accounts_accounts.
Qed.

(** (C23) [create_account] never checks the number [generate_account_number]
    returns against the table: two accounts created within the same second
    of [time(NULL)] (the seed of [srand]) both succeed and get the same
    account number, so account numbers are not unique. *)
Theorem create_account_same_second_same_number e1 e2 f1 f2 g :
  env_time e1 = env_time e2 ->
  snd (create_account e1 f1 g) = Done ->
  snd (create_account e2 f2 (fst (create_account e1 f1 g))) = Done ->
  exists a1 a2,
    accounts (fst (create_account e2 f2 (fst (create_account e1 f1 g)))) = accounts g ++ [a1; a2] /\
    account_number a1 = account_number a2.
Proof.
  intros Ht H1 H2.
  destruct (create_account_Done _ _ _ H1) as (a1 & Hn1 & Ha1).
  destruct (create_account_Done _ _ _ H2) as (a2 & Hn2 & Ha2).
  exists a1, a2. split.
  - rewrite Ha2, Ha1, <- app_assoc. reflexivity.
  - rewrite (new_account_number _ _ _ _ Hn1), (new_account_number _ _ _ _ Hn2). by rewrite Ht.
Qed.

Lemma create_account_same_second_same_number_witness :
  let f1 := mkForm "Ann Lee" "annlee01" "ann@example.com" "9876543210" "01/01/1990"
              "secret12" "secret12" 1 1000 in
  let f2 := mkForm "Bob Ray" "bobray02" "bob@example.com" "9876543211" "02/02/1990"
              "secret34" "secret34" 2 2000 in
  let g := mkGlobals [] None None in
  snd (create_account sample_env f1 g) = Done /\
  snd (create_account sample_env f2 (fst (create_account sample_env f1 g))) = Done /\
  exists a1 a2,
    accounts (fst (create_account sample_env f2 (fst (create_account sample_env f1 g)))) = [a1; a2] /\
    account_number a1 = account_number a2.
Proof.
  intros f1 f2 g.
  assert (H1 : snd (create_account sample_env f1 g) = Done) by (vm_compute; reflexivity).
  assert (H2 : snd (create_account sample_env f2 (fst (create_account sample_env f1 g))) = Done)
    by (vm_compute; reflexivity).
  split_and!; [exact H1 | exact H2 |].
  exact (create_account_same_second_same_number sample_env sample_env f1 f2 g eq_refl H1 H2).
Defined.

(** The checks of [create_account], in the order the code makes them. *)
Lemma new_account_checks e accs f a :
  new_account e accs f = Ok a ->
  Z.of_nat (length accs) < MAX_ACCOUNTS /\
  valid_name (String.list_ascii_of_string (f_name f)) = true /\
  username_length_ok (f_username f) = true /\
  find_account_by_username (f_username f) accs = None /\
  validate_email (f_email f) = true /\ validate_mobile (f_mobile f) = true /\
  f_password f = f_confirm f /\
  (exists ty m, account_type_choice (f_acc_type f) = Some (ty, m) /\ m <= f_deposit f) /\
  a = add_transaction (env_date e)
        (mkAccount (generate_account_number (env_time e)) (f_name f) (f_username f)
           (hash_password (f_password f)) (f_dob f) (f_mobile f) (f_email f) (f_deposit f)
           (match account_type_choice (f_acc_type f) with Some (ty, _) => ty | None => "" end)
           true 0 (env_date e) [])
        DEPOSIT (f_deposit f) "Initial Deposit" None.
Proof.
  unfold new_account. intros H. outcome_inv H.
  destruct x as [ty m]. unfold of_option in Hm.
  destruct (account_type_choice (f_acc_type f)) as [[ty' m']|] eqn:Hc; [|discriminate].
  injection Hm as <- <-. apply Z.ltb_lt in Hg. apply negb_true_iff, Z.ltb_ge in Hg6.
  apply strcmp_eq_spec in Hg5.
  split_and!; try done.
  - by destruct (find_account_by_username (f_username f) accs).
  - by exists ty', m'.
Qed.

Lemma new_account_intro e accs f ty m :
  Z.of_nat (length accs) < MAX_ACCOUNTS ->
  valid_name (String.list_ascii_of_string (f_name f)) = true ->
  username_length_ok (f_username f) = true ->
  find_account_by_username (f_username f) accs = None ->
  validate_email (f_email f) = true -> validate_mobile (f_mobile f) = true ->
  f_password f = f_confirm f ->
  account_type_choice (f_acc_type f) = Some (ty, m) -> m <= f_deposit f ->
  exists a, new_account e accs f = Ok a.
Proof.
  intros Hn Hname Hu Hf Hem Hmo Hpw Hc Hd. unfold new_account.
  rewrite (proj2 (Z.ltb_lt _ _) Hn), Hname, Hu, Hf, Hem, Hmo, Hpw, (proj2 (strcmp_eq_spec _ _) eq_refl).
  simpl. rewrite Hc. simpl. rewrite (proj2 (Z.ltb_ge _ _) Hd). simpl. eauto.
Qed.

(** (C14) [create_account] succeeds exactly when all its checks pass: room
    in the table, a name of letters and spaces, a username of 8 to 15
    characters not yet taken, a valid email and mobile, matching passwords,
    an account type among 1-3 and an initial deposit at least the type's
    minimum; when it fails, nothing changes. *)
Theorem create_account_spec e f g :
  (snd (create_account e f g) <> Done -> fst (create_account e f g) = g) /\
  (snd (create_account e f g) = Done <->
   Z.of_nat (length (accounts g)) < MAX_ACCOUNTS /\
   valid_name (String.list_ascii_of_string (f_name f)) = true /\
   username_length_ok (f_username f) = true /\
   find_account_by_username (f_username f) (accounts g) = None /\
   validate_email (f_email f) = true /\ validate_mobile (f_mobile f) = true /\
   f_password f = f_confirm f /\
   (exists ty m, account_type_choice (f_acc_type f) = Some (ty, m) /\ m <= f_deposit f)).
Proof.
  unfold create_account.
  destruct (new_account e (accounts g) f) as [a|err] eqn:Hn; simpl; split; try done.
  - split; [intros _|done].
    apply new_account_checks in Hn as (? & ? & ? & ? & ? & ? & ? & ? & _). done.
  - split; [discriminate|].
    intros (Hl & Hname & Hu & Hf & Hem & Hmo & Hpw & ty & m & Hc & Hd).
    destruct (new_account_intro e (accounts g) f ty m) as [a Ha]; try done. congruence.
Qed.

(** (C15) The account [create_account] appends: the generated number, the
    typed profile, the hash of the password, the initial deposit as its
    balance, active with no failed attempt, and one [DEPOSIT] entry whose
    balance is the deposit. *)
Theorem create_account_new_account e f g :
  snd (create_account e f g) = Done ->
  exists a, accounts (fst (create_account e f g)) = accounts g ++ [a] /\
    account_number a = generate_account_number (env_time e) /\
    username a = f_username f /\ password_hash a = hash_password (f_password f) /\
    balance a = f_deposit f /\ is_active a = true /\ failed_attempts a = 0 /\
    transactions a =
      [mkTransaction (env_date e) DEPOSIT (f_deposit f) (f_deposit f) "Initial Deposit" "N/A"].
Proof.
  intros Hd. destruct (create_account_Done _ _ _ Hd) as (a & Hn & Ha).
  exists a. split; [exact Ha|].
  apply new_account_checks in Hn as (_ & _ & _ & _ & _ & _ & _ & _ & ->).
  unfold add_transaction. simpl. split_and!; reflexivity.
Qed.

(** (C25) A password of 20 to 38 characters can never be confirmed: typed
    twice at the two prompts of [create_account], the masked reader returns
    two different strings (the 20th keystroke is swallowed and the rest,
    Enter included, goes to the confirmation prompt), so the account is
    refused with "Passwords don't match!" and nothing changes. *)
Theorem create_account_long_password_refused e f g cs rest :
  plain_keys cs -> (20 <= length cs <= 38)%nat ->
  let r1 := read_password (cs ++ "013"%char :: cs ++ "013"%char :: rest) in
  f_password f = fst r1 -> f_confirm f = fst (read_password (snd r1)) ->
  Z.of_nat (length (accounts g)) < MAX_ACCOUNTS ->
  valid_name (String.list_ascii_of_string (f_name f)) = true ->
  username_length_ok (f_username f) = true ->
  find_account_by_username (f_username f) (accounts g) = None ->
  validate_email (f_email f) = true -> validate_mobile (f_mobile f) = true ->
  create_account e f g = (g, Failed PasswordsDontMatch).
Proof.
  intros Hp Hl r1 Hpw Hcf Hn Hname Hu Hf Hem Hmo.
  assert (Hne : strcmp_eq (f_password f) (f_confirm f) = false).
  { apply not_true_iff_false. rewrite strcmp_eq_spec, Hpw, Hcf.
    intros E. by apply (read_password_confirm_long cs rest Hp Hl). }
  unfold create_account, new_account.
  rewrite (proj2 (Z.ltb_lt _ _) Hn), Hname, Hu, Hf, Hem, Hmo, Hne. reflexivity.
Qed.

Lemma create_account_long_password_refused_witness :
  let cs := String.list_ascii_of_string "averyveryverylongpassword" in
  let r1 := read_password (cs ++ "013"%char :: cs ++ "013"%char :: []) in
  let f := mkForm "Ann Lee" "annlee01" "ann@example.com" "9876543210" "01/01/1990"
             (fst r1) (fst (read_password (snd r1))) 1 1000 in
  plain_keys cs /\ (20 <= length cs <= 38)%nat /\
  create_account sample_env f (mkGlobals [] None None) = (mkGlobals [] None None, Failed PasswordsDontMatch).
Proof.
  intros cs r1 f.
  assert (Hp : plain_keys cs) by (apply (bool_decide_unpack _); vm_compute; exact I).
  assert (Hl : (20 <= length cs <= 38)%nat) by (simpl; lia).
  split; [exact Hp|split; [exact Hl|]].
  apply (create_account_long_password_refused sample_env f _ cs []); try exact Hp; try exact Hl;
    vm_compute; reflexivity.
Defined.

Lemma create_account_new_account_witness :
  let f := mkForm "Ann Lee" "annlee01" "ann@example.com" "9876543210" "01/01/1990"
             "secret12" "secret12" 1 1000 in
  snd (create_account sample_env f (mkGlobals [] None None)) = Done /\
  exists a, accounts (fst (create_account sample_env f (mkGlobals [] None None))) = [a] /\
    balance a = 1000 /\ failed_attempts a = 0.
Proof.
  intros f. assert (Hd : snd (create_account sample_env f (mkGlobals [] None None)) = Done)
    by (vm_compute; reflexivity).
  split; [exact Hd|].
  destruct (create_account_new_account sample_env f _ Hd) as (a & Ha & _ & _ & _ & Hb & _ & Hf & _).
  exists a. split_and!; [exact Ha | exact Hb | exact Hf].
Defined.
