(* ===== verification/Auth.v ===== *)
(** * Authentication and lockout (src/bank.c, lines 253-327, 329-431)

    [user_login] looks the username up, refuses a blocked account, and
    compares the stored hash with the hash of the typed password.  A
    mismatch increments [failed_attempts], blocks the account when the
    count reaches 3, and saves; a match resets the counter and makes the
    account [current_user] (without saving).  [admin_panel] compares the
    typed credentials with the constant [admin] in plain text; the user
    dashboard's "Logout" clears [current_user].

    The per-account protocol is a two-state machine (active, blocked):
    [lock_step] is its step relation, with the administrator's block and
    unblock as the other transitions; [user_login_refines] shows each login
    is one of its steps.  The theorems also show that three consecutive
    failures block the account and that the right password then no longer
    opens it, that a successful login resets the counter without saving,
    that [user_login] keeps the store invariant, that a djb2 collision
    opens an account, and how login composes with the administrator's
    block and unblock and with [change_password]. *)

From Stdlib Require Import ZArith Lia Ascii.
From stdpp Require Import base list strings.
From S2P Require Import Prelude CLib Types Hash Validation Ledger Persistence Store.

Local Open Scope Z_scope.

(** ** [user_login] (lines 355-383), after the two prompts *)

Definition user_login (e : env) (username0 password : string) (g : globals) : globals * status :=
  match find_account_by_username username0 (accounts g) with
  | None => (g, Failed AccountNotFound)
  | Some (i, a) =>
      if negb (is_active a) then (g, Failed AccountBlocked)
      else if negb (strcmp_eq (password_hash a) (hash_password password)) then
        let fa := failed_attempts a + 1 in
        let a1 := set_failed_attempts a fa in
        let a2 := if 3 <=? fa then set_is_active a1 false else a1 in
        (write_current e g i a2,
         Failed (if 3 <=? fa then BlockedAfterFailures else InvalidPassword (3 - fa)))
      else
        (set_current_user (set_accounts g (<[i := set_failed_attempts a 0]> (accounts g))) (Some i),
         Done)
  end.

(** [case 7: current_user = NULL; return;] (lines 423-425) *)
Definition logout (g : globals) : globals := set_current_user g None.

(** The credential test of [admin_panel] (lines 279-280): plain [strcmp]
    against the constant [admin]. *)
Definition admin_login (username0 password : string) : bool :=
  strcmp_eq username0 (admin_username admin) && strcmp_eq password (admin_password admin).

(** ** Lemmas *)

Lemma find_account_by_username_Some u accs i a :
  find_account_by_username u accs = Some (i, a) -> accs !! i = Some a /\ username a = u.
Proof.
  intros H. apply find_first_Some in H as (Hi & Hp & _). split; [done|].
  by apply strcmp_eq_spec.
Qed.

(** The lookup still finds the account after a write that keeps its
    username. *)
Lemma find_account_by_username_insert u accs i a a' :
  find_account_by_username u accs = Some (i, a) -> username a' = username a ->
  find_account_by_username u (<[i := a']> accs) = Some (i, a').
Proof. intros Hf Hu. eapply find_first_insert; [exact Hf|by rewrite Hu]. Qed.

(** The branch of a wrong password. *)
Definition failed_login (a : BankAccount) : BankAccount :=
  let fa := failed_attempts a + 1 in
  if 3 <=? fa then set_is_active (set_failed_attempts a fa) false else set_failed_attempts a fa.

Lemma user_login_wrong e u p g i a :
  find_account_by_username u (accounts g) = Some (i, a) -> is_active a = true ->
  strcmp_eq (password_hash a) (hash_password p) = false ->
  fst (user_login e u p g) = write_current e g i (failed_login a).
Proof.
  intros Hf Ha Hp. unfold user_login. rewrite Hf, Ha, Hp. simpl.
  unfold failed_login. by destruct (3 <=? failed_attempts a + 1).
Qed.

Lemma failed_login_fields a :
  username (failed_login a) = username a /\ balance (failed_login a) = balance a /\
  password_hash (failed_login a) = password_hash a /\ transactions (failed_login a) = transactions a /\
  failed_attempts (failed_login a) = failed_attempts a + 1 /\
  is_active (failed_login a) = negb (3 <=? failed_attempts a + 1) && is_active a.
Proof. unfold failed_login. by destruct (3 <=? failed_attempts a + 1). Qed.

(** ** The lockout protocol as a state machine

    The abstract state of one account: unlocked with its failure count, or
    locked.  The events are the outcomes of a login attempt and the
    administrator's two actions. *)
Inductive lock_state := Unlocked (n : Z) | Locked.

Inductive lock_event := WrongPassword | RightPassword | Block | Unblock.

Inductive lock_step : lock_state -> lock_event -> lock_state -> Prop :=
| ls_wrong n : n + 1 < 3 -> lock_step (Unlocked n) WrongPassword (Unlocked (n + 1))
| ls_wrong_lock n : 3 <= n + 1 -> lock_step (Unlocked n) WrongPassword Locked
| ls_right n : lock_step (Unlocked n) RightPassword (Unlocked 0)
| ls_attempt_locked ev : ev = WrongPassword \/ ev = RightPassword -> lock_step Locked ev Locked
| ls_block s : lock_step s Block Locked
| ls_unblock s : lock_step s Unblock (Unlocked 0).

(** The abstraction of an account's lockout fields. *)
Definition lock_of (a : BankAccount) : lock_state :=
  if is_active a then Unlocked (failed_attempts a) else Locked.

(** In the abstract machine only [Unblock] leaves [Locked]. *)
Lemma locked_stays ev s : lock_step Locked ev s -> ev <> Unblock -> s = Locked.
Proof. inversion 1; congruence. Qed.

(** The event a login attempt is, seen from the account it names. *)
Definition login_event (a : BankAccount) (password : string) : lock_event :=
  if strcmp_eq (password_hash a) (hash_password password) then RightPassword else WrongPassword.

(** The account [user_login] leaves at the index it found. *)
Definition login_result (a : BankAccount) (password : string) : BankAccount :=
  if negb (is_active a) then a
  else if strcmp_eq (password_hash a) (hash_password password) then set_failed_attempts a 0
  else failed_login a.

Lemma user_login_found e u p g i a :
  find_account_by_username u (accounts g) = Some (i, a) ->
  accounts (fst (user_login e u p g)) = <[i := login_result a p]> (accounts g).
Proof.
  intros Hf. pose proof (find_account_by_username_Some _ _ _ _ Hf) as [Hi _].
  unfold login_result. destruct (is_active a) eqn:Ha; simpl.
  - destruct (strcmp_eq (password_hash a) (hash_password p)) eqn:Hp.
    + unfold user_login. rewrite Hf, Ha, Hp. reflexivity.
    + rewrite (user_login_wrong e u p g i a) by done. apply write_current_accounts.
  - unfold user_login. rewrite Hf, Ha. simpl. by rewrite list_insert_id.
Qed.

Lemma login_result_fields a p :
  username (login_result a p) = username a /\ balance (login_result a p) = balance a /\
  password_hash (login_result a p) = password_hash a /\
  transactions (login_result a p) = transactions a.
Proof.
  unfold login_result. destruct (is_active a); simpl; [|done].
  destruct (strcmp_eq _ _); simpl; [done|].
  by destruct (failed_login_fields a) as (-> & -> & -> & -> & _).
Qed.

(** After a login attempt the same username still finds the same slot. *)
Lemma user_login_find e u p g i a :
  find_account_by_username u (accounts g) = Some (i, a) ->
  find_account_by_username u (accounts (fst (user_login e u p g))) = Some (i, login_result a p).
Proof.
  intros Hf. rewrite (user_login_found e u p g i a Hf).
  eapply find_account_by_username_insert; [exact Hf|].
  apply login_result_fields.
Qed.

(** ** Properties of [user_login] *)

(** (C7) Refinement: on the account it finds, [user_login] performs one
    step of the lockout machine: the attempt's event (right or wrong
    password) takes [lock_of] of the old account to [lock_of] of the new
    one, and the account keeps its username, balance and ledger. *)
Theorem user_login_refines e u p g i a :
  find_account_by_username u (accounts g) = Some (i, a) ->
  exists a', accounts (fst (user_login e u p g)) = <[i := a']> (accounts g) /\
    lock_step (lock_of a) (login_event a p) (lock_of a') /\
    username a' = username a /\ balance a' = balance a /\ transactions a' = transactions a.
Proof.
  intros Hf. exists (login_result a p). split; [by apply user_login_found|].
  split; [|split_and!; apply login_result_fields].
  unfold lock_of, login_result, login_event.
  destruct (is_active a) eqn:Ha; simpl.
  - destruct (strcmp_eq (password_hash a) (hash_password p)); simpl; rewrite ?Ha.
    + constructor.
    + unfold failed_login. destruct (Z.leb_spec 3 (failed_attempts a + 1)); simpl; rewrite ?Ha.
      * by apply ls_wrong_lock.
      * by apply ls_wrong.
  - rewrite Ha. apply ls_attempt_locked. destruct (strcmp_eq _ _); auto.
Qed.

Lemma user_login_refines_witness :
  let ann := set_password_hash sample_ann (hash_password "secret12") in
  let g := mkGlobals [ann; sample_bob] None None in
  find_account_by_username "annlee01" (accounts g) = Some (0%nat, ann) /\
  exists a', accounts (fst (user_login sample_env "annlee01" "wrong" g)) = <[0%nat := a']> (accounts g) /\
    lock_step (lock_of ann) (login_event ann "wrong") (lock_of a').
Proof.
  intros ann g. assert (Hf : find_account_by_username "annlee01" (accounts g) = Some (0%nat, ann))
    by (vm_compute; reflexivity).
  split; [exact Hf|].
  destruct (user_login_refines sample_env "annlee01" "wrong" g 0 ann Hf) as (a' & H1 & H2 & _).
  exists a'. split; [exact H1 | exact H2].
Defined.

(** (C8) Three consecutive failed logins on an active account with no
    earlier failure block it, and afterwards [user_login] refuses it with
    "Account is blocked!" whatever password is typed, the right one
    included, without changing anything. *)
Theorem three_failed_logins_block e1 e2 e3 e4 u p q g i a :
  find_account_by_username u (accounts g) = Some (i, a) -> is_active a = true ->
  failed_attempts a = 0 -> strcmp_eq (password_hash a) (hash_password p) = false ->
  let g3 := fst (user_login e3 u p (fst (user_login e2 u p (fst (user_login e1 u p g))))) in
  (exists a3, accounts g3 !! i = Some a3 /\ is_active a3 = false) /\
  user_login e4 u q g3 = (g3, Failed AccountBlocked).
Proof.
  intros Hf Ha Hfa Hp g3.
  pose proof (user_login_find e1 u p _ _ _ Hf) as H1.
  pose proof (user_login_find e2 u p _ _ _ H1) as H2.
  pose proof (user_login_find e3 u p _ _ _ H2) as H3.
  fold g3 in H3.
  assert (W : forall b, is_active b = true -> password_hash b = password_hash a ->
                        login_result b p = failed_login b).
  { intros b Hb Hh. unfold login_result. by rewrite Hb, Hh, Hp. }
  destruct (failed_login_fields a) as (_ & _ & Hh1 & _ & Hf1 & Ha1).
  rewrite Hfa, Ha in *. simpl in Ha1.
  destruct (failed_login_fields (failed_login a)) as (_ & _ & Hh2 & _ & Hf2 & Ha2).
  rewrite Hf1, Ha1 in *. simpl in Ha2.
  destruct (failed_login_fields (failed_login (failed_login a))) as (_ & _ & _ & _ & Hf3 & Ha3).
  rewrite Hf2, Ha2 in *. simpl in Ha3.
  assert (Hr : is_active (login_result (login_result (login_result a p) p) p) = false).
  { rewrite (W a), (W (failed_login a)), (W (failed_login (failed_login a))); try done.
    congruence. }
  split.
  - eexists. split; [|exact Hr]. by apply find_account_by_username_Some in H3 as [-> _].
  - unfold user_login. rewrite H3, Hr. reflexivity.
Qed.

Lemma three_failed_logins_block_witness :
  let ann := set_password_hash sample_ann (hash_password "secret12") in
  let g := mkGlobals [ann; sample_bob] None None in
  find_account_by_username "annlee01" (accounts g) = Some (0%nat, ann) /\
  is_active ann = true /\ failed_attempts ann = 0 /\
  strcmp_eq (password_hash ann) (hash_password "wrong") = false /\
  let g3 := fst (user_login sample_env "annlee01" "wrong"
                   (fst (user_login sample_env "annlee01" "wrong"
                          (fst (user_login sample_env "annlee01" "wrong" g))))) in
  user_login sample_env "annlee01" "secret12" g3 = (g3, Failed AccountBlocked).
Proof.
  intros ann g.
  assert (Hf : find_account_by_username "annlee01" (accounts g) = Some (0%nat, ann))
    by (vm_compute; reflexivity).
  assert (Hp : strcmp_eq (password_hash ann) (hash_password "wrong") = false)
    by (vm_compute; reflexivity).
  split_and!; [exact Hf | reflexivity | reflexivity | exact Hp |].
  exact (proj2 (three_failed_logins_block sample_env sample_env sample_env sample_env
                  "annlee01" "wrong" "secret12" g 0 ann Hf eq_refl eq_refl Hp)).
Defined.

(** (C9) A successful login resets [failed_attempts] to 0 whatever its
    value was, makes the account [current_user], and does not save: the
    snapshot on disk keeps the old counter. *)
Theorem user_login_success_resets e u p g i a :
  find_account_by_username u (accounts g) = Some (i, a) -> is_active a = true ->
  strcmp_eq (password_hash a) (hash_password p) = true ->
  let g' := fst (user_login e u p g) in
  snd (user_login e u p g) = Done /\ current_user g' = Some i /\
  (exists a', accounts g' !! i = Some a' /\ failed_attempts a' = 0) /\ disk g' = disk g.
Proof.
  intros Hf Ha Hp g'. unfold g', user_login. rewrite Hf, Ha, Hp. simpl.
  split_and!; try done. exists (set_failed_attempts a 0). split; [|reflexivity].
  apply list_lookup_insert_eq.
  apply find_account_by_username_Some in Hf as [Hi _]. by eapply lookup_lt_Some.
Qed.

Lemma user_login_success_resets_witness :
  let ann := set_failed_attempts (set_password_hash sample_ann (hash_password "secret12")) 2 in
  let g := mkGlobals [ann; sample_bob] None None in
  find_account_by_username "annlee01" (accounts g) = Some (0%nat, ann) /\
  is_active ann = true /\ strcmp_eq (password_hash ann) (hash_password "secret12") = true /\
  snd (user_login sample_env "annlee01" "secret12" g) = Done /\
  disk (fst (user_login sample_env "annlee01" "secret12" g)) = None.
Proof.
  intros ann g.
  assert (Hf : find_account_by_username "annlee01" (accounts g) = Some (0%nat, ann))
    by (vm_compute; reflexivity).
  assert (Hp : strcmp_eq (password_hash ann) (hash_password "secret12") = true)
    by (vm_compute; reflexivity).
  destruct (user_login_success_resets sample_env "annlee01" "secret12" g 0 ann Hf eq_refl Hp)
    as (H1 & _ & _ & H4).
  split_and!; [exact Hf | reflexivity | exact Hp | exact H1 | exact H4].
Defined.

(** [user_login] keeps the store invariant: started from the main menu
    (nobody logged in), it leaves every account well formed, usernames
    unique, and, on success, [current_user] on an active account. *)
Lemma user_login_ok e u p g :
  globals_ok g -> current_user g = None -> globals_ok (fst (user_login e u p g)).
Proof.
  intros Hg Hc. unfold user_login.
  destruct (find_account_by_username u (accounts g)) as [[i a]|] eqn:Hf; [|done].
  pose proof (find_account_by_username_Some _ _ _ _ Hf) as [Hi _].
  pose proof (table_ok_lookup _ _ _ (proj1 Hg) Hi) as [(Hty & Hmin & Hfa & Hact) Hl].
  destruct (is_active a) eqn:Ha; [|done]. simpl.
  destruct (strcmp_eq (password_hash a) (hash_password p)) eqn:Hp; simpl.
  - split; simpl.
    + eapply table_ok_update; [apply Hg|exact Hi| |reflexivity].
      split; [|exact Hl]. unfold account_fields_ok. simpl. split_and!; auto; lia.
    + unfold session_ok. simpl. exists (set_failed_attempts a 0). split; [|exact Ha].
      apply list_lookup_insert_eq. by eapply lookup_lt_Some.
  - replace (if 3 <=? failed_attempts a + 1 then _ else _) with (failed_login a)
      by (unfold failed_login; by destruct (3 <=? _)).
    destruct (failed_login_fields a) as (Hu & Hb & _ & Ht & Hf' & Ha').
    eapply write_current_ok; [exact Hg|exact Hi| |exact Hu|congruence].
    split.
    + unfold account_fields_ok, failed_login in *. rewrite Ha in Ha'.
      destruct (Z.leb_spec 3 (failed_attempts a + 1)); simpl; split_and!; auto; lia.
    + unfold ledger_ok, transaction_count in *. rewrite Ht, Hb. exact Hl.
Qed.

(** (C30) The stored credential is a 32-bit djb2 value, so a password other
    than the account's can open it: an account whose password is "Ez"
    accepts the login "FY". *)
Theorem user_login_accepts_colliding_password e u g i a :
  find_account_by_username u (accounts g) = Some (i, a) -> is_active a = true ->
  password_hash a = hash_password "Ez" ->
  snd (user_login e u "FY" g) = Done.
Proof.
  intros Hf Ha Hh. unfold user_login. rewrite Hf, Ha, Hh.
  assert (E : strcmp_eq (hash_password "Ez") (hash_password "FY") = true) by (vm_compute; reflexivity).
  rewrite E. reflexivity.
Qed.

Lemma user_login_accepts_colliding_password_witness :
  let ann := set_password_hash sample_ann (hash_password "Ez") in
  let g := mkGlobals [ann; sample_bob] None None in
  find_account_by_username "annlee01" (accounts g) = Some (0%nat, ann) /\
  is_active ann = true /\ password_hash ann = hash_password "Ez" /\
  snd (user_login sample_env "annlee01" "FY" g) = Done.
Proof.
  intros ann g.
  assert (Hf : find_account_by_username "annlee01" (accounts g) = Some (0%nat, ann))
    by (vm_compute; reflexivity).
  split_and!; [exact Hf | reflexivity | reflexivity |].
  exact (user_login_accepts_colliding_password sample_env "annlee01" g 0 ann Hf eq_refl eq_refl).
Defined.

(** ** Login after the other handlers *)

(** A write through [current_user] or an administrator's pointer that keeps
    the username leaves the username lookup on the written account. *)
Lemma find_after_write e g u i a a' :
  find_account_by_username u (accounts g) = Some (i, a) -> username a' = username a ->
  find_account_by_username u (accounts (write_current e g i a')) = Some (i, a').
Proof. intros Hf Hu. rewrite write_current_accounts. by eapply find_account_by_username_insert. Qed.

Lemma user_login_right e u p g i a :
  find_account_by_username u (accounts g) = Some (i, a) -> is_active a = true ->
  strcmp_eq (password_hash a) (hash_password p) = true ->
  user_login e u p g =
    (set_current_user (set_accounts g (<[i := set_failed_attempts a 0]> (accounts g))) (Some i), Done).
Proof. intros Hf Ha Hp. unfold user_login. by rewrite Hf, Ha, Hp. Qed.

(** (C17) After the administrator blocks an account (found by its number),
    every login on it is refused with "Account is blocked!" and changes
    nothing, whatever password is typed. *)
Theorem block_then_login_refused e1 e2 n u p g i a :
  find_account_by_number n (accounts g) = Some (i, a) ->
  find_account_by_username u (accounts g) = Some (i, a) ->
  let g1 := fst (admin_block_account e1 n g) in
  user_login e2 u p g1 = (g1, Failed AccountBlocked).
Proof.
  intros Hn Hf g1. unfold g1, admin_block_account. rewrite Hn. simpl.
  unfold user_login. by rewrite (find_after_write e1 g u i a (set_is_active a false)).
Qed.

(** (C18) After the administrator unblocks an account, its holder logs in
    with the right password, whatever the failures before: the account is
    active again with no failed attempt. *)
Theorem unblock_then_login e1 e2 n u p g i a :
  find_account_by_number n (accounts g) = Some (i, a) ->
  find_account_by_username u (accounts g) = Some (i, a) ->
  strcmp_eq (password_hash a) (hash_password p) = true ->
  let r := user_login e2 u p (fst (admin_unblock_account e1 n g)) in
  snd r = Done /\ current_user (fst r) = Some i /\
  exists a', accounts (fst r) !! i = Some a' /\ is_active a' = true /\ failed_attempts a' = 0.
Proof.
  intros Hn Hf Hp r. unfold r, admin_unblock_account. rewrite Hn. simpl.
  set (a1 := set_failed_attempts (set_is_active a true) 0).
  rewrite (user_login_right e2 u p _ i a1); [|by apply (find_after_write _ _ _ _ a)|done|exact Hp].
  simpl. split_and!; [done|done|]. exists (set_failed_attempts a1 0).
  split; [|done]. rewrite write_current_accounts, list_insert_insert_eq.
  apply list_lookup_insert_eq.
  apply find_account_by_username_Some in Hf as [Hi _]. by eapply lookup_lt_Some.
Qed.

(** (C19) After a successful [change_password] and a logout, the new
    password logs in, and a password with a different hash (the old one
    included, unless it collides) is refused. *)
Theorem change_password_then_login e1 e2 o n p g i a :
  current_user g = Some i -> find_account_by_username (username a) (accounts g) = Some (i, a) ->
  is_active a = true -> strcmp_eq (password_hash a) (hash_password o) = true ->
  let g1 := logout (fst (change_password e1 o n n g)) in
  snd (change_password e1 o n n g) = Done /\
  snd (user_login e2 (username a) n g1) = Done /\
  (hash_password p <> hash_password n -> snd (user_login e2 (username a) p g1) <> Done).
Proof.
  intros Hc Hf Ha Ho g1.
  pose proof (find_account_by_username_Some _ _ _ _ Hf) as [Hi _].
  unfold g1, change_password, with_current_user. rewrite Hc, Hi, Ho. simpl.
  rewrite (proj2 (strcmp_eq_spec n n) eq_refl). simpl.
  set (a1 := set_password_hash a (hash_password n)).
  assert (Hf1 : find_account_by_username (username a) (accounts (logout (write_current e1 g i a1)))
                = Some (i, a1)) by (by apply (find_after_write _ _ _ _ a)).
  split_and!; [done| |].
  - rewrite (user_login_right e2 _ n _ i a1); [done|exact Hf1|exact Ha|].
    by apply strcmp_eq_spec.
  - intros Hp. unfold user_login. rewrite Hf1. simpl. rewrite Ha.
    replace (strcmp_eq (hash_password n) (hash_password p)) with false
      by (symmetry; apply not_true_iff_false; rewrite strcmp_eq_spec; congruence).
    simpl. by case_match.
Qed.

Lemma block_then_login_refused_witness :
  find_account_by_number "SAR0000000002" (accounts sample_globals) = Some (1%nat, sample_bob) /\
  find_account_by_username "bobray02" (accounts sample_globals) = Some (1%nat, sample_bob) /\
  snd (user_login sample_env "bobray02" "0" (fst (admin_block_account sample_env "SAR0000000002" sample_globals)))
    = Failed AccountBlocked.
Proof.
  assert (Hn : find_account_by_number "SAR0000000002" (accounts sample_globals) = Some (1%nat, sample_bob))
    by reflexivity.
  assert (Hu : find_account_by_username "bobray02" (accounts sample_globals) = Some (1%nat, sample_bob))
    by reflexivity.
  split_and!; [exact Hn | exact Hu |].
  by rewrite (block_then_login_refused sample_env sample_env _ _ "0" _ _ _ Hn Hu).
Defined.

Lemma unblock_then_login_witness :
  let bob := set_failed_attempts (set_is_active (set_password_hash sample_bob (hash_password "secret34")) false) 3 in
  let g := mkGlobals [sample_ann; bob] None None in
  find_account_by_number "SAR0000000002" (accounts g) = Some (1%nat, bob) /\
  find_account_by_username "bobray02" (accounts g) = Some (1%nat, bob) /\
  strcmp_eq (password_hash bob) (hash_password "secret34") = true /\
  snd (user_login sample_env "bobray02" "secret34" (fst (admin_unblock_account sample_env "SAR0000000002" g)))
    = Done.
Proof.
  intros bob g.
  assert (Hn : find_account_by_number "SAR0000000002" (accounts g) = Some (1%nat, bob))
    by (vm_compute; reflexivity).
  assert (Hu : find_account_by_username "bobray02" (accounts g) = Some (1%nat, bob))
    by (vm_compute; reflexivity).
  assert (Hp : strcmp_eq (password_hash bob) (hash_password "secret34") = true)
    by (vm_compute; reflexivity).
  split_and!; [exact Hn | exact Hu | exact Hp |].
  exact (proj1 (unblock_then_login sample_env sample_env _ _ _ _ _ _ Hn Hu Hp)).
Defined.

Lemma change_password_then_login_witness :
  let ann := set_password_hash sample_ann (hash_password "secret12") in
  let g := mkGlobals [ann; sample_bob] (Some 0%nat) None in
  current_user g = Some 0%nat /\
  find_account_by_username (username ann) (accounts g) = Some (0%nat, ann) /\
  is_active ann = true /\ strcmp_eq (password_hash ann) (hash_password "secret12") = true /\
  snd (user_login sample_env "annlee01" "newpass99"
         (logout (fst (change_password sample_env "secret12" "newpass99" "newpass99" g)))) = Done.
Proof.
  intros ann g.
  assert (Hu : find_account_by_username (username ann) (accounts g) = Some (0%nat, ann))
    by (vm_compute; reflexivity).
  assert (Hp : strcmp_eq (password_hash ann) (hash_password "secret12") = true)
    by (vm_compute; reflexivity).
  split_and!; [reflexivity | exact Hu | reflexivity | exact Hp |].
  exact (proj1 (proj2 (change_password_then_login sample_env sample_env "secret12" "newpass99" "x"
                         g 0 ann eq_refl Hu eq_refl Hp))).
Defined.
