(* ===== verification/Transfer.v ===== *)
(** * The transfer engine [transfer_money] (src/bank.c, lines 666-737)

    [transfer_money] finds the target by account number and checks, in
    this order, that it exists, that it is active, that it is not the
    user's own account, that the amount is valid and that the user's
    balance stays at or above its type's floor.  It then writes through
    the two pointers: [current_user->balance -= amount],
    [target->balance += amount], the [TRANSFER_OUT] entry on the source,
    the [TRANSFER_IN] entry on the target, and saves once.  The model
    performs these four writes as four [alter]s of the table at the two
    indices, in the code's order; the names and numbers the descriptions
    quote are not written by the transfer, so they are read from the
    records found before the writes.

    The theorems: the result on success (both balances, both entries with
    their mutual references), that every rejection leaves the globals
    untouched, that the sum of the balances is preserved, that the store
    invariant is preserved, that a full target ledger makes the code
    record the debit without the credit, and that the later holder of a
    duplicated account number is unreachable by transfers and by the
    administrator. *)

From Stdlib Require Import ZArith Lia Ascii.
From stdpp Require Import base list strings.
From S2P Require Import Prelude CLib Types Hash Validation Ledger Persistence Store.

Local Open Scope Z_scope.

(** The two legs, as functions of the account they write. *)
Definition debit (amount0 : Z) (a : BankAccount) : BankAccount := set_balance a (balance a - amount0).
Definition credit (amount0 : Z) (a : BankAccount) : BankAccount := set_balance a (balance a + amount0).

Definition transfer_out_entry (now : string) (amount0 : Z) (target : BankAccount) (a : BankAccount)
    : BankAccount :=
  add_transaction now a TRANSFER_OUT amount0 ("Transfer to " ++ name target)%string
    (Some (account_number target)).

Definition transfer_in_entry (now : string) (amount0 : Z) (cur : BankAccount) (a : BankAccount)
    : BankAccount :=
  add_transaction now a TRANSFER_IN amount0 ("Transfer from " ++ name cur)%string
    (Some (account_number cur)).

(** [transfer_money], after the two prompts (target number, amount). *)
Definition transfer_money (e : env) (target_account : string) (amount0 : Z) (g : globals)
    : globals * status :=
  with_current_user g (fun i cur =>
    match find_account_by_number target_account (accounts g) with
    | None => (g, Failed TargetNotFound)
    | Some (j, target) =>
        if negb (is_active target) then (g, Failed TargetBlocked)
        else if strcmp_eq (account_number target) (account_number cur) then (g, Failed SameAccount)
        else if negb (validate_amount amount0) then (g, Failed InvalidAmount)
        else
          let min_balance := min_balance_of (account_type cur) in
          if balance cur - amount0 <? min_balance then (g, Failed (InsufficientBalance min_balance))
          else
            let now := env_date e in
            let accs1 := alter (debit amount0) i (accounts g) in
            let accs2 := alter (credit amount0) j accs1 in
            let accs3 := alter (transfer_out_entry now amount0 target) i accs2 in
            let accs4 := alter (transfer_in_entry now amount0 cur) j accs3 in
            (fst (save_accounts e (set_accounts g accs4)), Done)
    end).

(** ** The four writes *)

(** The two accounts after a transfer that passed its checks. *)
Definition source_after (now : string) (amount0 : Z) (target cur : BankAccount) : BankAccount :=
  transfer_out_entry now amount0 target (debit amount0 cur).

Definition target_after (now : string) (amount0 : Z) (cur target : BankAccount) : BankAccount :=
  transfer_in_entry now amount0 cur (credit amount0 target).

(** With distinct indices, the four [alter]s amount to one write per
    account. *)
Lemma transfer_writes now amt (accs : list BankAccount) (i j : nat) cur target :
  accs !! i = Some cur -> accs !! j = Some target -> i <> j ->
  alter (transfer_in_entry now amt cur) j
    (alter (transfer_out_entry now amt target) i
      (alter (credit amt) j (alter (debit amt) i accs))) =
  <[j := target_after now amt cur target]> (<[i := source_after now amt target cur]> accs).
Proof.
  intros Hi Hj Hne.
  rewrite (alter_as_insert (debit amt) accs i cur) by done.
  rewrite (alter_as_insert (credit amt) _ j target) by (rewrite list_lookup_insert_ne; [done|lia]).
  rewrite (alter_as_insert (transfer_out_entry now amt target) _ i (debit amt cur)).
  2:{ rewrite list_lookup_insert_ne by done. apply list_lookup_insert_eq.
      by eapply lookup_lt_Some. }
  rewrite (alter_as_insert (transfer_in_entry now amt cur) _ j (credit amt target)).
  2:{ rewrite list_lookup_insert_ne by lia. apply list_lookup_insert_eq.
      rewrite length_insert. by eapply lookup_lt_Some. }
  rewrite (list_insert_insert_ne _ i j) by done.
  rewrite (list_insert_insert_eq accs i), list_insert_insert_eq. reflexivity.
Qed.

(** Distinct account numbers live at distinct indices. *)
Lemma distinct_numbers_distinct_indices (accs : list BankAccount) (i j : nat) cur target :
  accs !! i = Some cur -> accs !! j = Some target ->
  strcmp_eq (account_number target) (account_number cur) = false -> i <> j.
Proof.
  intros Hi Hj Hn ->. rewrite Hi in Hj. injection Hj as ->.
  rewrite (proj2 (strcmp_eq_spec _ _) eq_refl) in Hn. discriminate.
Qed.

(** The successful branch, with its hypotheses named. *)
Lemma transfer_money_success e t amt g i j cur target :
  current_user g = Some i -> accounts g !! i = Some cur ->
  find_account_by_number t (accounts g) = Some (j, target) ->
  is_active target = true ->
  strcmp_eq (account_number target) (account_number cur) = false ->
  validate_amount amt = true ->
  min_balance_of (account_type cur) <= balance cur - amt ->
  transfer_money e t amt g =
    (fst (save_accounts e (set_accounts g
       (<[j := target_after (env_date e) amt cur target]>
         (<[i := source_after (env_date e) amt target cur]> (accounts g))))), Done).
Proof.
  intros Hc Hi Hf Ha Hn Hv Hm.
  pose proof (find_account_by_number_Some _ _ _ _ Hf) as [Hj _].
  unfold transfer_money, with_current_user. rewrite Hc, Hi, Hf, Ha, Hn, Hv. simpl.
  destruct (Z.ltb_spec (balance cur - amt) (min_balance_of (account_type cur))); [lia|].
  rewrite transfer_writes; [done|done|done|].
  by eapply distinct_numbers_distinct_indices.
Qed.

Lemma source_after_fields now amt target cur :
  let s := source_after now amt target cur in
  balance s = balance cur - amt /\ username s = username cur /\ account_type s = account_type cur /\
  is_active s = is_active cur /\ failed_attempts s = failed_attempts cur.
Proof.
  unfold source_after, transfer_out_entry.
  destruct (add_transaction_fields now (debit amt cur) TRANSFER_OUT amt
              ("Transfer to " ++ name target)%string (Some (account_number target)))
    as (-> & _ & -> & _ & _ & -> & -> & ->).
  done.
Qed.

Lemma target_after_fields now amt cur target :
  let t := target_after now amt cur target in
  balance t = balance target + amt /\ username t = username target /\
  account_type t = account_type target /\
  is_active t = is_active target /\ failed_attempts t = failed_attempts target.
Proof.
  unfold target_after, transfer_in_entry.
  destruct (add_transaction_fields now (credit amt target) TRANSFER_IN amt
              ("Transfer from " ++ name cur)%string (Some (account_number cur)))
    as (-> & _ & -> & _ & _ & -> & -> & ->).
  done.
Qed.

Lemma known_TRANSFER_OUT : known_type TRANSFER_OUT.
Proof. unfold known_type. apply list_elem_of_In. simpl. tauto. Qed.

Lemma known_TRANSFER_IN : known_type TRANSFER_IN.
Proof. unfold known_type. apply list_elem_of_In. simpl. tauto. Qed.

#[export] Hint Resolve known_TRANSFER_OUT known_TRANSFER_IN : bank.

Lemma source_after_ok now amt target cur :
  account_ok cur -> validate_amount amt = true ->
  min_balance_of (account_type cur) <= balance cur - amt ->
  account_ok (source_after now amt target cur).
Proof.
  intros [(? & ? & ? & ?) Hl] Hv Hm. unfold validate_amount in Hv. split_andb. zcase; try discriminate.
  unfold source_after, transfer_out_entry, debit.
  change (balance cur - amt) with (balance cur + signed_amount TRANSFER_OUT amt).
  apply add_transaction_account_ok; [|done|lia|auto with bank].
  change (signed_amount TRANSFER_OUT amt) with (- amt).
  unfold account_fields_ok. simpl. split_and!; auto; lia.
Qed.

Lemma target_after_ok now amt cur target :
  account_ok target -> validate_amount amt = true -> account_ok (target_after now amt cur target).
Proof.
  intros [(? & ? & ? & ?) Hl] Hv. unfold validate_amount in Hv. split_andb. zcase; try discriminate.
  unfold target_after, transfer_in_entry, credit.
  change (balance target + amt) with (balance target + signed_amount TRANSFER_IN amt).
  apply add_transaction_account_ok; [|done|lia|auto with bank].
  change (signed_amount TRANSFER_IN amt) with amt.
  unfold account_fields_ok. simpl. split_and!; auto; lia.
Qed.

(** Every branch of [transfer_money]: a rejection, or the success branch
    with all its checks passed. *)
Lemma transfer_money_cases e t amt g :
  transfer_money e t amt g = (g, snd (transfer_money e t amt g)) /\
    snd (transfer_money e t amt g) <> Done
  \/ exists i j cur target,
    current_user g = Some i /\ accounts g !! i = Some cur /\
    find_account_by_number t (accounts g) = Some (j, target) /\
    is_active target = true /\
    strcmp_eq (account_number target) (account_number cur) = false /\
    validate_amount amt = true /\
    min_balance_of (account_type cur) <= balance cur - amt /\
    transfer_money e t amt g =
      (fst (save_accounts e (set_accounts g
         (<[j := target_after (env_date e) amt cur target]>
           (<[i := source_after (env_date e) amt target cur]> (accounts g))))), Done).
Proof.
  destruct (current_user g) as [i|] eqn:Hc;
    [|left; unfold transfer_money, with_current_user; rewrite Hc; by split].
  destruct (accounts g !! i) as [cur|] eqn:Hi;
    [|left; unfold transfer_money, with_current_user; rewrite Hc, Hi; by split].
  destruct (find_account_by_number t (accounts g)) as [[j target]|] eqn:Hf;
    [|left; unfold transfer_money, with_current_user; rewrite Hc, Hi, Hf; by split].
  destruct (is_active target) eqn:Ha;
    [|left; unfold transfer_money, with_current_user; rewrite Hc, Hi, Hf, Ha; by split].
  destruct (strcmp_eq (account_number target) (account_number cur)) eqn:Hn;
    [left; unfold transfer_money, with_current_user; rewrite Hc, Hi, Hf, Ha, Hn; by split|].
  destruct (validate_amount amt) eqn:Hv;
    [|left; unfold transfer_money, with_current_user; rewrite Hc, Hi, Hf, Ha, Hn, Hv; by split].
  destruct (Z.leb_spec (min_balance_of (account_type cur)) (balance cur - amt)) as [Hm|Hm].
  - right. exists i, j, cur, target. split_and!; try done.
    by apply transfer_money_success.
  - left. unfold transfer_money, with_current_user. rewrite Hc, Hi, Hf, Ha, Hn, Hv. simpl.
    destruct (Z.ltb_spec (balance cur - amt) (min_balance_of (account_type cur))); [|lia].
    by split.
Qed.

(** ** Properties of [transfer_money] *)

(** (C2) A transfer that passes its checks debits the source by [amount]
    and credits the target by [amount], records a [TRANSFER_OUT] entry on
    the source naming the target's number and a [TRANSFER_IN] entry on the
    target naming the source's number (each when its ledger has room), and
    leaves every other account as it was. *)
Theorem transfer_money_spec e t amt g i j cur target :
  current_user g = Some i -> accounts g !! i = Some cur ->
  find_account_by_number t (accounts g) = Some (j, target) ->
  is_active target = true ->
  strcmp_eq (account_number target) (account_number cur) = false ->
  validate_amount amt = true ->
  min_balance_of (account_type cur) <= balance cur - amt ->
  let g' := fst (transfer_money e t amt g) in
  snd (transfer_money e t amt g) = Done /\
  (exists s, accounts g' !! i = Some s /\ balance s = balance cur - amt /\
     (transaction_count cur < MAX_TRANSACTIONS ->
      transactions s = transactions cur ++
        [mkTransaction (env_date e) TRANSFER_OUT amt (balance cur - amt)
           ("Transfer to " ++ name target)%string (account_number target)])) /\
  (exists t', accounts g' !! j = Some t' /\ balance t' = balance target + amt /\
     (transaction_count target < MAX_TRANSACTIONS ->
      transactions t' = transactions target ++
        [mkTransaction (env_date e) TRANSFER_IN amt (balance target + amt)
           ("Transfer from " ++ name cur)%string (account_number cur)])) /\
  (forall k, k <> i -> k <> j -> accounts g' !! k = accounts g !! k).
Proof.
  intros Hc Hi Hf Ha Hn Hv Hm g'.
  pose proof (find_account_by_number_Some _ _ _ _ Hf) as [Hj _].
  pose proof (distinct_numbers_distinct_indices _ _ _ _ _ Hi Hj Hn) as Hne.
  unfold g'. rewrite (transfer_money_success e t amt g i j cur target) by done.
  simpl. rewrite save_accounts_accounts. simpl.
  split_and!; [done| | |].
  - eexists. rewrite list_lookup_insert_ne by lia.
    rewrite list_lookup_insert_eq by (by eapply lookup_lt_Some).
    split; [reflexivity|]. split; [apply source_after_fields|].
    intros Hroom. unfold source_after, transfer_out_entry.
    by rewrite add_transaction_room.
  - eexists. rewrite list_lookup_insert_eq
      by (rewrite length_insert; by eapply lookup_lt_Some).
    split; [reflexivity|]. split; [apply target_after_fields|].
    intros Hroom. unfold target_after, transfer_in_entry.
    by rewrite add_transaction_room.
  - intros k Hki Hkj. by rewrite !list_lookup_insert_ne.
Qed.

Lemma transfer_money_spec_witness :
  current_user sample_globals = Some 0%nat /\ accounts sample_globals !! 0%nat = Some sample_ann /\
  find_account_by_number "SAR0000000002" (accounts sample_globals) = Some (1%nat, sample_bob) /\
  snd (transfer_money sample_env "SAR0000000002" 300 sample_globals) = Done /\
  (forall k, k <> 0%nat -> k <> 1%nat ->
     accounts (fst (transfer_money sample_env "SAR0000000002" 300 sample_globals)) !! k =
     accounts sample_globals !! k).
Proof.
  assert (Hf : find_account_by_number "SAR0000000002" (accounts sample_globals) = Some (1%nat, sample_bob))
    by reflexivity.
  destruct (transfer_money_spec sample_env "SAR0000000002" 300 sample_globals 0 1 sample_ann sample_bob
              eq_refl eq_refl Hf eq_refl) as (H1 & _ & _ & H4);
    [vm_compute; reflexivity .. | vm_compute; discriminate |].
  split_and!; [reflexivity | reflexivity | exact Hf | exact H1 | exact H4].
Defined.

(** (C4) Every rejected transfer (unknown or blocked target, own account,
    invalid amount, balance floor) leaves the globals exactly as they
    were: no balance, ledger or file is touched. *)
Theorem transfer_money_rejects_unchanged e t amt g :
  snd (transfer_money e t amt g) <> Done -> fst (transfer_money e t amt g) = g.
Proof.
  intros Hnd. destruct (transfer_money_cases e t amt g) as [[-> _]|(? & ? & ? & ? & ? & ? & ? & ? & ? & ? & ? & Heq)].
  - reflexivity.
  - rewrite Heq in Hnd. by destruct Hnd.
Qed.

Lemma transfer_money_rejects_unchanged_witness :
  snd (transfer_money sample_env "SAR0000000002" 600 sample_globals) <> Done /\
  fst (transfer_money sample_env "SAR0000000002" 600 sample_globals) = sample_globals.
Proof.
  assert (H : snd (transfer_money sample_env "SAR0000000002" 600 sample_globals) <> Done)
    by (vm_compute; discriminate).
  split; [exact H | exact (transfer_money_rejects_unchanged _ _ _ _ H)].
Defined.

(** The sum of the balances across [transfer_money]. *)
Lemma transfer_money_sum e t amt g :
  sum_by balance (accounts (fst (transfer_money e t amt g))) = sum_by balance (accounts g).
Proof.
  destruct (transfer_money_cases e t amt g)
    as [[-> _]|(i & j & cur & target & Hc & Hi & Hf & _ & Hn & _ & _ & ->)]; [reflexivity|].
  pose proof (find_account_by_number_Some _ _ _ _ Hf) as [Hj _].
  pose proof (distinct_numbers_distinct_indices _ _ _ _ _ Hi Hj Hn) as Hne.
  simpl. rewrite save_accounts_accounts. simpl.
  rewrite (sum_by_insert _ _ j _ target) by (rewrite list_lookup_insert_ne; [done|lia]).
  rewrite (sum_by_insert _ _ i _ cur) by done.
  destruct (source_after_fields (env_date e) amt target cur) as (-> & _).
  destruct (target_after_fields (env_date e) amt cur target) as (-> & _).
  lia.
Qed.

(** (C3) A transfer conserves money: whatever its outcome, the sum of all
    balances (the administrator's "Total Bank Balance") is the same after
    it as before. *)
Theorem transfer_money_conserves e t amt g :
  sum_by balance (accounts (fst (transfer_money e t amt g))) = sum_by balance (accounts g).
Proof. apply transfer_money_sum. Qed.

(** [transfer_money] keeps the store invariant: both accounts keep
    their floors (the source by the check, the target because it only
    gains), their ledgers stay consistent, usernames stay unique and the
    user stays logged in on an active account. *)
Lemma transfer_money_ok e t amt g :
  globals_ok g -> globals_ok (fst (transfer_money e t amt g)).
Proof.
  intros Hg.
  destruct (transfer_money_cases e t amt g)
    as [[-> _]|(i & j & cur & target & Hc & Hi & Hf & Ha & Hn & Hv & Hm & ->)]; [done|].
  pose proof (find_account_by_number_Some _ _ _ _ Hf) as [Hj _].
  pose proof (distinct_numbers_distinct_indices _ _ _ _ _ Hi Hj Hn) as Hne.
  destruct (source_after_fields (env_date e) amt target cur) as (_ & Hsu & _ & Hsa & _).
  destruct (target_after_fields (env_date e) amt cur target) as (_ & Htu & _ & _ & _).
  simpl. apply save_accounts_ok. split; simpl.
  - eapply table_ok_update; [| |apply target_after_ok| exact Htu].
    + eapply table_ok_update; [apply Hg|exact Hi| |exact Hsu].
      apply source_after_ok; [|done|done]. by eapply table_ok_lookup; [apply Hg|].
    + by rewrite list_lookup_insert_ne by lia.
    + by eapply table_ok_lookup; [apply Hg|].
    + done.
  - unfold session_ok. simpl. rewrite Hc. exists (source_after (env_date e) amt target cur).
    split.
    + rewrite list_lookup_insert_ne by done. apply list_lookup_insert_eq.
      by eapply lookup_lt_Some.
    + rewrite Hsa. by eapply session_active.
Qed.

(** (C26) The two legs are not atomic in the ledgers: whenever a transfer
    succeeds while the target's ledger is full ([MAX_TRANSACTIONS]
    entries) and the source's is not, the money moves, the source records
    its [TRANSFER_OUT] entry, and the target records nothing. *)
Theorem transfer_one_sided_when_full e t amt g i j cur target :
  current_user g = Some i -> accounts g !! i = Some cur ->
  find_account_by_number t (accounts g) = Some (j, target) ->
  snd (transfer_money e t amt g) = Done ->
  transaction_count cur < MAX_TRANSACTIONS -> transaction_count target = MAX_TRANSACTIONS ->
  exists s t', accounts (fst (transfer_money e t amt g)) !! i = Some s /\
    accounts (fst (transfer_money e t amt g)) !! j = Some t' /\
    balance s = balance cur - amt /\ balance t' = balance target + amt /\
    transactions s = transactions cur ++
      [mkTransaction (env_date e) TRANSFER_OUT amt (balance cur - amt)
         ("Transfer to " ++ name target)%string (account_number target)] /\
    transactions t' = transactions target.
Proof.
  intros Hc Hi Hf Hd Hsrc Hfull.
  destruct (transfer_money_cases e t amt g)
    as [[_ Hne]|(i' & j' & cur' & target' & Hc' & Hi' & Hf' & _ & Hn & _ & _ & Hr)]; [done|].
  rewrite Hc in Hc'. injection Hc' as <-. rewrite Hi in Hi'. injection Hi' as <-.
  rewrite Hf in Hf'. injection Hf' as <- <-.
  pose proof (find_account_by_number_Some _ _ _ _ Hf) as [Hj _].
  pose proof (distinct_numbers_distinct_indices _ _ _ _ _ Hi Hj Hn) as Hij.
  rewrite Hr. cbn [fst]. rewrite save_accounts_accounts. cbn [accounts set_accounts].
  exists (source_after (env_date e) amt target cur), (target_after (env_date e) amt cur target).
  destruct (source_after_fields (env_date e) amt target cur) as (Hbs & _).
  destruct (target_after_fields (env_date e) amt cur target) as (Hbt & _).
  split_and!; try done.
  - rewrite list_lookup_insert_ne by done. apply list_lookup_insert_eq. by eapply lookup_lt_Some.
  - apply list_lookup_insert_eq. rewrite length_insert. by eapply lookup_lt_Some.
  - unfold source_after, transfer_out_entry.
    rewrite add_transaction_room by (unfold debit, transaction_count in *; simpl; lia). reflexivity.
  - unfold target_after, transfer_in_entry.
    rewrite add_transaction_full by (unfold credit, transaction_count in *; simpl; lia). reflexivity.
Qed.

Lemma transfer_one_sided_when_full_witness :
  let dst := set_transactions sample_bob (repeat sample_entry 100) in
  let g := mkGlobals [sample_ann; dst] (Some 0%nat) None in
  current_user g = Some 0%nat /\ accounts g !! 0%nat = Some sample_ann /\
  find_account_by_number "SAR0000000002" (accounts g) = Some (1%nat, dst) /\
  snd (transfer_money sample_env "SAR0000000002" 100 g) = Done /\
  transaction_count sample_ann < MAX_TRANSACTIONS /\ transaction_count dst = MAX_TRANSACTIONS /\
  exists t', accounts (fst (transfer_money sample_env "SAR0000000002" 100 g)) !! 1%nat = Some t' /\
    transactions t' = transactions dst.
Proof.
  intros dst g.
  assert (Hf : find_account_by_number "SAR0000000002" (accounts g) = Some (1%nat, dst))
    by (vm_compute; reflexivity).
  assert (Hd : snd (transfer_money sample_env "SAR0000000002" 100 g) = Done)
    by (vm_compute; reflexivity).
  assert (Hs : transaction_count sample_ann < MAX_TRANSACTIONS) by reflexivity.
  assert (Hfull : transaction_count dst = MAX_TRANSACTIONS) by reflexivity.
  split_and!; [reflexivity | reflexivity | exact Hf | exact Hd | exact Hs | exact Hfull |].
  destruct (transfer_one_sided_when_full sample_env _ _ g 0 1 sample_ann dst eq_refl eq_refl Hf Hd Hs Hfull)
    as (s & t' & _ & Ht & _ & _ & _ & Htr).
  exists t'. split; [exact Ht | exact Htr].
Defined.

(** ** Accounts shadowed by a duplicated number *)

(** The lookup by number returns the first account holding it. *)
Lemma find_account_by_number_first n accs k a j b :
  find_account_by_number n accs = Some (k, a) -> accs !! j = Some b -> account_number b = n ->
  (k <= j)%nat.
Proof.
  intros Hf Hj Hb. apply find_first_Some in Hf as (_ & _ & Hbefore).
  destruct (Nat.le_gt_cases k j) as [|Hlt]; [done|].
  specialize (Hbefore j b Hlt Hj). simpl in Hbefore.
  rewrite (proj2 (strcmp_eq_spec _ _) Hb) in Hbefore. discriminate.
Qed.

(** An account whose number an earlier account also holds is never the one
    a lookup by number returns. *)
Lemma find_account_by_number_shadowed n accs k a j b k0 c :
  accs !! j = Some b -> (k0 < j)%nat -> accs !! k0 = Some c -> account_number c = account_number b ->
  find_account_by_number n accs = Some (k, a) -> k <> j.
Proof.
  intros Hj Hk0 Hc Hcb Hf ->.
  pose proof (find_account_by_number_Some _ _ _ _ Hf) as [Hj' Hn].
  rewrite Hj in Hj'. injection Hj' as <-.
  pose proof (find_account_by_number_first _ _ _ _ _ _ Hf Hc ltac:(congruence)). lia.
Qed.

(** (C24) Duplicate account numbers make the later holder unreachable: when
    an earlier account has the same number, no transfer made by another
    user, no block and no unblock by the administrator, whatever number is
    typed, changes the later account. *)
Theorem shadowed_account_untouched e t amt n g j b k0 c :
  accounts g !! j = Some b -> (k0 < j)%nat -> accounts g !! k0 = Some c ->
  account_number c = account_number b -> current_user g <> Some j ->
  accounts (fst (transfer_money e t amt g)) !! j = Some b /\
  accounts (fst (admin_block_account e n g)) !! j = Some b /\
  accounts (fst (admin_unblock_account e n g)) !! j = Some b.
Proof.
  intros Hj Hk0 Hc Hcb Hcur.
  assert (Hsh : forall m k a, find_account_by_number m (accounts g) = Some (k, a) -> k <> j)
    by (intros m k a; eapply find_account_by_number_shadowed; eauto).
  split_and!.
  - destruct (transfer_money_cases e t amt g) as [[-> _]|(i & k & cur & target & Hci & _ & Hf & _ & _ & _ & _ & ->)];
      [done|].
    cbn [fst]. rewrite save_accounts_accounts. cbn [accounts set_accounts].
    rewrite !list_lookup_insert_ne; try done; intros ?; subst; [congruence|by eapply Hsh].
  - unfold admin_block_account.
    destruct (find_account_by_number n (accounts g)) as [[k a]|] eqn:Hf; [|done].
    simpl. autorewrite with bank_len. rewrite list_lookup_insert_ne; [done|].
    intros ?; subst. by eapply Hsh.
  - unfold admin_unblock_account.
    destruct (find_account_by_number n (accounts g)) as [[k a]|] eqn:Hf; [|done].
    simpl. autorewrite with bank_len. rewrite list_lookup_insert_ne; [done|].
    intros ?; subst. by eapply Hsh.
Qed.

Lemma shadowed_account_untouched_witness :
  let bob := set_transactions (mkAccount "SAR0000000001" "Bob Ray" "bobray02" "0" "02/02/1990"
               "9876543211" "bob@example.com" 1000 SAVINGS true 0 "01/01/2025 10:00" []) [sample_entry] in
  let g := mkGlobals [sample_ann; bob] (Some 0%nat) None in
  accounts g !! 1%nat = Some bob /\ accounts g !! 0%nat = Some sample_ann /\
  account_number sample_ann = account_number bob /\ current_user g <> Some 1%nat /\
  accounts (fst (admin_block_account sample_env "SAR0000000001" g)) !! 1%nat = Some bob.
Proof.
  intros bob g.
  assert (Hcur : current_user g <> Some 1%nat) by discriminate.
  split_and!; [reflexivity | reflexivity | reflexivity | exact Hcur |].
  exact (proj1 (proj2 (shadowed_account_untouched sample_env "SAR0000000001" 100 "SAR0000000001"
                         g 1 bob 0 sample_ann eq_refl ltac:(lia) eq_refl eq_refl Hcur))).
Defined.
