(* ===== verification/Display.v ===== *)
(** * What the program shows: the date, the account details and the
    administrator's listing (src/bank.c, lines 98-104, 307-313, 739-758,
    852-875)

    [get_current_date] prints the local time with
    ["%02d/%02d/%04d %02d:%02d"] into the [char date[20]] of a transaction
    or the [created_date] of an account; [view_account_details] prints the
    fields of [current_user]; [admin_view_all_accounts] prints one row per
    account, or "No accounts found!" for an empty table.  They change no
    state: each is modelled as the data it prints ([localtime] itself is
    not modelled, its broken-down time [tm] is the input).

    The theorems: the date string is 16 characters without NUL, so it fits
    the 20-byte fields with its terminator (hence in the snapshot); and
    the "Total Bank Balance" moves only with deposits, withdrawals and
    account openings, never with transfers. *)

From Stdlib Require Import ZArith Lia Ascii.
From stdpp Require Import base list strings.
From S2P Require Import Prelude CLib Types Hash Validation Ledger Persistence Store Auth Transfer.

Local Open Scope Z_scope.

(** ** [get_current_date] (lines 98-104) *)

(** The fields of [struct tm] the format reads. *)
Record tm := mkTm {
  tm_mday : Z;
  tm_mon : Z;
  tm_year : Z;
  tm_hour : Z;
  tm_min : Z
}.

(** [sprintf(date, "%02d/%02d/%04d %02d:%02d", t->tm_mday, t->tm_mon + 1,
    t->tm_year + 1900, t->tm_hour, t->tm_min)] *)
Definition get_current_date (t : tm) : string :=
  (sprintf_0nd 2 (tm_mday t) ++ "/" ++ sprintf_0nd 2 (tm_mon t + 1) ++ "/" ++
   sprintf_0nd 4 (tm_year t + 1900) ++ " " ++ sprintf_0nd 2 (tm_hour t) ++ ":" ++
   sprintf_0nd 2 (tm_min t))%string.

(** The ranges [localtime] gives its fields (a year of four digits). *)
Definition tm_ok (t : tm) : Prop :=
  1 <= tm_mday t <= 31 /\ 0 <= tm_mon t <= 11 /\ 0 <= tm_year t + 1900 <= 9999 /\
  0 <= tm_hour t <= 23 /\ 0 <= tm_min t <= 59.

#[export] Instance tm_ok_dec t : Decision (tm_ok t).
Proof. unfold tm_ok. apply _. Defined.

(** ** [view_account_details] (lines 739-758) *)

(** [is_active ? "ACTIVE" : "BLOCKED"] *)
Definition status_text (a : BankAccount) : string :=
  if is_active a then "ACTIVE"%string else "BLOCKED"%string.

(** The eleven lines the function prints, in order. *)
Record details := mkDetails {
  d_account_number : string;
  d_name : string;
  d_account_type : string;
  d_username : string;
  d_email : string;
  d_mobile : string;
  d_dob : string;
  d_created_date : string;
  d_balance : Z;
  d_status : string;
  d_transaction_count : Z
}.

Definition view_account_details (g : globals) : option details :=
  match current_user g with
  | Some i =>
      match accounts g !! i with
      | Some a =>
          Some (mkDetails (account_number a) (name a) (account_type a) (username a) (email a)
                  (mobile a) (dob a) (created_date a) (balance a) (status_text a)
                  (transaction_count a))
      | None => None
      end
  | None => None
  end.

(** ** [admin_view_all_accounts] (lines 852-875) *)

(** One row of the listing: number, name, type, balance, status. *)
Record account_row := mkRow {
  row_number : string;
  row_name : string;
  row_type : string;
  row_balance : Z;
  row_status : string
}.

Definition account_row_of (a : BankAccount) : account_row :=
  mkRow (account_number a) (name a) (account_type a) (balance a) (status_text a).

(** [None] is "No accounts found!"; otherwise the rows of
    [for (i = 0; i < total_accounts; i++)]. *)
Definition admin_view_all_accounts (g : globals) : option (list account_row) :=
  if total_accounts g =? 0 then None else Some (account_row_of <$> accounts g).

(** ** The date fits its fields *)

Lemma date_chars t :
  String.list_ascii_of_string (get_current_date t) =
    String.list_ascii_of_string (sprintf_0nd 2 (tm_mday t)) ++ ["/"%char] ++
    String.list_ascii_of_string (sprintf_0nd 2 (tm_mon t + 1)) ++ ["/"%char] ++
    String.list_ascii_of_string (sprintf_0nd 4 (tm_year t + 1900)) ++ [" "%char] ++
    String.list_ascii_of_string (sprintf_0nd 2 (tm_hour t)) ++ [":"%char] ++
    String.list_ascii_of_string (sprintf_0nd 2 (tm_min t)).
Proof. unfold get_current_date. by rewrite !list_ascii_of_string_app. Qed.

(** (C37) [get_current_date] prints exactly 16 characters ("DD/MM/YYYY
    HH:MM") for every time [localtime] can return with a four-digit year,
    none of them a NUL, so the string and its terminator fit the 20-byte
    [date] and [created_date] fields (and the snapshot can hold it). *)
Theorem get_current_date_fits t :
  tm_ok t -> String.length (get_current_date t) = 16%nat /\ c_fits 20 (get_current_date t).
Proof.
  intros (Hd & Hm & Hy & Hh & Hmi).
  assert (Hlen : String.length (get_current_date t) = 16%nat).
  { rewrite <- length_list_ascii, date_chars. rewrite !length_app, !length_list_ascii.
    rewrite !length_sprintf_0nd by (cbn -[Z.add]; lia). reflexivity. }
  split; [exact Hlen|]. apply c_fits_ascii; [lia|].
  rewrite date_chars, !Forall_app.
  split_and!; first [apply sprintf_0nd_not_nul; lia | constructor; [discriminate | constructor]].
Qed.

Lemma get_current_date_fits_witness :
  tm_ok (mkTm 9 10 126 14 5) /\ c_fits 20 (get_current_date (mkTm 9 10 126 14 5)) /\
  get_current_date (mkTm 9 10 126 14 5) = "09/11/2026 14:05"%string.
Proof.
  assert (H : tm_ok (mkTm 9 10 126 14 5)) by (apply (bool_decide_unpack _); vm_compute; exact I).
  split_and!; [exact H | exact (proj2 (get_current_date_fits _ H)) | vm_compute; reflexivity].
Defined.

(** ** The administrator's dashboard *)

Lemma admin_total_sum g : snd (admin_statistics g) = sum_by balance (accounts g).
Proof. reflexivity. Qed.

(** ** Where money enters and leaves *)

(** The amount a handler moved: its amount when it reported success. *)
Definition moved (st : status) (amt : Z) : Z := match st with Done => amt | Failed _ => 0 end.

Lemma write_current_total e g i a a' :
  accounts g !! i = Some a ->
  sum_by balance (accounts (write_current e g i a')) = sum_by balance (accounts g) - balance a + balance a'.
Proof. intros Hi. rewrite write_current_accounts. by apply sum_by_insert. Qed.

(** A write that keeps the balance keeps the total. *)
Lemma write_current_same_total e g i a a' :
  accounts g !! i = Some a -> balance a' = balance a ->
  sum_by balance (accounts (write_current e g i a')) = sum_by balance (accounts g).
Proof. intros Hi Hb. rewrite (write_current_total _ _ _ a) by done. lia. Qed.

Lemma deposit_money_total e amt g :
  sum_by balance (accounts (fst (deposit_money e amt g))) =
    sum_by balance (accounts g) + moved (snd (deposit_money e amt g)) amt.
Proof.
  unfold deposit_money, with_current_user.
  destruct (current_user g) as [i|]; [|simpl; lia].
  destruct (accounts g !! i) as [a|] eqn:Hi; [|simpl; lia].
  destruct (validate_amount amt); simpl; [|lia].
  rewrite (write_current_total _ _ _ a) by done. unfold deposit_account.
  destruct (add_transaction_fields (env_date e) (set_balance a (balance a + amt)) DEPOSIT amt
              "Cash Deposit" None) as (-> & _). simpl. lia.
Qed.

Lemma withdraw_money_total e amt g :
  sum_by balance (accounts (fst (withdraw_money e amt g))) =
    sum_by balance (accounts g) - moved (snd (withdraw_money e amt g)) amt.
Proof.
  unfold withdraw_money, with_current_user.
  destruct (current_user g) as [i|]; [|simpl; lia].
  destruct (accounts g !! i) as [a|] eqn:Hi; [|simpl; lia].
  destruct (validate_amount amt); simpl; [|lia].
  destruct (_ <? _); simpl; [lia|].
  rewrite (write_current_total _ _ _ a) by done. unfold withdraw_account.
  destruct (add_transaction_fields (env_date e) (set_balance a (balance a - amt)) WITHDRAW amt
              "Cash Withdrawal" None) as (-> & _). simpl. lia.
Qed.

Lemma create_account_total e f g :
  sum_by balance (accounts (fst (create_account e f g))) =
    sum_by balance (accounts g) + moved (snd (create_account e f g)) (f_deposit f).
Proof.
  destruct (snd (create_account e f g)) eqn:Hst.
  - destruct (create_account_Done _ _ _ Hst) as (a & Hn & ->).
    apply new_account_checks in Hn as (_ & _ & _ & _ & _ & _ & _ & _ & ->).
    rewrite sum_by_app, sum_by_cons.
    unfold add_transaction. simpl. change (sum_by balance []) with 0. lia.
  - unfold create_account in *. destruct (new_account e (accounts g) f); simpl in *; [discriminate|lia].
Qed.

Lemma user_login_total e u p g :
  sum_by balance (accounts (fst (user_login e u p g))) = sum_by balance (accounts g).
Proof.
  unfold user_login.
  destruct (find_account_by_username u (accounts g)) as [[i a]|] eqn:Hf; [|done].
  apply find_account_by_username_Some in Hf as [Hi _].
  destruct (is_active a); simpl; [|done].
  destruct (strcmp_eq _ _); simpl.
  - rewrite (sum_by_insert _ _ i _ a) by done. simpl. lia.
  - apply (write_current_same_total _ _ _ a); [done|].
    destruct (3 <=? _); reflexivity.
Qed.

Lemma change_password_total e o n c g :
  sum_by balance (accounts (fst (change_password e o n c g))) = sum_by balance (accounts g).
Proof.
  unfold change_password, with_current_user.
  destruct (current_user g) as [i|]; [|done].
  destruct (accounts g !! i) as [a|] eqn:Hi; [|done].
  repeat case_match; simpl; try done. by apply (write_current_same_total _ _ _ a).
Qed.

Lemma admin_block_account_total e n g :
  sum_by balance (accounts (fst (admin_block_account e n g))) = sum_by balance (accounts g).
Proof.
  unfold admin_block_account.
  destruct (find_account_by_number n (accounts g)) as [[i a]|] eqn:Hf; [|done].
  apply find_account_by_number_Some in Hf as [Hi _]. by apply (write_current_same_total _ _ _ a).
Qed.

Lemma admin_unblock_account_total e n g :
  sum_by balance (accounts (fst (admin_unblock_account e n g))) = sum_by balance (accounts g).
Proof.
  unfold admin_unblock_account.
  destruct (find_account_by_number n (accounts g)) as [[i a]|] eqn:Hf; [|done].
  apply find_account_by_number_Some in Hf as [Hi _]. by apply (write_current_same_total _ _ _ a).
Qed.

(** (C13) "Total Bank Balance" moves only where money enters or leaves the
    bank: a deposit adds its amount and a withdrawal removes it when they
    succeed, opening an account adds the initial deposit, and a transfer,
    a login attempt, a password change, a block and an unblock leave it
    unchanged, whatever their outcome. *)
Theorem total_balance_moves e g amt t f u p o n c num :
  let total g := snd (admin_statistics g) in
  total (fst (deposit_money e amt g)) = total g + moved (snd (deposit_money e amt g)) amt /\
  total (fst (withdraw_money e amt g)) = total g - moved (snd (withdraw_money e amt g)) amt /\
  total (fst (transfer_money e t amt g)) = total g /\
  total (fst (create_account e f g)) = total g + moved (snd (create_account e f g)) (f_deposit f) /\
  total (fst (user_login e u p g)) = total g /\
  total (fst (change_password e o n c g)) = total g /\
  total (fst (admin_block_account e num g)) = total g /\
  total (fst (admin_unblock_account e num g)) = total g.
Proof.
  intros total. unfold total. rewrite !admin_total_sum.
  split_and!; auto using deposit_money_total, withdraw_money_total, transfer_money_sum,
    create_account_total, user_login_total, change_password_total,
    admin_block_account_total, admin_unblock_account_total.
Qed.
