(* ===== verification/System.v ===== *)
(** * The program: menus as a state machine (src/bank.c, lines 212-251,
    253-327, 386-430, 918-921)

    [main] runs [main_menu], which loads [accounts.dat] and loops over the
    main menu; choice 1 opens the administrator's dashboard (after
    [admin_login]), choice 2 the user's dashboard (after a successful
    [user_login]), choice 3 [create_account], choice 4 saves and exits.
    Each dashboard loops over its own menu until "Back" or "Logout".  The
    model is a transition system: a state is the menu being shown
    ([mode]) with the globals; an [event] is a menu choice with what the
    user types after it; [step] runs the handler the choice calls, and
    returns [None] for a choice the current menu does not offer ("Invalid
    choice!", which changes nothing).  [boot] is a start of the program
    with a given file; [reach] is the set of states a run of the program
    can be in, from a first start with no file.  [exit_then_restart]
    connects a run to the next one: "Exit" saves, and the next [boot]
    loads the same table back.  [eventually] states liveness: the
    program can always be left, and a locked-out holder can always get
    back in through the administrator.

    The theorem [reach_ok] is proved by induction on [reach], one case per
    handler, each discharged by the handler's preservation lemma: in every
    reachable state every account is well formed (its balance at or above
    its type's floor, a consistent ledger, the lockout counter in range),
    usernames are unique, and the user dashboard is shown exactly when
    [current_user] points to an active account. *)

From Stdlib Require Import ZArith Lia Ascii.
From stdpp Require Import base list strings.
From S2P Require Import Prelude CLib Types Hash Validation Ledger Persistence Store Auth Transfer.

Local Open Scope Z_scope.

Inductive mode := MainMenu | UserMenu | AdminMenu | Exited.

Record sys := mkSys { sys_mode : mode; sys_globals : globals }.

Inductive event :=
| MainAdminLogin (u p : string)
| MainUserLogin (u p : string)
| MainCreate (f : account_form)
| MainExit
| UserDeposit (amt : Z)
| UserWithdraw (amt : Z)
| UserTransfer (target : string) (amt : Z)
| UserChangePassword (old_password new_password confirm_password : string)
| UserView
| UserHistory
| UserLogout
| AdminViewAll
| AdminBlock (n : string)
| AdminUnblock (n : string)
| AdminStats
| AdminBack.

(** A handler run from a menu that stays on that menu. *)
Definition stay (m : mode) (r : globals * status) : sys * status := (mkSys m (fst r), snd r).

(** The [switch (choice)] of [main_menu] (lines 212-251): the admin
    panel when the credentials match, the user dashboard after a
    successful [user_login], [create_account], and save-and-exit. *)
Definition main_step (e : env) (g : globals) (ev : event) : option (sys * status) :=
  match ev with
  | MainAdminLogin u p =>
      Some (if admin_login u p then (mkSys AdminMenu g, Done)
            else (mkSys MainMenu g, Failed InvalidAdminCredentials))
  | MainUserLogin u p =>
      let r := user_login e u p g in
      Some (mkSys (match snd r with Done => UserMenu | Failed _ => MainMenu end) (fst r), snd r)
  | MainCreate f => Some (stay MainMenu (create_account e f g))
  | MainExit => Some (mkSys Exited (fst (save_accounts e g)), Done)
  | _ => None
  end.

(** The [switch (choice)] of the user dashboard (lines 386-430): "Logout"
    sets [current_user = NULL] and returns to the main menu; viewing the
    details or the history prints and changes nothing. *)
Definition user_step (e : env) (g : globals) (ev : event) : option (sys * status) :=
  match ev with
  | UserDeposit amt => Some (stay UserMenu (deposit_money e amt g))
  | UserWithdraw amt => Some (stay UserMenu (withdraw_money e amt g))
  | UserTransfer t amt => Some (stay UserMenu (transfer_money e t amt g))
  | UserChangePassword o n c => Some (stay UserMenu (change_password e o n c g))
  | UserView => Some (mkSys UserMenu g, Done)
  | UserHistory => Some (mkSys UserMenu g, Done)
  | UserLogout => Some (mkSys MainMenu (logout g), Done)
  | _ => None
  end.

(** The [switch (choice)] of the admin dashboard (lines 282-321); the
    statistics and the listing only print. *)
Definition admin_step (e : env) (g : globals) (ev : event) : option (sys * status) :=
  match ev with
  | AdminViewAll => Some (mkSys AdminMenu g, Done)
  | AdminBlock n => Some (stay AdminMenu (admin_block_account e n g))
  | AdminUnblock n => Some (stay AdminMenu (admin_unblock_account e n g))
  | AdminStats => Some (mkSys AdminMenu g, Done)
  | AdminBack => Some (mkSys MainMenu g, Done)
  | _ => None
  end.

(** One menu choice, dispatched on the menu being shown; [None] for a
    choice the menu does not offer ("Invalid choice!"). *)
Definition step (e : env) (s : sys) (ev : event) : option (sys * status) :=
  match sys_mode s with
  | MainMenu => main_step e (sys_globals s) ev
  | UserMenu => user_step e (sys_globals s) ev
  | AdminMenu => admin_step e (sys_globals s) ev
  | Exited => None
  end.

(** A start of the program: [main_menu] runs [load_accounts] on the
    zero-initialised globals, with the file [accounts.dat] as it is on
    disk (lines 212-215). *)
Definition boot (file : option (list Byte.byte)) : sys :=
  mkSys MainMenu (fst (load_accounts (mkGlobals [] None file))).

(** The first start: there is no [accounts.dat]. *)
Definition initial : sys := boot None.

Inductive reach : sys -> Prop :=
| reach_initial : reach initial
| reach_step s e ev s' st : reach s -> step e s ev = Some (s', st) -> reach s'.

(** What every reachable state satisfies. *)
Definition sys_ok (s : sys) : Prop :=
  globals_ok (sys_globals s) /\
  match sys_mode s with
  | UserMenu => current_user (sys_globals s) <> None
  | _ => current_user (sys_globals s) = None
  end.

#[export] Instance sys_ok_dec s : Decision (sys_ok s).
Proof. unfold sys_ok. destruct (sys_mode s); apply _. Defined.

(** ** Who is logged in after each handler *)

Lemma with_current_user_session g k :
  (forall i a, current_user (fst (k i a)) = current_user g) ->
  current_user (fst (with_current_user g k)) = current_user g.
Proof.
  intros Hk. unfold with_current_user.
  destruct (current_user g) as [i|] eqn:Hc; [|done].
  destruct (accounts g !! i); [|done]. rewrite Hk. done.
Qed.

Ltac session_kept :=
  apply with_current_user_session; intros ? ?;
  repeat (case_match; simpl; rewrite ?write_current_session, ?save_accounts_session; try done).

Lemma deposit_money_session e amt g :
  current_user (fst (deposit_money e amt g)) = current_user g.
Proof. unfold deposit_money. session_kept. Qed.

Lemma withdraw_money_session e amt g :
  current_user (fst (withdraw_money e amt g)) = current_user g.
Proof. unfold withdraw_money. session_kept. Qed.

Lemma transfer_money_session e t amt g :
  current_user (fst (transfer_money e t amt g)) = current_user g.
Proof. unfold transfer_money. session_kept. Qed.

Lemma change_password_session e o n c g :
  current_user (fst (change_password e o n c g)) = current_user g.
Proof. unfold change_password. session_kept. Qed.

Lemma create_account_session e f g :
  current_user (fst (create_account e f g)) = current_user g.
Proof.
  unfold create_account. case_match; simpl; [|done].
  by rewrite save_accounts_session.
Qed.

Lemma admin_block_account_session e n g :
  current_user (fst (admin_block_account e n g)) = current_user g.
Proof.
  unfold admin_block_account. repeat case_match; simpl; [|done].
  apply write_current_session.
Qed.

Lemma admin_unblock_account_session e n g :
  current_user (fst (admin_unblock_account e n g)) = current_user g.
Proof.
  unfold admin_unblock_account. repeat case_match; simpl; [|done].
  apply write_current_session.
Qed.

(** A login that fails leaves [current_user] alone; one that succeeds sets
    it. *)
Lemma user_login_failed_session e u p g err :
  snd (user_login e u p g) = Failed err ->
  current_user (fst (user_login e u p g)) = current_user g.
Proof.
  unfold user_login.
  destruct (find_account_by_username u (accounts g)) as [[i a]|]; simpl; [|done].
  destruct (is_active a); simpl; [|done].
  destruct (strcmp_eq _ _); simpl; [discriminate|].
  rewrite write_current_session. done.
Qed.

Lemma user_login_done_session e u p g :
  snd (user_login e u p g) = Done -> current_user (fst (user_login e u p g)) <> None.
Proof.
  unfold user_login.
  destruct (find_account_by_username u (accounts g)) as [[i a]|]; simpl; [|discriminate].
  destruct (is_active a); simpl; [|discriminate].
  destruct (strcmp_eq _ _); simpl; [done|].
  destruct (3 <=? failed_attempts a + 1); discriminate.
Qed.

Lemma initial_ok : sys_ok initial.
Proof.
  unfold sys_ok, initial, boot, load_accounts. simpl. split; [|done].
  split; [split_and!; [constructor|constructor|unfold MAX_ACCOUNTS; simpl; lia]|done].
Qed.

#[export] Hint Resolve deposit_money_ok withdraw_money_ok transfer_money_ok change_password_ok
  create_account_ok admin_unblock_account_ok save_accounts_ok : bank.
#[export] Hint Rewrite deposit_money_session withdraw_money_session transfer_money_session
  change_password_session create_account_session admin_block_account_session
  admin_unblock_account_session : bank_len.

Lemma step_ok e s ev s' st : sys_ok s -> step e s ev = Some (s', st) -> sys_ok s'.
Proof.
  intros [Hg Hm] Hs. destruct s as [m g]. unfold step in Hs. simpl in *.
  destruct m, ev; simpl in Hs; try discriminate; try destruct (admin_login _ _);
    injection Hs as <- <-;
    unfold sys_ok, stay; simpl; autorewrite with bank_len; try (split; [auto with bank|done]).
  - destruct (snd (user_login e u p g)) as [|err] eqn:Hst; (split; [by apply user_login_ok|]).
    + by apply user_login_done_session.
    + rewrite (user_login_failed_session e u p g err Hst). done.
  - destruct Hg as [Ht Hs]. exact (conj Ht I).
  - by apply admin_block_account_ok.
Qed.

(** (C1) The store invariant holds in every state a run of the program can
    reach: after any sequence of menu choices and inputs, with any dates,
    clock values and file-write outcomes, every account's balance is at or
    above the floor of its type ([SAVINGS] 500, [CURRENT] 1000, [PREMIUM]
    5000), its type is one of the three, its ledger is a consistent audit
    trail, its lockout counter is between 0 and 3 (below 3 while active),
    usernames are unique, at most [MAX_ACCOUNTS] accounts exist, and the
    user dashboard is shown exactly when [current_user] points to an
    active account. *)
Theorem reach_ok s : reach s -> sys_ok s.
Proof.
  induction 1 as [|s e ev s' st Hr IH Hs]; [apply initial_ok|].
  by eapply step_ok.
Qed.

(** ** Blocked accounts are frozen *)

(** The logged-in account is active, so a blocked account is not it. *)
Lemma blocked_not_current g j a :
  session_ok g -> accounts g !! j = Some a -> is_active a = false -> current_user g <> Some j.
Proof.
  unfold session_ok. intros Hs Hj Ha Hc. rewrite Hc in Hs.
  destruct Hs as (a' & Hj' & Ha'). congruence.
Qed.

Lemma write_current_other e g i a j :
  i <> j -> accounts (write_current e g i a) !! j = accounts g !! j.
Proof. intros Hne. rewrite write_current_accounts. by apply list_lookup_insert_ne. Qed.

(** A write at the index of an active account leaves a blocked one. *)
Lemma write_active_other e g i b j a a' :
  accounts g !! i = Some b -> is_active b = true -> accounts g !! j = Some a -> is_active a = false ->
  accounts (write_current e g i a') !! j = Some a.
Proof. intros Hi Hb Hj Ha. rewrite write_current_other; [done|]. intros ->. congruence. Qed.

Lemma with_current_user_other g k j :
  (forall i a, accounts g !! i = Some a -> i <> j -> accounts (fst (k i a)) !! j = accounts g !! j) ->
  current_user g <> Some j ->
  accounts (fst (with_current_user g k)) !! j = accounts g !! j.
Proof.
  intros Hk Hc. unfold with_current_user.
  destruct (current_user g) as [i|] eqn:Hci; [|done].
  destruct (accounts g !! i) as [a|] eqn:Hi; [|done].
  apply Hk; [done|]. intros ->. by apply Hc.
Qed.

Ltac other_kept :=
  apply with_current_user_other; [|assumption]; intros ? ? ? ?;
  repeat (case_match; simpl; try done); by apply write_current_other.

Lemma set_is_active_same a : is_active a = false -> set_is_active a false = a.
Proof. destruct a; simpl. by intros ->. Qed.

(** The handlers one by one: none changes a blocked account but the
    administrator's unblock. *)
Lemma frozen_user_handlers e g ev j a :
  current_user g <> Some j -> accounts g !! j = Some a -> is_active a = false ->
  (forall n, ev <> AdminUnblock n) ->
  match user_step e g ev with Some (s', _) => accounts (sys_globals s') !! j = Some a | None => True end.
Proof.
  intros Hc Hj Ha Hev. destruct ev; simpl; try done;
    try (rewrite <- Hj; unfold deposit_money, withdraw_money, change_password; other_kept).
  rewrite <- Hj. destruct (transfer_money_cases e target amt g)
    as [[-> _]|(i & k & cur & tg & Hci & Hi & Hf & Hta & _ & _ & _ & ->)]; [done|].
  simpl. rewrite save_accounts_accounts. cbn [accounts set_accounts].
  apply find_account_by_number_Some in Hf as [Hk _].
  rewrite !list_lookup_insert_ne; [done| |]; intros ->; congruence.
Qed.

Lemma frozen_user_login e u p g j a :
  accounts g !! j = Some a -> is_active a = false ->
  accounts (fst (user_login e u p g)) !! j = Some a.
Proof.
  intros Hj Ha. unfold user_login.
  destruct (find_account_by_username u (accounts g)) as [[i b]|] eqn:Hf; [|done].
  apply find_account_by_username_Some in Hf as [Hi _].
  destruct (is_active b) eqn:Hb; simpl; [|done].
  assert (Hne : i <> j) by (intros ->; congruence).
  destruct (strcmp_eq _ _); simpl.
  - by rewrite list_lookup_insert_ne.
  - by rewrite write_current_other.
Qed.

Lemma frozen_create_account e f g j a :
  accounts g !! j = Some a -> accounts (fst (create_account e f g)) !! j = Some a.
Proof.
  intros Hj. unfold create_account. case_match; simpl; [|done].
  rewrite save_accounts_accounts. simpl. by apply lookup_app_l_Some.
Qed.

Lemma frozen_admin_block e n g j a :
  accounts g !! j = Some a -> is_active a = false ->
  accounts (fst (admin_block_account e n g)) !! j = Some a.
Proof.
  intros Hj Ha. unfold admin_block_account.
  destruct (find_account_by_number n (accounts g)) as [[i b]|] eqn:Hf; simpl; [|done].
  apply find_account_by_number_Some in Hf as [Hi _].
  destruct (decide (i = j)) as [->|Hne].
  - rewrite Hj in Hi. injection Hi as ->. rewrite write_current_accounts.
    rewrite set_is_active_same by done. apply list_lookup_insert_eq. by eapply lookup_lt_Some.
  - by rewrite write_current_other.
Qed.

(** (C11) A blocked account takes part in no mutation: from a state with
    the store invariant, no menu choice changes an account whose
    [is_active] is 0, except the administrator's unblock (a transfer to it
    is refused, its holder cannot log in, the logged-in user is someone
    else, and blocking it again writes the same record). *)
Theorem blocked_account_frozen e s ev s' st j a :
  sys_ok s -> step e s ev = Some (s', st) ->
  accounts (sys_globals s) !! j = Some a -> is_active a = false ->
  (forall n, ev <> AdminUnblock n) ->
  accounts (sys_globals s') !! j = Some a.
Proof.
  intros [[_ Hsess] _] Hs Hj Ha Hev.
  pose proof (blocked_not_current _ _ _ Hsess Hj Ha) as Hc.
  destruct s as [m g]; simpl in *. unfold step in Hs. simpl in Hs.
  destruct m.
  - destruct ev; simpl in Hs; try discriminate; try destruct (admin_login _ _);
      injection Hs as <- _; simpl; try done.
    + by apply frozen_user_login.
    + by apply frozen_create_account.
    + by rewrite save_accounts_accounts.
  - pose proof (frozen_user_handlers e g ev j a Hc Hj Ha Hev) as H. by rewrite Hs in H.
  - destruct ev; simpl in Hs; try discriminate; injection Hs as <- _; simpl; try done.
    + by apply frozen_admin_block.
    + exfalso. by apply (Hev n).
  - discriminate.
Qed.

(** ** Runs *)

(** A session at the keyboard: each menu choice with the environment of
    its call.  A choice the current menu does not offer prints "Invalid
    choice!" and changes nothing. *)
Fixpoint run (s : sys) (evs : list (env * event)) : sys * list status :=
  match evs with
  | [] => (s, [])
  | (e, ev) :: evs' =>
      match step e s ev with
      | Some (s', st) => let r := run s' evs' in (fst r, st :: snd r)
      | None => let r := run s evs' in (fst r, Failed InvalidChoice :: snd r)
      end
  end.

Lemma run_reach s evs : reach s -> reach (fst (run s evs)).
Proof.
  revert s. induction evs as [|[e ev] evs IH]; intros s Hs; simpl; [done|].
  destruct (step e s ev) as [[s' st]|] eqn:Hst; simpl; apply IH; [|done].
  by eapply reach_step.
Qed.

(** The balances and ledger sizes of the table, for the scenarios. *)
Definition summary (s : sys) : list (Z * nat) :=
  (fun a => (balance a, length (transactions a))) <$> accounts (sys_globals s).

Definition env_at (t : Z) : env := mkEnv "09/11/2026 10:00" t true.

(** The scenario of the specification: a SAVINGS account opened with
    500 has balance 500 and one ledger entry; withdrawing 1 is refused
    (499 would break the floor of 500); depositing 100 then withdrawing
    100 succeeds, leaving 500 exactly at the floor and three entries. *)
Example savings_floor_scenario :
  let f := mkForm "Alice Smith" "alicesmith" "alice@example.com" "9876543210" "01/01/1990"
             "secret12" "secret12" 1 500 in
  let r := run initial
    [(env_at 100, MainCreate f); (env_at 101, MainUserLogin "alicesmith" "secret12");
     (env_at 102, UserWithdraw 1); (env_at 103, UserDeposit 100);
     (env_at 104, UserWithdraw 100)] in
  snd r = [Done; Done; Failed (InsufficientBalance 500); Done; Done] /\
  summary (fst r) = [(500, 3%nat)].
Proof. vm_compute. split; reflexivity. Qed.

(** The transfer scenario of the specification: A (SAVINGS, 1000)
    sending 600 to B (SAVINGS, 500) would leave A at 400, below its floor
    of 500: the transfer is refused and neither balance nor ledger
    changes. *)
Example transfer_floor_scenario :
  let fa := mkForm "Ann Lee" "annlee01" "ann@example.com" "9876543210" "01/01/1990"
              "secret12" "secret12" 1 1000 in
  let fb := mkForm "Bob Ray" "bobray02" "bob@example.com" "9876543211" "02/02/1990"
              "secret34" "secret34" 1 500 in
  let r1 := run initial [(env_at 100, MainCreate fa); (env_at 200, MainCreate fb);
                         (env_at 300, MainUserLogin "annlee01" "secret12")] in
  let b_number := generate_account_number 200 in
  let r2 := run (fst r1) [(env_at 301, UserTransfer b_number 600)] in
  snd r1 = [Done; Done; Done] /\
  snd r2 = [Failed (InsufficientBalance 500)] /\
  summary (fst r2) = summary (fst r1) /\ summary (fst r1) = [(1000, 1%nat); (500, 1%nat)].
Proof. vm_compute. split_and!; reflexivity. Qed.

(** The username scenario of the specification: "ab" is refused for
    its length, "abcdefgh" (8 characters) is accepted. *)
Example username_length_scenario :
  let f u := mkForm "Carol Day" u "carol@example.com" "9876543212" "03/03/1990"
               "secret56" "secret56" 2 1000 in
  snd (run initial [(env_at 100, MainCreate (f "ab")); (env_at 101, MainCreate (f "abcdefgh"))])
    = [Failed UsernameLength; Done].
Proof. vm_compute. reflexivity. Qed.

(** The lockout scenario: three wrong passwords block the account
    (the third attempt reports the block), the right password is then
    refused as blocked, and after the administrator's unblock it opens
    the account again. *)
Example lockout_scenario :
  let f := mkForm "Dan Fox" "danfox0001" "dan@example.com" "9876543213" "04/04/1990"
             "secret78" "secret78" 3 5000 in
  let number := generate_account_number 100 in
  snd (run initial
    [(env_at 100, MainCreate f);
     (env_at 101, MainUserLogin "danfox0001" "wrong");
     (env_at 102, MainUserLogin "danfox0001" "wrong");
     (env_at 103, MainUserLogin "danfox0001" "wrong");
     (env_at 104, MainUserLogin "danfox0001" "secret78");
     (env_at 105, MainAdminLogin "admin" "admin");
     (env_at 106, AdminUnblock number);
     (env_at 107, AdminBack);
     (env_at 108, MainUserLogin "danfox0001" "secret78")])
  = [Done; Failed (InvalidPassword 2); Failed (InvalidPassword 1); Failed BlockedAfterFailures;
     Failed AccountBlocked; Done; Done; Done; Done].
Proof. vm_compute. reflexivity. Qed.

Lemma reach_ok_witness :
  let f := mkForm "Ann Lee" "annlee01" "ann@example.com" "9876543210" "01/01/1990"
             "secret12" "secret12" 1 1000 in
  let s := fst (run initial [(env_at 100, MainCreate f); (env_at 101, MainUserLogin "annlee01" "secret12");
                             (env_at 102, UserDeposit 250)]) in
  reach s /\ sys_mode s = UserMenu /\ sys_ok s.
Proof.
  intros f s. assert (Hr : reach s) by (apply run_reach, reach_initial).
  split_and!; [exact Hr | vm_compute; reflexivity | exact (reach_ok s Hr)].
Defined.

(** ** Exit and restart *)

(** (C16) Exit and restart: choosing "Exit" saves the table, and the next
    start of the program loads it back, in the main menu with nobody
    logged in, the same accounts, and the store invariant intact, for every
    table the structs can hold. *)
Theorem exit_then_restart e s s' st :
  sys_mode s = MainMenu -> globals_ok (sys_globals s) -> env_disk_ok e = true ->
  table_fits (accounts (sys_globals s)) -> step e s MainExit = Some (s', st) ->
  let s2 := boot (disk (sys_globals s')) in
  sys_mode s' = Exited /\ accounts (sys_globals s2) = accounts (sys_globals s) /\
  current_user (sys_globals s2) = None /\ sys_ok s2.
Proof.
  intros Hm Hg Hd Hf Hs s2. unfold step in Hs. rewrite Hm in Hs. simpl in Hs.
  injection Hs as <- _. simpl.
  unfold s2, boot, save_accounts. rewrite Hd. cbn [sys_globals fst set_disk disk].
  rewrite (load_accounts_snapshot _ (accounts (sys_globals s))) by done.
  split_and!; try done. split; [|done]. split; [apply Hg|done].
Qed.

Lemma exit_then_restart_witness :
  let s := mkSys MainMenu (mkGlobals [sample_ann; sample_bob] None None) in
  let s' := mkSys Exited (fst (save_accounts sample_env (sys_globals s))) in
  globals_ok (sys_globals s) /\ table_fits (accounts (sys_globals s)) /\
  step sample_env s MainExit = Some (s', Done) /\
  accounts (sys_globals (boot (disk (sys_globals s')))) = [sample_ann; sample_bob].
Proof.
  intros s s'.
  assert (Hg : globals_ok (sys_globals s)) by (apply (bool_decide_unpack _); vm_compute; exact I).
  assert (Hf : table_fits (accounts (sys_globals s)))
    by (apply (bool_decide_unpack _); vm_compute; exact I).
  assert (Hs : step sample_env s MainExit = Some (s', Done)) by reflexivity.
  split_and!; [exact Hg | exact Hf | exact Hs |].
  exact (proj1 (proj2 (exit_then_restart sample_env s s' Done eq_refl Hg eq_refl Hf Hs))).
Defined.

Lemma blocked_account_frozen_witness :
  let bob := set_is_active sample_bob false in
  let s := mkSys UserMenu (mkGlobals [sample_ann; bob] (Some 0%nat) None) in
  let r := (mkSys UserMenu (mkGlobals [sample_ann; bob] (Some 0%nat) None), Failed TargetBlocked) in
  sys_ok s /\ step sample_env s (UserTransfer "SAR0000000002" 100) = Some r /\
  accounts (sys_globals (fst r)) !! 1%nat = Some bob.
Proof.
  intros bob s r.
  assert (Hok : sys_ok s) by (apply (bool_decide_unpack _); vm_compute; exact I).
  assert (Hs : step sample_env s (UserTransfer "SAR0000000002" 100) = Some r) by reflexivity.
  split_and!; [exact Hok | exact Hs |].
  apply (blocked_account_frozen sample_env s _ _ _ 1 bob Hok Hs); [reflexivity | reflexivity | discriminate].
Defined.

(** ** Liveness

    [eventually P s]: some sequence of menu choices leads from [s] to a
    state satisfying [P]. *)
Inductive eventually (P : sys -> Prop) : sys -> Prop :=
| ev_now s : P s -> eventually P s
| ev_step s e ev s' st : step e s ev = Some (s', st) -> eventually P s' -> eventually P s.

#[local] Hint Constructors eventually : bank.

(** One choice, then the rest. *)
Lemma eventually_step_env P s ev s' st :
  step (env_at 0) s ev = Some (s', st) -> eventually P s' -> eventually P s.
Proof. intros. eapply ev_step; eauto. Qed.

(** Every menu leads back to the main menu in at most one choice, with the
    same accounts. *)
Lemma back_to_main P s :
  sys_mode s <> Exited ->
  (forall g, accounts g = accounts (sys_globals s) -> eventually P (mkSys MainMenu g)) ->
  eventually P s.
Proof.
  intros Hm HP. destruct s as [[] g]; simpl in *.
  - by apply HP.
  - apply (eventually_step_env _ _ UserLogout (mkSys MainMenu (logout g)) Done); [done|].
    by apply HP.
  - apply (eventually_step_env _ _ AdminBack (mkSys MainMenu g) Done); [done|]. by apply HP.
  - done.
Qed.

(** (C20) The program can always be left: from every menu, choosing "Back"
    or "Logout" and then "Exit" ends it (after saving). *)
Theorem exit_reachable s :
  sys_mode s <> Exited -> eventually (fun s' => sys_mode s' = Exited) s.
Proof.
  intros Hm. apply back_to_main; [done|]. intros g _.
  apply (eventually_step_env _ _ MainExit (mkSys Exited (fst (save_accounts (env_at 0) g))) Done);
    [done|]. by apply ev_now.
Qed.

Lemma exit_reachable_witness :
  sys_mode (mkSys UserMenu sample_globals) <> Exited /\
  eventually (fun s' => sys_mode s' = Exited) (mkSys UserMenu sample_globals).
Proof.
  assert (H : sys_mode (mkSys UserMenu sample_globals) <> Exited) by discriminate.
  split; [exact H | exact (exit_reachable _ H)].
Defined.

(** (C12) A holder who knows the password can always get back in, even after
    a lockout: from any menu, going back to the main menu, logging in as
    the administrator with the constant credentials, unblocking the
    account by its number, going back and logging in as the holder opens
    the user dashboard on that account, provided the number and the
    username lead to it (the number is not shadowed by a duplicate). *)
Theorem account_recoverable s j a p :
  sys_mode s <> Exited ->
  find_account_by_number (account_number a) (accounts (sys_globals s)) = Some (j, a) ->
  find_account_by_username (username a) (accounts (sys_globals s)) = Some (j, a) ->
  strcmp_eq (password_hash a) (hash_password p) = true ->
  eventually (fun s' => sys_mode s' = UserMenu /\ current_user (sys_globals s') = Some j) s.
Proof.
  intros Hm Hn Hu Hp. apply back_to_main; [done|]. intros g Hg. rewrite <- Hg in Hn, Hu.
  set (e := env_at 0).
  set (a1 := set_failed_attempts (set_is_active a true) 0).
  set (g1 := write_current e g j a1).
  apply (eventually_step_env _ _ (MainAdminLogin "admin" "admin") (mkSys AdminMenu g) Done); [done|].
  apply (eventually_step_env _ _ (AdminUnblock (account_number a)) (mkSys AdminMenu g1) Done).
  { unfold step. simpl. unfold admin_unblock_account. by rewrite Hn. }
  apply (eventually_step_env _ _ AdminBack (mkSys MainMenu g1) Done); [done|].
  assert (Hu1 : find_account_by_username (username a) (accounts g1) = Some (j, a1))
    by (by apply (find_after_write _ _ _ _ a)).
  eapply (eventually_step_env _ _ (MainUserLogin (username a) p)).
  { unfold step. simpl. rewrite (user_login_right _ _ p _ j a1 Hu1 eq_refl Hp). reflexivity. }
  apply ev_now. split; reflexivity.
Qed.

Lemma account_recoverable_witness :
  let bob := set_failed_attempts (set_is_active (set_password_hash sample_bob (hash_password "secret34")) false) 3 in
  let s := mkSys MainMenu (mkGlobals [sample_ann; bob] None None) in
  sys_mode s <> Exited /\
  find_account_by_number (account_number bob) (accounts (sys_globals s)) = Some (1%nat, bob) /\
  find_account_by_username (username bob) (accounts (sys_globals s)) = Some (1%nat, bob) /\
  strcmp_eq (password_hash bob) (hash_password "secret34") = true /\
  eventually (fun s' => sys_mode s' = UserMenu /\ current_user (sys_globals s') = Some 1%nat) s.
Proof.
  intros bob s.
  assert (Hm : sys_mode s <> Exited) by discriminate.
  assert (Hn : find_account_by_number (account_number bob) (accounts (sys_globals s)) = Some (1%nat, bob))
    by (vm_compute; reflexivity).
  assert (Hu : find_account_by_username (username bob) (accounts (sys_globals s)) = Some (1%nat, bob))
    by (vm_compute; reflexivity).
  assert (Hp : strcmp_eq (password_hash bob) (hash_password "secret34") = true)
    by (vm_compute; reflexivity).
  split_and!; [exact Hm | exact Hn | exact Hu | exact Hp |].
  exact (account_recoverable s 1 bob "secret34" Hm Hn Hu Hp).
Defined.
